(** * Indexing and retrieval engine of the coding agent

    A shallow embedding of [coding_agent/tools/indexing_agent.py] and
    [coding_agent/tools/vector_search_tool.py], and the properties of the
    specification that concern them.

    Conventions.
    - A Python [str] is a [string]; a character is a code point below 256.
    - Python integers that hold line numbers and list indices are never
      negative in this code; they are [nat].  The two subtractions of the
      source ([line_num - 1], [start_line - 1]) are applied to successors.
    - A raised exception is the [Raise] case of the [res] monad.
    - The embedding model, the digest function and the vector store are
      external libraries: they appear as section variables or as explicit
      finite maps. *)

From Stdlib Require Import Ascii String.
From stdpp Require Import gmap strings list pretty sorting.

Set Warnings "-register-all".

(** ** Python string primitives *)

Module PyStr.

Definition NL : ascii := "010"%char.
Definition nl : string := String NL "".

(** [str.isspace] on one character (code points below 256). *)
Definition is_space (c : ascii) : bool :=
  match c with
  | "009" | "010" | "011" | "012" | "013"
  | "028" | "029" | "030" | "031" | " " | "133" | "160" => true
  | _ => false
  end%char.

(** [s.split(sep)] for a one-character separator. *)
Fixpoint split (sep : ascii) (s : string) : list string :=
  match s with
  | EmptyString => [EmptyString]
  | String c s' =>
      if Ascii.eqb c sep then EmptyString :: split sep s'
      else match split sep s' with
           | [] => [String c EmptyString]
           | w :: ws => String c w :: ws
           end
  end.

(** [sep.join(l)]. *)
Fixpoint join (sep : string) (l : list string) : string :=
  match l with
  | [] => ""
  | x :: rest =>
      match rest with
      | [] => x
      | _ :: _ => x +:+ sep +:+ join sep rest
      end
  end.

Fixpoint mem (c : ascii) (cs : string) : bool :=
  match cs with
  | EmptyString => false
  | String d cs' => Ascii.eqb c d || mem c cs'
  end.

Fixpoint lstrip_by (p : ascii → bool) (s : string) : string :=
  match s with
  | EmptyString => EmptyString
  | String c s' => if p c then lstrip_by p s' else s
  end.

Definition rstrip_by (p : ascii → bool) (s : string) : string :=
  String.rev (lstrip_by p (String.rev s)).

Definition strip_by (p : ascii → bool) (s : string) : string :=
  rstrip_by p (lstrip_by p s).

(** [s.strip()] *)
Definition strip : string → string := strip_by is_space.

(** [s.strip(chars)] *)
Definition strip_chars (chars : string) : string → string :=
  strip_by (λ c, mem c chars).

(** [s.startswith(c)] for a one-character prefix. *)
Definition startswith (c : ascii) (s : string) : bool :=
  match s with
  | String d _ => Ascii.eqb d c
  | EmptyString => false
  end.

(** [s.endswith(suffix)] *)
Definition endswith (suffix s : string) : bool :=
  String.prefix (String.rev suffix) (String.rev s).

(** Truth value of a string: non-empty. *)
Definition truthy (s : string) : bool :=
  match s with EmptyString => false | String _ _ => true end.

(** [s[:n]] *)
Fixpoint take_str (n : nat) (s : string) : string :=
  match n, s with
  | S n', String c s' => String c (take_str n' s')
  | _, _ => EmptyString
  end.

(** [s[a:b]] for non-negative bounds. *)
Definition substr (a b : nat) (s : string) : string :=
  take_str (b - a) (String.rev (take_str (String.length s - a) (String.rev s))).

End PyStr.

(** [l[a:b]] for non-negative bounds: out-of-range bounds are clamped. *)
Definition py_slice {A} (a b : nat) (l : list A) : list A :=
  take (b - a) (drop a l).

(** [range(0, stop, step)] *)
Definition py_range_step (stop step : nat) : list nat :=
  (λ k, k * step) <$> seq 0 ((stop + step - 1) `div` step).

(** ** Exceptions *)

Inductive exn : Type :=
| ValueError
| AttributeError
| IndexError
| KeyError
| TypeError
| NotFoundError
| OSError.

Global Instance exn_eq_dec : EqDecision exn.
Proof. solve_decision. Defined.

Inductive res (A : Type) : Type :=
| Ok (a : A)
| Raise (e : exn).
Arguments Ok {A} a.
Arguments Raise {A} e.

Definition res_bind {A B} (k : A → res B) (m : res A) : res B :=
  match m with
  | Ok a => k a
  | Raise e => Raise e
  end.

Global Instance res_bind_inst : MBind res := @res_bind.
Global Instance res_ret_inst : MRet res := @Ok.
Global Instance res_fmap_inst : FMap res :=
  λ A B f m, match m with Ok a => Ok (f a) | Raise e => Raise e end.

(** ** pathlib paths *)

(** A [Path] is the tuple of its parts; the anchor of an absolute path is
    the part ["/"]. *)
Abbreviation Path := (list string).

Module PathOps.

(** [str(p)] *)
Definition str (p : Path) : string :=
  match p with
  | [] => "."
  | first :: rest =>
      if String.eqb first "/" then "/" +:+ PyStr.join "/" rest
      else PyStr.join "/" p
  end.

(** [p.name] *)
Definition name (p : Path) : string :=
  match last p with
  | Some n => if String.eqb n "/" then "" else n
  | None => ""
  end.

(** Index of the last ["."] of [s], counted from position [i]. *)
Fixpoint rfind_dot (i : nat) (s : string) : option nat :=
  match s with
  | EmptyString => None
  | String c s' =>
      match rfind_dot (S i) s' with
      | Some j => Some j
      | None => if Ascii.eqb c "." then Some i else None
      end
  end.

(** [p.suffix]: the last dot-separated part of the name, when the dot is
    neither its first nor its last character. *)
Definition suffix (p : Path) : string :=
  let n := name p in
  match rfind_dot 0 n with
  | Some i =>
      if bool_decide (0 < i ∧ i < String.length n - 1)
      then PyStr.substr i (String.length n) n
      else ""
  | None => ""
  end.

(** [p.relative_to(root)] *)
Fixpoint relative_to (p root : Path) : res Path :=
  match root, p with
  | [], _ => Ok p
  | r :: root', x :: p' =>
      if String.eqb r x then relative_to p' root' else Raise ValueError
  | _ :: _, [] => Raise ValueError
  end.

End PathOps.

(** ** CodeElement *)

Module CodeElement.

Record t : Type := mk {
  name : string;
  element_type : string;
  file_path : string;
  start_line : nat;
  end_line : nat;
  content : string;
  docstring : string
}.

End CodeElement.

Abbreviation CodeElement := CodeElement.t.

(** ** The chunk parser and the markdown parser *)

(** [any(l.strip() for l in section)] *)
Definition any_nonblank (section : list string) : bool :=
  existsb (λ l, PyStr.truthy (PyStr.strip l)) section.

Definition chunk_size : nat := 50.

(** [IndexingAgent._simple_text_chunks] *)
Definition _simple_text_chunks (file_path : Path) (content : string)
  : list CodeElement :=
  let lines := PyStr.split PyStr.NL content in
  omap (λ i,
    let chunk_lines := py_slice i (i + chunk_size) lines in
    let chunk_content := PyStr.join PyStr.nl chunk_lines in
    if PyStr.truthy (PyStr.strip chunk_content) then
      Some (CodeElement.mk
              ("chunk_" +:+ pretty (i `div` chunk_size))
              "text_chunk"
              (PathOps.str file_path)
              (i + 1)
              (Nat.min (i + chunk_size) (length lines))
              chunk_content
              "")
    else None)
  (py_range_step (length lines) chunk_size).

(** The variables assigned by the loop of [_parse_markdown]. *)
Record md_state : Type := MdState {
  elements : list CodeElement;
  current_section : list string;
  current_section_start : nat;
  current_heading : string
}.

(** The [if current_section and any(...)] block, shared by the loop body
    and the code after the loop; [end_line] is the line the section ends
    on. *)
Definition md_flush (file_path : Path) (st : md_state) (end_line : nat)
  : list CodeElement :=
  if bool_decide (current_section st ≠ []) && any_nonblank (current_section st)
  then
    let section_content := PyStr.join PyStr.nl (current_section st) in
    elements st ++
      [CodeElement.mk (current_heading st) "markdown_section"
         (PathOps.str file_path)
         (current_section_start st) end_line
         (PyStr.strip section_content) ""]
  else elements st.

(** [line.strip().startswith('#')] *)
Definition is_heading (line : string) : bool :=
  PyStr.startswith "#" (PyStr.strip line).

(** [line.strip('#').strip()] *)
Definition heading_name (line : string) : string :=
  PyStr.strip (PyStr.strip_chars "#" line).

(** One iteration of [for i, line in enumerate(lines)]. *)
Definition md_step (file_path : Path) (st : md_state) (i : nat) (line : string)
  : md_state :=
  let line_num := i + 1 in
  if is_heading line then
    MdState (md_flush file_path st (line_num - 1))
            []
            (line_num + 1)
            (heading_name line)
  else
    MdState (elements st)
            (current_section st ++ [line])
            (current_section_start st)
            (current_heading st).

Fixpoint md_loop (file_path : Path) (st : md_state) (i : nat)
  (lines : list string) : md_state :=
  match lines with
  | [] => st
  | line :: rest => md_loop file_path (md_step file_path st i line) (S i) rest
  end.

(** [IndexingAgent._parse_markdown] *)
Definition _parse_markdown (file_path : Path) (content : string)
  : list CodeElement :=
  let lines := PyStr.split PyStr.NL content in
  let st := md_loop file_path (MdState [] [] 1 "Introduction") 0 lines in
  md_flush file_path st (length lines).

(** ** tree-sitter syntax trees *)

(** A point is a (row, column) pair, both zero-based. *)
Abbreviation point := (nat * nat)%type.

(** A syntax node: its type, its extent and its children, each child with
    the field name it is attached under, if any. *)
Inductive Node : Type :=
| mk_node (type : string) (start_point end_point : point)
          (children : list (option string * Node)).

Module NodeOps.

Definition type (n : Node) : string :=
  match n with mk_node t _ _ _ => t end.
Definition start_point (n : Node) : point :=
  match n with mk_node _ s _ _ => s end.
Definition end_point (n : Node) : point :=
  match n with mk_node _ _ e _ => e end.
Definition fields (n : Node) : list (option string * Node) :=
  match n with mk_node _ _ _ c => c end.
Definition children (n : Node) : list Node := (fields n).*2.

(** [node.child_by_field_name(f)] *)
Definition child_by_field_name (f : string) (n : Node) : option Node :=
  snd <$> find (λ c, bool_decide (c.1 = Some f)) (fields n).

End NodeOps.

(** [x in l] for a list of strings. *)
Definition str_in (x : string) (l : list string) : bool :=
  existsb (String.eqb x) l.

(** [lines[row][a:b]]; the row is bounds-checked. *)
Definition line_substr (lines : list string) (row a b : nat) : res string :=
  match lines !! row with
  | Some l => Ok (PyStr.substr a b l)
  | None => Raise IndexError
  end.

(** [lines[name_node.start_point[0]][name_node.start_point[1]:name_node.end_point[1]]];
    attribute access on [None] raises. *)
Definition name_text (lines : list string) (name_node : option Node)
  : res string :=
  match name_node with
  | None => Raise AttributeError
  | Some nn =>
      line_substr lines (NodeOps.start_point nn).1
        (NodeOps.start_point nn).2 (NodeOps.end_point nn).2
  end.

(** The first [Some] that [f] gives along [l]: a loop that returns from
    inside its body. *)
Fixpoint first_some {A B} (f : A → option B) (l : list A) : option B :=
  match l with
  | [] => None
  | x :: rest =>
      match f x with
      | Some y => Some y
      | None => first_some f rest
      end
  end.

Definition dquote : string := String "034"%char "".
Definition squote : string := String "039"%char "".

(** [IndexingAgent._extract_python_docstring] *)
Definition _extract_python_docstring (node : Node) (lines : list string)
  : option string :=
  first_some (λ child,
    if String.eqb (NodeOps.type child) "block" then
      first_some (λ stmt,
        if String.eqb (NodeOps.type stmt) "expression_statement" then
          first_some (λ expr_child,
            if String.eqb (NodeOps.type expr_child) "string" then
              let start_line := (NodeOps.start_point expr_child).1 in
              let end_line := (NodeOps.end_point expr_child).1 in
              let docstring_lines := py_slice start_line (end_line + 1) lines in
              Some (PyStr.strip
                      (PyStr.strip_chars squote
                         (PyStr.strip_chars dquote
                            (PyStr.strip (PyStr.join PyStr.nl docstring_lines)))))
            else None)
          (NodeOps.children stmt)
        else None)
      (NodeOps.children child)
    else None)
  (NodeOps.children node).

(** [x or ""] for an optional string. *)
Definition or_empty (x : option string) : string := default "" x.

(** [IndexingAgent._extract_python_element] *)
Definition _extract_python_element (node : Node) (lines : list string)
  (file_path : Path) : res (option CodeElement) :=
  let start_line := (NodeOps.start_point node).1 + 1 in
  let end_line := (NodeOps.end_point node).1 + 1 in
  let element_lines := py_slice (start_line - 1) end_line lines in
  let content := PyStr.join PyStr.nl element_lines in
  if String.eqb (NodeOps.type node) "function_def" then
    name ← name_text lines (NodeOps.child_by_field_name "name" node);
    let docstring := or_empty (_extract_python_docstring node lines) in
    Ok (Some (CodeElement.mk name "function" (PathOps.str file_path)
                start_line end_line content docstring))
  else if String.eqb (NodeOps.type node) "class_definition" then
    name ← name_text lines (NodeOps.child_by_field_name "name" node);
    let docstring := or_empty (_extract_python_docstring node lines) in
    Ok (Some (CodeElement.mk name "class" (PathOps.str file_path)
                start_line end_line content docstring))
  else if str_in (NodeOps.type node) ["import_statement"; "import_from_statement"]
  then
    Ok (Some (CodeElement.mk "import" "import" (PathOps.str file_path)
                start_line end_line content ""))
  else Ok None.

(** [IndexingAgent._extract_js_ts_element] *)
Definition _extract_js_ts_element (node : Node) (lines : list string)
  (file_path : Path) : res (option CodeElement) :=
  let start_line := (NodeOps.start_point node).1 + 1 in
  let end_line := (NodeOps.end_point node).1 + 1 in
  let element_lines := py_slice (start_line - 1) end_line lines in
  let content := PyStr.join PyStr.nl element_lines in
  if String.eqb (NodeOps.type node) "function_declaration" then
    match NodeOps.child_by_field_name "name" node with
    | Some name_node =>
        name ← name_text lines (Some name_node);
        Ok (Some (CodeElement.mk name "function" (PathOps.str file_path)
                    start_line end_line content ""))
    | None => Ok None
    end
  else if String.eqb (NodeOps.type node) "class_declaration" then
    match NodeOps.child_by_field_name "name" node with
    | Some name_node =>
        name ← name_text lines (Some name_node);
        Ok (Some (CodeElement.mk name "class" (PathOps.str file_path)
                    start_line end_line content ""))
    | None => Ok None
    end
  else if String.eqb (NodeOps.type node) "import_statement" then
    Ok (Some (CodeElement.mk "import" "import" (PathOps.str file_path)
                start_line end_line content ""))
  else Ok None.

(** The part of [traverse_node] that looks at the node itself: the
    elements it appends. *)
Definition visit_node (file_ext : string) (lines : list string)
  (file_path : Path) (node : Node) : res (list CodeElement) :=
  if String.eqb file_ext ".py" then
    if str_in (NodeOps.type node)
         ["function_def"; "class_definition"; "import_statement";
          "import_from_statement"]
    then option_list <$> _extract_python_element node lines file_path
    else Ok []
  else if str_in file_ext [".js"; ".ts"; ".tsx"] then
    if str_in (NodeOps.type node)
         ["function_declaration"; "method_definition"; "class_declaration";
          "import_statement"]
    then option_list <$> _extract_js_ts_element node lines file_path
    else Ok []
  else Ok [].

(** The closure [traverse_node] of [_parse_with_tree_sitter]; the list it
    returns is what the call appends to [elements], in order. *)
Fixpoint traverse_node (file_ext : string) (lines : list string)
  (file_path : Path) (node : Node) : res (list CodeElement) :=
  here ← visit_node file_ext lines file_path node;
  below ← (fix traverse_children (cs : list (option string * Node)) :=
             match cs with
             | [] => Ok []
             | c :: cs' =>
                 first ← traverse_node file_ext lines file_path c.2;
                 others ← traverse_children cs';
                 Ok (first ++ others)
             end)
          (match node with mk_node _ _ _ cs => cs end);
  Ok (here ++ below).

(** File extensions that have an entry in [self.parsers]. *)
Definition parsers : list string := [".py"; ".js"; ".ts"; ".tsx"].

Section Grammar.

(** [self.parsers[file_ext].parse(content.encode())]: the root node that
    tree-sitter builds for the text of a file. *)
Variable ts_parse : string → string → Node.

(** [IndexingAgent._parse_with_tree_sitter] *)
Definition _parse_with_tree_sitter (file_path : Path) (content : string)
  (file_ext : string) : res (list CodeElement) :=
  if str_in file_ext parsers then
    let tree := ts_parse file_ext content in
    let lines := PyStr.split PyStr.NL content in
    traverse_node file_ext lines file_path tree
  else Raise KeyError.

End Grammar.

(** ** Metadata values and the vector store *)

(** The values a metadata dictionary holds. *)
Inductive pyval : Type :=
| PStr (s : string)
| PInt (z : Z)
| PBool (b : bool)
| PNone.

Global Instance pyval_eq_dec : EqDecision pyval.
Proof. solve_decision. Defined.

(** A [dict] with string keys, in insertion order. *)
Abbreviation dict := (list (string * pyval)).

(** [d.get(k)] *)
Fixpoint dict_get (k : string) (d : dict) : option pyval :=
  match d with
  | [] => None
  | (k', v) :: rest => if String.eqb k k' then Some v else dict_get k rest
  end.

(** One stored entry of a collection. *)
Record Row (V : Type) : Type := mkRow {
  embedding : V;
  metadata : dict;
  document : string
}.
Arguments mkRow {V}.
Arguments embedding {V}.
Arguments metadata {V}.
Arguments document {V}.

(** Modelled from the spec: the vector store is the chromadb library, which
    is not part of the repository.  A collection maps ids to entries, and
    [upsert] is insert-or-overwrite keyed by id: no two entries share an
    id.  The four arguments are the parallel lists of the call. *)
Definition chroma_upsert {V} (documents : list string) (embeddings : list V)
  (metadatas : list dict) (ids : list string) (c : gmap string (Row V))
  : gmap string (Row V) :=
  foldl (λ c ir, <[ir.1 := ir.2]> c) c
        (zip ids (zip_with (λ em d, mkRow em.1 em.2 d)
                           (zip embeddings metadatas) documents)).

(** Modelled from the spec: a query or fetch with [where={k: v}] selects
    the entries whose metadata holds exactly [v] under [k]. *)
Definition where_matches (k : string) (v : pyval) (m : dict) : bool :=
  bool_decide (dict_get k m = Some v).

(** The persistent client: collection name to collection. *)
Abbreviation Client V := (gmap string (gmap string (Row V))).

(** The [try: get_collection(...) except: create_collection(...)] of
    [IndexingAgent.__init__]. *)
Definition get_or_create {V} (name : string) (cl : Client V) : Client V :=
  match cl !! name with
  | Some _ => cl
  | None => <[name := ∅]> cl
  end.

(** [collection.upsert(...)] through a collection handle of the client. *)
Definition collection_upsert {V} (name : string) (documents : list string)
  (embeddings : list V) (metadatas : list dict) (ids : list string)
  (cl : Client V) : Client V :=
  <[name := chroma_upsert documents embeddings metadatas ids
              (default ∅ (cl !! name))]> cl.

(** ** The file system under the project root *)

Record FileSystem : Type := mkFS {
  (** every entry below the root, relative to it, in walk order *)
  fs_walk : list Path;
  (** [open(path, 'r', encoding='utf-8', errors='ignore').read()] *)
  fs_read : Path → res string
}.

(** [root.rglob("*" + ext)] *)
Definition rglob (fs : FileSystem) (root : Path) (ext : string) : list Path :=
  (λ rel, root ++ rel) <$>
    filter (λ rel, PyStr.endswith ext (PathOps.name rel) = true) (fs_walk fs).

(** ** The run report and file summaries *)

Record FileSummary : Type := mkSummary {
  fs_file_path : string;
  fs_file_type : string;
  fs_line_count : nat;
  fs_element_count : nat;
  fs_elements_by_type_str : string;
  fs_summary : string
}.

(** The summary as the dictionary the source builds. *)
Definition summary_dict (s : FileSummary) : dict :=
  [("file_path", PStr (fs_file_path s));
   ("file_type", PStr (fs_file_type s));
   ("line_count", PInt (Z.of_nat (fs_line_count s)));
   ("element_count", PInt (Z.of_nat (fs_element_count s)));
   ("elements_by_type_str", PStr (fs_elements_by_type_str s));
   ("summary", PStr (fs_summary s))].

Record Report : Type := mkReport {
  indexed_files : list string;
  total_elements : nat;
  errors : list string
}.

Definition code_extensions : list string :=
  [".py"; ".js"; ".ts"; ".tsx"; ".jsx"; ".md"].

Definition ignore_dirs : list string :=
  [".git"; "__pycache__"; "node_modules"; ".venv"; "venv"; ".adk_index"].

Section Indexing.

Context {V : Type}.

(** [SentenceTransformer.encode] on one text; the batch form encodes each
    text of the batch, in order. *)
Variable embed : string → V.

(** [hashlib.md5(s.encode()).hexdigest()] *)
Variable md5_hex : string → string.

(** The tree-sitter parser of an extension, applied to a text. *)
Variable ts_parse : string → string → Node.

(** The order in which the interpreter iterates over the set built from
    a list of strings. *)
Variable set_iter : list string → list string.

(** [CodeElement._compute_hash].  The attribute [hash] is assigned once,
    in [__init__], from attributes that are never assigned again. *)
Definition _compute_hash (e : CodeElement) : string :=
  md5_hex (CodeElement.name e +:+ ":" +:+ CodeElement.element_type e
             +:+ ":" +:+ CodeElement.content e).

(** [CodeElement.to_dict] *)
Definition to_dict (e : CodeElement) : dict :=
  [("name", PStr (CodeElement.name e));
   ("element_type", PStr (CodeElement.element_type e));
   ("file_path", PStr (CodeElement.file_path e));
   ("start_line", PInt (Z.of_nat (CodeElement.start_line e)));
   ("end_line", PInt (Z.of_nat (CodeElement.end_line e)));
   ("content", PStr (CodeElement.content e));
   ("docstring", PStr (CodeElement.docstring e));
   ("hash", PStr (_compute_hash e))].

(** The text embedded for an element. *)
Definition searchable_text (e : CodeElement) : string :=
  let text := CodeElement.name e +:+ " " +:+ CodeElement.element_type e
                +:+ PyStr.nl +:+ CodeElement.content e in
  if PyStr.truthy (CodeElement.docstring e)
  then text +:+ PyStr.nl +:+ CodeElement.docstring e
  else text.

(** The storage id of an element. *)
Definition element_id (e : CodeElement) : string :=
  CodeElement.file_path e +:+ ":" +:+ pretty (CodeElement.start_line e)
    +:+ ":" +:+ _compute_hash e.

(** [IndexingAgent._store_elements] *)
Definition _store_elements (elements : list CodeElement) (cl : Client V)
  : Client V :=
  match elements with
  | [] => cl
  | _ :: _ =>
      let documents := searchable_text <$> elements in
      let metadatas := to_dict <$> elements in
      let ids := element_id <$> elements in
      let embeddings := embed <$> documents in
      collection_upsert "code_elements" documents embeddings metadatas ids cl
  end.

(** [IndexingAgent._store_file_summary] *)
Definition _store_file_summary (summary : FileSummary) (cl : Client V)
  : Client V :=
  let document := fs_summary summary in
  let embedding := embed document in
  collection_upsert "file_summaries" [document] [embedding]
    [summary_dict summary] [fs_file_path summary] cl.

(** [IndexingAgent._create_file_summary] *)
Definition _create_file_summary (project_root file_path : Path)
  (content : string) (elements : list CodeElement) : res FileSummary :=
  let elements_by_type :=
    (λ element_type,
       (element_type,
        length (filter (λ e, CodeElement.element_type e = element_type)
                       elements)))
    <$> set_iter (CodeElement.element_type <$> elements) in
  let elements_by_type_str :=
    match elements_by_type with
    | [] => "none"
    | _ :: _ =>
        PyStr.join ", " ((λ kv, kv.1 +:+ ": " +:+ pretty kv.2)
                           <$> elements_by_type)
    end in
  rel ← PathOps.relative_to file_path project_root;
  Ok (mkSummary (PathOps.str rel)
                (PathOps.suffix file_path)
                (length (PyStr.split PyStr.NL content))
                (length elements)
                elements_by_type_str
                ("File " +:+ PathOps.name file_path +:+ " contains "
                   +:+ pretty (length elements) +:+ " code elements")).

(** [IndexingAgent._index_file]; the pair returned is the dictionary
    with keys [elements] and [summary]. *)
Definition _index_file (fs : FileSystem) (project_root file_path : Path)
  (cl : Client V) : res ((list CodeElement * FileSummary) * Client V) :=
  content ← fs_read fs file_path;
  let file_ext := PathOps.suffix file_path in
  elements ←
    (if str_in file_ext parsers then
       _parse_with_tree_sitter ts_parse file_path content file_ext
     else if String.eqb file_ext ".md" then
       Ok (_parse_markdown file_path content)
     else
       Ok (_simple_text_chunks file_path content));
  file_summary ← _create_file_summary project_root file_path content elements;
  Ok ((elements, file_summary), _store_file_summary file_summary cl).

(** The [for file_path in code_files] loop of [index_codebase], on the
    local variables [indexed_files], [code_elements] and the client. *)
Fixpoint index_loop (fs : FileSystem) (project_root : Path)
  (code_files : list Path) (indexed_files : list string)
  (code_elements : list CodeElement) (cl : Client V)
  : res ((list string * list CodeElement) * Client V) :=
  match code_files with
  | [] => Ok ((indexed_files, code_elements), cl)
  | file_path :: rest =>
      r ← _index_file fs project_root file_path cl;
      rel ← PathOps.relative_to file_path project_root;
      index_loop fs project_root rest
        (indexed_files ++ [PathOps.str rel])
        (code_elements ++ r.1.1)
        r.2
  end.

(** The files that [index_codebase] goes through. *)
Definition discover (fs : FileSystem) (project_root : Path) : list Path :=
  let code_files :=
    mbind (rglob fs project_root) (set_iter code_extensions) in
  filter (λ f, existsb (λ ignore_dir, str_in ignore_dir f) ignore_dirs = false)
         code_files.

(** [IndexingAgent.index_codebase] *)
Definition index_codebase (fs : FileSystem) (project_root : Path)
  (cl : Client V) : res (Report * Client V) :=
  let errors := [] in
  let code_files := discover fs project_root in
  r ← index_loop fs project_root code_files [] [] cl;
  let indexed_files := r.1.1 in
  let code_elements := r.1.2 in
  Ok (mkReport indexed_files (length code_elements) errors,
      _store_elements code_elements r.2).

(** [IndexingAgent(project_root).index_codebase()]: the constructor gets
    or creates the two collections, then the run. *)
Definition run_indexing (fs : FileSystem) (project_root : Path)
  (cl : Client V) : res (Report * Client V) :=
  index_codebase fs project_root
    (get_or_create "file_summaries" (get_or_create "code_elements" cl)).

End Indexing.

(** ** The search tool *)

(** A metadata entry of a result: a dictionary, or some other value. *)
Inductive pymeta : Type :=
| MDict (d : dict)
| MOther (v : pyval).

(** [isinstance(m, dict)] *)
Definition is_dict (m : pymeta) : bool :=
  match m with MDict _ => true | MOther _ => false end.

(** A distance entry of a result: a number of type [D], or a value that
    is not a number, [None] or a string. *)
Inductive pydist (D : Type) : Type :=
| DNum (x : D)
| DNone
| DStr (s : string).
Arguments DNum {D} x.
Arguments DNone {D}.
Arguments DStr {D} s.

(** The dictionary returned by [Collection.query]: a missing key reads as
    [None]. *)
Record QueryResult (D : Type) : Type := mkQueryResult {
  q_documents : option (list (list string));
  q_metadatas : option (list (list pymeta));
  q_distances : option (list (list (pydist D)))
}.
Arguments mkQueryResult {D}.
Arguments q_documents {D}.
Arguments q_metadatas {D}.
Arguments q_distances {D}.

(** The dictionary returned by [Collection.get]. *)
Record GetResult : Type := mkGetResult {
  g_documents : option (list string);
  g_metadatas : option (list pymeta)
}.

(** [str(v)], as an f-string renders a value. *)
Definition py_str (v : pyval) : string :=
  match v with
  | PStr s => s
  | PInt z => pretty z
  | PBool true => "True"
  | PBool false => "False"
  | PNone => "None"
  end.

(** Truth value of a metadata value. *)
Definition py_truthy (v : pyval) : bool :=
  match v with
  | PStr s => PyStr.truthy s
  | PInt z => negb (Z.eqb z 0)
  | PBool b => b
  | PNone => false
  end.

(** [d.get(k, default)] rendered in an f-string. *)
Definition get_str (d : dict) (k default : string) : string :=
  match dict_get k d with
  | Some v => py_str v
  | None => default
  end.

(** [c * n] for a one-character string. *)
Definition str_repeat (c : ascii) (n : nat) : string :=
  fold_right String EmptyString (replicate n c).

(** [not l] for an optional list: [None] or empty. *)
Definition falsy_list {A} (l : option (list A)) : bool :=
  match l with
  | None | Some [] => true
  | Some (_ :: _) => false
  end.

(** [not l[0]] for a non-empty list of lists. *)
Definition first_falsy {A} (l : option (list (list A))) : bool :=
  match l with
  | Some ([] :: _) => true
  | _ => false
  end.

(** [l[0]] *)
Definition first_list {A} (l : option (list (list A))) : list A :=
  match l with
  | Some (x :: _) => x
  | _ => []
  end.

(** [enumerate(l)] *)
Definition enumerate {A} (l : list A) : list (nat * A) := imap pair l.

Record VectorSearchTool (V : Type) : Type := mkTool {
  code_collection : option (gmap string (Row V));
  file_collection : option (gmap string (Row V))
}.
Arguments mkTool {V}.
Arguments code_collection {V}.
Arguments file_collection {V}.

(** [client.get_collection(name)] of the chromadb library, which is not
    part of the repository: it returns the collection of that name and
    raises for a name under which no collection was created.  The class
    of that exception is not the same in all releases of the library
    ([ValueError] in earlier ones, [NotFoundError] in later ones); it is
    the parameter [not_found]. *)
Definition get_collection {V} (not_found : exn) (cl : Client V)
  (name : string) : res (gmap string (Row V)) :=
  match cl !! name with
  | Some c => Ok c
  | None => Raise not_found
  end.

(** [VectorSearchTool.__init__]: the handler names [ValueError], and no
    other exception is handled. *)
Definition tool_init {V} (not_found : exn) (cl : Client V)
  : res (VectorSearchTool V) :=
  match (code ← get_collection not_found cl "code_elements";
         file ← get_collection not_found cl "file_summaries";
         Ok (mkTool (Some code) (Some file))) with
  | Ok t => Ok t
  | Raise ValueError => Ok (mkTool None None)
  | Raise e => Raise e
  end.

Section Search.

Context {V D : Type}.

(** The exception that [get_collection] of the installed chromadb raises
    for a missing collection. *)
Variable not_found : exn.

(** [SentenceTransformer.encode] on the query text. *)
Variable embed : string → V.

(** [Collection.query(query_embeddings=[v], n_results=k, where=w)] *)
Variable chroma_query :
  gmap string (Row V) → V → Z → option (string * pyval) → res (QueryResult D).

(** [Collection.get(where={k: v}, limit=n)] *)
Variable chroma_get_where :
  gmap string (Row V) → string * pyval → option Z → res GetResult.

(** [Collection.get(ids=l)] *)
Variable chroma_get_ids :
  gmap string (Row V) → list string → res GetResult.

(** [f"{1-distance:.3f}"] for a distance that is a number. *)
Variable similarity_3f : D → string.

(** [str(e)] for a caught exception. *)
Variable exn_str : exn → string.

(** [s.title()] and [s.upper()] *)
Variable py_title py_upper : string → string.

(** The text built for one row of [semantic_search], the distance of the
    row being a number. *)
Definition format_code_result (i : nat) (metadata : dict) (distance : D)
  : string :=
  let result_text :=
    "Result " +:+ pretty (i + 1) +:+ " (similarity: "
      +:+ similarity_3f distance +:+ "):" +:+ PyStr.nl in
  let result_text :=
    result_text +:+ "  Name: " +:+ get_str metadata "name" "unknown"
      +:+ PyStr.nl in
  let result_text :=
    result_text +:+ "  Type: " +:+ get_str metadata "element_type" "unknown"
      +:+ PyStr.nl in
  let result_text :=
    result_text +:+ "  File: " +:+ get_str metadata "file_path" "unknown"
      +:+ PyStr.nl in
  let result_text :=
    result_text +:+ "  Lines: " +:+ get_str metadata "start_line" "unknown"
      +:+ "-" +:+ get_str metadata "end_line" "unknown" +:+ PyStr.nl in
  let result_text :=
    match dict_get "docstring" metadata with
    | Some v =>
        if py_truthy v then
          let docstring := py_str v in
          let docstring :=
            if bool_decide (100 < String.length docstring)
            then PyStr.take_str 100 docstring +:+ "..."
            else docstring in
          result_text +:+ "  Docstring: " +:+ docstring +:+ PyStr.nl
        else result_text
    | None => result_text
    end in
  let content :=
    match dict_get "content" metadata with
    | Some (PStr c) =>
        if bool_decide (300 < String.length c)
        then PyStr.take_str 300 c +:+ "..."
        else c
    | Some v => py_str v
    | None => ""
    end in
  let result_text :=
    result_text +:+ "  Content:" +:+ PyStr.nl +:+ content +:+ PyStr.nl in
  result_text +:+ str_repeat "-" 50 +:+ PyStr.nl.

(** The loop over [enumerate(zip(doc_list, meta_list, dist_list))] of
    [semantic_search], on the list [formatted_results].  The first
    statement after the [isinstance] test evaluates [1-distance], which
    raises [TypeError] when the distance is not a number. *)
Fixpoint format_code_loop
  (rows : list (nat * ((string * pymeta) * pydist D)))
  (formatted_results : list string) : res (list string) :=
  match rows with
  | [] => Ok formatted_results
  | (i, ((doc, metadata), distance)) :: rest =>
      match metadata with
      | MOther _ => format_code_loop rest formatted_results
      | MDict m =>
          match distance with
          | DNum x =>
              format_code_loop rest
                (formatted_results ++ [format_code_result i m x])
          | DNone | DStr _ => Raise TypeError
          end
      end
  end.

(** The [where] argument that [semantic_search] builds. *)
Definition where_filter (file_type_filter : option string)
  : option (string * pyval) :=
  match file_type_filter with
  | Some f => if PyStr.truthy f then Some ("file_type", PStr f) else None
  | None => None
  end.

(** The part of [semantic_search] that follows the query: from the
    result dictionary to the text returned. *)
Definition search_results_text (query : string) (results : QueryResult D)
  : res string :=
  let documents := q_documents results in
  let metadatas := q_metadatas results in
  let distances := q_distances results in
  if falsy_list documents || first_falsy documents
     || falsy_list metadatas || first_falsy metadatas
     || falsy_list distances || first_falsy distances
  then Ok ("No results found for query: '" +:+ query +:+ "'")
  else
    let doc_list := first_list documents in
    let meta_list := first_list metadatas in
    let dist_list := first_list distances in
    if negb (bool_decide (doc_list ≠ []) && bool_decide (meta_list ≠ [])
             && bool_decide (dist_list ≠ []))
    then Ok ("No results found for query: '" +:+ query +:+ "'")
    else if negb (bool_decide (length doc_list = length meta_list)
                  && bool_decide (length meta_list = length dist_list))
    then Ok ("Inconsistent result data for query: '" +:+ query +:+ "'")
    else
      formatted_results ←
        format_code_loop
          (enumerate (zip (zip doc_list meta_list) dist_list)) [];
      Ok (PyStr.join PyStr.nl formatted_results).

(** [VectorSearchTool.semantic_search] *)
Definition semantic_search (self : VectorSearchTool V) (query : string)
  (max_results : Z) (file_type_filter : option string) : res string :=
  match code_collection self with
  | None => Ok "No code index found. Please run indexing first."
  | Some code =>
      let query_embedding := embed query in
      results ← chroma_query code query_embedding max_results
                  (where_filter file_type_filter);
      search_results_text query results
  end.

(** [try: body except Exception as e: return prefix + str(e)] *)
Definition catching (prefix : string) (body : res string) : res string :=
  match body with
  | Ok s => Ok s
  | Raise e => Ok (prefix +:+ exn_str e)
  end.

(** The text built for one row of [find_files_by_content], the distance
    of the row being a number. *)
Definition format_file_result (i : nat) (metadata : dict) (distance : D)
  : string :=
  let result_text :=
    "File " +:+ pretty (i + 1) +:+ " (similarity: "
      +:+ similarity_3f distance +:+ "):" +:+ PyStr.nl in
  let result_text :=
    result_text +:+ "  Path: " +:+ get_str metadata "file_path" "unknown"
      +:+ PyStr.nl in
  let result_text :=
    result_text +:+ "  Type: " +:+ get_str metadata "file_type" "unknown"
      +:+ PyStr.nl in
  let result_text :=
    result_text +:+ "  Lines: " +:+ get_str metadata "line_count" "unknown"
      +:+ PyStr.nl in
  let result_text :=
    result_text +:+ "  Elements: "
      +:+ get_str metadata "element_count" "unknown" +:+ PyStr.nl in
  let result_text :=
    result_text +:+ "  Summary: "
      +:+ get_str metadata "summary" "No summary available" +:+ PyStr.nl in
  let result_text :=
    match dict_get "elements_by_type_str" metadata with
    | Some v =>
        if py_truthy v
        then result_text +:+ "  Contains: " +:+ py_str v +:+ PyStr.nl
        else result_text
    | None => result_text
    end in
  result_text +:+ str_repeat "-" 40 +:+ PyStr.nl.

(** The loop of [find_files_by_content]; as in [semantic_search],
    [1-distance] raises [TypeError] when the distance is not a number. *)
Fixpoint format_file_loop
  (rows : list (nat * ((string * pymeta) * pydist D)))
  (formatted_results : list string) : res (list string) :=
  match rows with
  | [] => Ok formatted_results
  | (i, ((doc, metadata), distance)) :: rest =>
      match metadata with
      | MOther _ => format_file_loop rest formatted_results
      | MDict m =>
          match distance with
          | DNum x =>
              format_file_loop rest
                (formatted_results ++ [format_file_result i m x])
          | DNone | DStr _ => Raise TypeError
          end
      end
  end.

(** [VectorSearchTool.find_files_by_content] *)
Definition find_files_by_content (self : VectorSearchTool V)
  (query : string) (max_results : Z) : res string :=
  match file_collection self with
  | None => Ok "No file index found. Please run indexing first."
  | Some files =>
      catching "Error finding files: "
        (let query_embedding := embed query in
         results ← chroma_query files query_embedding max_results None;
         let documents := q_documents results in
         let metadatas := q_metadatas results in
         let distances := q_distances results in
         if falsy_list documents || first_falsy documents
            || falsy_list metadatas || first_falsy metadatas
            || falsy_list distances || first_falsy distances
         then Ok ("No files found for query: '" +:+ query +:+ "'")
         else
           let doc_list := first_list documents in
           let meta_list := first_list metadatas in
           let dist_list := first_list distances in
           if negb (bool_decide (doc_list ≠ [])
                    && bool_decide (meta_list ≠ [])
                    && bool_decide (dist_list ≠ []))
           then Ok ("No files found for query: '" +:+ query +:+ "'")
           else if negb (bool_decide (length doc_list = length meta_list)
                         && bool_decide (length meta_list = length dist_list))
           then Ok ("Inconsistent file data for query: '" +:+ query +:+ "'")
           else
             formatted_results ←
               format_file_loop
                 (enumerate (zip (zip doc_list meta_list) dist_list)) [];
             Ok (PyStr.join PyStr.nl formatted_results))
  end.

Fixpoint format_type_loop (element_type : string)
  (rows : list (nat * (string * pymeta))) (formatted_results : list string)
  : list string :=
  match rows with
  | [] => formatted_results
  | (i, (doc, metadata)) :: rest =>
      match metadata with
      | MOther _ => format_type_loop element_type rest formatted_results
      | MDict m =>
          let result_text :=
            py_title element_type +:+ " " +:+ pretty (i + 1) +:+ ":"
              +:+ PyStr.nl in
          let result_text :=
            result_text +:+ "  Name: " +:+ get_str m "name" "unknown"
              +:+ PyStr.nl in
          let result_text :=
            result_text +:+ "  File: " +:+ get_str m "file_path" "unknown"
              +:+ PyStr.nl in
          let result_text :=
            result_text +:+ "  Lines: " +:+ get_str m "start_line" "unknown"
              +:+ "-" +:+ get_str m "end_line" "unknown" +:+ PyStr.nl in
          let result_text :=
            result_text +:+ str_repeat "-" 30 +:+ PyStr.nl in
          format_type_loop element_type rest
            (formatted_results ++ [result_text])
      end
  end.

(** [VectorSearchTool.find_elements_by_type]; in this typing the two
    values read from the result are lists whenever they are present. *)
Definition find_elements_by_type (self : VectorSearchTool V)
  (element_type : string) (max_results : Z) : res string :=
  match code_collection self with
  | None => Ok "No code index found. Please run indexing first."
  | Some code =>
      catching ("Error finding " +:+ element_type +:+ " elements: ")
        (results ← chroma_get_where code ("element_type", PStr element_type)
                      (Some max_results);
         let documents := g_documents results in
         let metadatas := g_metadatas results in
         if falsy_list documents || falsy_list metadatas
         then Ok ("No " +:+ element_type +:+ " elements found.")
         else
           let formatted_results :=
             format_type_loop element_type
               (enumerate (zip (default [] documents) (default [] metadatas)))
               [] in
           Ok (PyStr.join PyStr.nl formatted_results))
  end.

(** The file-level header of [get_file_structure]; the inner
    [try: ... except: pass] leaves it empty on any exception. *)
Definition file_info_text (self : VectorSearchTool V) (file_path : string)
  : string :=
  match file_collection self with
  | None => ""
  | Some files =>
      match chroma_get_ids files [file_path] with
      | Raise _ => ""
      | Ok file_results =>
          match g_metadatas file_results with
          | Some (MDict metadata :: _) =>
              "File: " +:+ file_path +:+ PyStr.nl
                +:+ "Type: " +:+ get_str metadata "file_type" "unknown"
                +:+ PyStr.nl
                +:+ "Lines: " +:+ get_str metadata "line_count" "unknown"
                +:+ PyStr.nl
                +:+ "Total elements: "
                +:+ get_str metadata "element_count" "unknown"
                +:+ PyStr.nl +:+ PyStr.nl
          | _ => ""
          end
      end
  end.

(** [elements_by_type[element_type].append(metadata)], creating the
    group at the end when the key is new. *)
Fixpoint group_add (element_type : string) (metadata : dict)
  (groups : list (string * list dict)) : list (string * list dict) :=
  match groups with
  | [] => [(element_type, [metadata])]
  | (k, ms) :: rest =>
      if String.eqb k element_type then (k, ms ++ [metadata]) :: rest
      else (k, ms) :: group_add element_type metadata rest
  end.

(** The grouping loop of [get_file_structure]. *)
Fixpoint group_loop (metadatas : list pymeta)
  (elements_by_type : list (string * list dict)) : list (string * list dict) :=
  match metadatas with
  | [] => elements_by_type
  | MOther _ :: rest => group_loop rest elements_by_type
  | MDict metadata :: rest =>
      match dict_get "element_type" metadata with
      | Some (PStr element_type) =>
          group_loop rest (group_add element_type metadata elements_by_type)
      | Some _ => group_loop rest elements_by_type
      | None =>
          group_loop rest (group_add "unknown" metadata elements_by_type)
      end
  end.

(** [VectorSearchTool.get_file_structure] *)
Definition get_file_structure (self : VectorSearchTool V)
  (file_path : string) : res string :=
  match code_collection self with
  | None => Ok "No code index found. Please run indexing first."
  | Some code =>
      catching "Error getting file structure: "
        (results ← chroma_get_where code ("file_path", PStr file_path) None;
         let metadatas := g_metadatas results in
         if falsy_list metadatas
         then Ok ("No structure information found for " +:+ file_path)
         else
           let file_info := file_info_text self file_path in
           let elements_by_type := group_loop (default [] metadatas) [] in
           let formatted_results :=
             [file_info] ++
             mbind (λ g : string * list dict,
                 [py_upper g.1 +:+ "S:"] ++
                 ((λ element,
                     "  - " +:+ get_str element "name" "unknown"
                       +:+ " (lines "
                       +:+ get_str element "start_line" "unknown" +:+ "-"
                       +:+ get_str element "end_line" "unknown" +:+ ")")
                    <$> g.2) ++
                 [""])
               elements_by_type in
           Ok (PyStr.join PyStr.nl formatted_results))
  end.

(** [[t.strip() for t in element_types.split(',') if t.strip()]] *)
Definition parse_types (element_types : string) : list string :=
  PyStr.strip <$>
    filter (λ t, PyStr.truthy (PyStr.strip t) = true)
           (PyStr.split "," element_types).

(** [search_code_tool]; the client is the persistent store found under
    the project root. *)
Definition search_code_tool (cl : Client V) (query : string)
  (max_results : Z) (element_types : string) : res string :=
  search_tool ← tool_init not_found cl;
  let types_list :=
    if PyStr.truthy element_types then Some (parse_types element_types)
    else None in
  let file_filter :=
    match types_list with
    | Some (t :: _) => Some t
    | _ => None
    end in
  semantic_search search_tool query max_results file_filter.

(** [search_files_tool] *)
Definition search_files_tool (cl : Client V) (query : string)
  (max_results : Z) : res string :=
  search_tool ← tool_init not_found cl;
  find_files_by_content search_tool query max_results.

(** [get_file_context_tool] *)
Definition get_file_context_tool (cl : Client V) (file_path : string)
  (max_elements : Z) : res string :=
  search_tool ← tool_init not_found cl;
  get_file_structure search_tool file_path.

End Search.

(** ** Definitions that follow the words of the specification *)

(** The partition of a file into windows of [W] lines: window [k] holds
    the lines [k*W+1 .. k*W+W], as far as they exist. *)
Definition windows (W : nat) (lines : list string) : list (list string) :=
  (λ k, py_slice (k * W) (k * W + W) lines)
    <$> seq 0 ((length lines + W - 1) `div` W).

(** The element a window gives: named by its index, spanning its lines,
    holding its lines joined by newlines; none for a blank window. *)
Definition window_element (file_path : Path) (kw : nat * list string)
  : option CodeElement :=
  let text := PyStr.join PyStr.nl kw.2 in
  if PyStr.truthy (PyStr.strip text) then
    Some (CodeElement.mk ("chunk_" +:+ pretty kw.1) "text_chunk"
            (PathOps.str file_path)
            (kw.1 * chunk_size + 1) (kw.1 * chunk_size + length kw.2)
            text "")
  else None.

(** The sections of a markdown file: every heading line is a boundary, the
    lines between two boundaries are the body of the section named after
    the heading before them; [heading] names what precedes the first
    heading line. *)
Fixpoint md_split (heading : string) (lines : list string)
  : list (string * list string) :=
  match lines with
  | [] => [(heading, [])]
  | line :: rest =>
      if is_heading line then (heading, []) :: md_split (heading_name line) rest
      else match md_split heading rest with
           | (h, body) :: more => (h, line :: body) :: more
           | [] => [(heading, [line])]
           end
  end.




(** The line each section starts on: the first one on [start], every
    other one on the line after its heading. *)
Fixpoint md_number (start : nat) (rs : list (string * list string))
  : list ((string * nat) * list string) :=
  match rs with
  | [] => []
  | (h, body) :: rest =>
      ((h, start), body) :: md_number (start + length body + 1) rest
  end.

(** The element of a section; a section with only blank lines has none. *)
Definition section_element (file_path : Path)
  (r : (string * nat) * list string) : option CodeElement :=
  if any_nonblank r.2 then
    Some (CodeElement.mk r.1.1 "markdown_section" (PathOps.str file_path)
            r.1.2 (r.1.2 + length r.2 - 1)
            (PyStr.strip (PyStr.join PyStr.nl r.2)) "")
  else None.

(** The text of the lines [start_line .. end_line], both included. *)
Definition source_span (lines : list string) (start_line end_line : nat)
  : string :=
  PyStr.join PyStr.nl (py_slice (start_line - 1) end_line lines).


(** [R] holds of a node and of every node below it. *)
Fixpoint all_nodes (R : Node → Prop) (node : Node) : Prop :=
  match node with
  | mk_node _ _ _ cs =>
      R node ∧
      (fix all (cs : list (option string * Node)) : Prop :=
         match cs with
         | [] => True
         | c :: cs' => all_nodes R c.2 ∧ all cs'
         end) cs
  end.

(** The rows of a syntax tree are ordered: no node ends above the row it
    starts on. *)
Definition rows_ordered (node : Node) : Prop :=
  all_nodes (λ n, (NodeOps.start_point n).1 ≤ (NodeOps.end_point n).1) node.

(** Laying the entries of [O] over the collections of a client: a
    collection of [O] overwrites, id by id, the collection of the same
    name, and is created when the client has none of that name. *)
Definition overlay {V} (O cl : Client V) : Client V :=
  union_with (λ o c, Some (o ∪ c)) O cl.

(** Prepending lines to the body of the first section. *)
Definition add_body (pre : list string) (rs : list (string * list string))
  : list (string * list string) :=
  match rs with
  | [] => []
  | (h, body) :: more => (h, pre ++ body) :: more
  end.

(** What a visit appends comes from the visited node: its rows give the
    line range, and the text is the text of these lines. *)
Definition from_node (lines : list string) (p : Path) (n : Node)
  (e : CodeElement) : Prop :=
  CodeElement.file_path e = PathOps.str p ∧
  CodeElement.start_line e = (NodeOps.start_point n).1 + 1 ∧
  CodeElement.end_line e = (NodeOps.end_point n).1 + 1 ∧
  CodeElement.content e =
    source_span lines (CodeElement.start_line e) (CodeElement.end_line e).

(** What a call does to the store does not depend on the store, and
    neither does what it returns. *)
Definition store_blind {V A} (f : Client V → res (A * Client V)) : Prop :=
  (∃ e, ∀ cl, f cl = Raise e) ∨
  (∃ a O, ∀ cl, f cl = Ok (a, overlay O cl)).

(** The text for one row of a query result: none for a row whose metadata
    is not a dictionary (and none where the distance is not a number). *)
Definition code_row_text {D} (similarity_3f : D → string)
  (row : nat * ((string * pymeta) * pydist D)) : option string :=
  match row.2.1.2, row.2.2 with
  | MDict m, DNum x => Some (format_code_result similarity_3f row.1 m x)
  | _, _ => None
  end.

(** A row can be formatted: its metadata is not a dictionary, or its
    distance is a number. *)
Definition numeric_row {D} (row : nat * ((string * pymeta) * pydist D))
  : bool :=
  match row.2.1.2, row.2.2 with
  | MDict _, (DNone | DStr _) => false
  | _, _ => true
  end.

(** ** Sample inputs *)

Definition two_lines : string := PyStr.join PyStr.nl ["let x = 1;"; "render(x);"].

(** A tree for the one-line Python file [import os]. *)
Definition import_tree : Node :=
  mk_node "module" (0, 0) (0, 9)
    [(None, mk_node "import_statement" (0, 0) (0, 9)
              [(Some "name", mk_node "dotted_name" (0, 7) (0, 9) [])])].

Definition import_element : CodeElement :=
  CodeElement.mk "import" "import" "pkg/mod.py" 1 1 "import os" "".

Definition chunk_element : CodeElement :=
  CodeElement.mk "chunk_0" "text_chunk" "view.jsx" 1 1 "let x" "".

Definition section_text : string := PyStr.join PyStr.nl ["# A"; ""; "body"].

Definition section_A : CodeElement :=
  CodeElement.mk "A" "markdown_section" "guide.md" 2 3 "body" "".

(** A store answer in which the list of metadata is empty while the two
    other lists hold one entry. *)
Definition ragged_result : QueryResult Z :=
  mkQueryResult (Some [["def f(): pass"]]) (Some [[]]) (Some [[DNum 0%Z]]).

(** A store answer of one row whose distance is [None]. *)
Definition no_distance_result : QueryResult Z :=
  mkQueryResult (Some [["def f(): pass"]])
                (Some [[MDict [("name", PStr "f")]]])
                (Some [[DNone]]).

(** A store answer of three rows, the second without a dictionary. *)
Definition mixed_result : QueryResult Z :=
  mkQueryResult
    (Some [["a"; "b"; "c"]])
    (Some [[MDict [("name", PStr "f")]; MOther PNone;
            MDict [("name", PStr "g")]]])
    (Some [[DNum 0%Z; DNum 1%Z; DNum 2%Z]]).

(** Stand-ins for the external functions, for the sample runs. *)
Definition sample_query (r : QueryResult Z)
  : gmap string (Row nat) → nat → Z → option (string * pyval)
    → res (QueryResult Z) :=
  λ _ _ _ _, Ok r.
Definition sample_get_where
  : gmap string (Row nat) → string * pyval → option Z → res GetResult :=
  λ _ _ _, Ok (mkGetResult None None).
Definition sample_get_ids
  : gmap string (Row nat) → list string → res GetResult :=
  λ _ _, Ok (mkGetResult None None).
Definition sample_embed : string → nat := String.length.
Definition sample_digest : string → string := λ s, s.
Definition sample_similarity : Z → string := λ d, pretty (1 - d)%Z.
Definition sample_exn_str : exn → string := λ _, "error".
Definition sample_parse : string → string → Node :=
  λ _ _, mk_node "module" (0, 0) (0, 0) [].
Definition sample_set_iter : list string → list string := remove_dups.

Definition sample_root : Path := ["/"; "proj"].

(** A project of two files. *)
Definition sample_fs : FileSystem :=
  mkFS [["a.md"]; ["src"; "b.jsx"]]
       (λ p, if decide (p = ["/"; "proj"; "a.md"])
             then Ok ("# A" +:+ PyStr.nl +:+ "body")
             else if decide (p = ["/"; "proj"; "src"; "b.jsx"])
             then Ok "let x"
             else Raise OSError).

(** The same project, where [src/b.jsx] cannot be read. *)
Definition unreadable_fs : FileSystem :=
  mkFS [["a.md"]; ["src"; "b.jsx"]]
       (λ p, if decide (p = ["/"; "proj"; "a.md"])
             then Ok ("# A" +:+ PyStr.nl +:+ "body")
             else Raise OSError).

(** The store that indexing [sample_fs] leaves, starting from none. *)
Definition sample_store : Client nat :=
  match run_indexing sample_embed sample_digest sample_parse sample_set_iter
          sample_fs sample_root ∅ with
  | Ok r => r.2
  | Raise _ => ∅
  end.

Definition sample_report : Report :=
  mkReport ["src/b.jsx"; "a.md"] 2 [].
(** ** Further definitions for the properties of the run *)

(** The parser that [_index_file] picks for a file, applied to its text. *)
Definition parse_file (ts_parse : string → string → Node) (file_path : Path)
  (content : string) : res (list CodeElement) :=
  let file_ext := PathOps.suffix file_path in
  if str_in file_ext parsers then
    _parse_with_tree_sitter ts_parse file_path content file_ext
  else if String.eqb file_ext ".md" then
    Ok (_parse_markdown file_path content)
  else
    Ok (_simple_text_chunks file_path content).

(** The entry that [_store_file_summary] writes. *)
Definition summary_row {V} (embed : string → V) (s : FileSummary) : Row V :=
  mkRow (embed (fs_summary s)) (summary_dict s) (fs_summary s).

(** The entry that [_store_elements] writes for an element. *)
Definition element_row {V} (embed : string → V) (md5_hex : string → string)
  (e : CodeElement) : Row V :=
  mkRow (embed (searchable_text e)) (to_dict md5_hex e) (searchable_text e).

(** An element ends before another one starts. *)
Definition ends_before (e1 e2 : CodeElement) : Prop :=
  CodeElement.end_line e1 < CodeElement.start_line e2.

(** The node types for which the traversal of a Python tree calls
    [_extract_python_element]. *)
Definition python_node_types : list string :=
  ["function_def"; "class_definition"; "import_statement";
   "import_from_statement"].

(** The text for one row of [find_files_by_content]: none for a row whose
    metadata is not a dictionary (and none where the distance is not a
    number). *)
Definition file_row_text {D} (similarity_3f : D → string)
  (row : nat * ((string * pymeta) * pydist D)) : option string :=
  match row.2.1.2, row.2.2 with
  | MDict m, DNum x => Some (format_file_result similarity_3f row.1 m x)
  | _, _ => None
  end.

(** The kind under which [get_file_structure] files a metadata
    dictionary: its [element_type] when that is a string, [unknown] when
    the key is missing, none when the value is not a string. *)
Definition grouping_kind (m : dict) : option string :=
  match dict_get "element_type" m with
  | Some (PStr t) => Some t
  | Some _ => None
  | None => Some "unknown"
  end.

(** The dictionaries that [get_file_structure] files, in the order of the
    result. *)
Definition grouped_rows (metadatas : list pymeta) : list dict :=
  omap (λ pm, match pm with
              | MDict m => match grouping_kind m with
                           | Some _ => Some m
                           | None => None
                           end
              | MOther _ => None
              end) metadatas.

(** [index_codebase_tool]: the status text built from the report. *)
Definition index_status_text (result : Report) : string :=
  let status_msg := "Indexing complete!" +:+ PyStr.nl in
  let status_msg :=
    status_msg +:+ "Files indexed: "
      +:+ pretty (length (indexed_files result)) +:+ PyStr.nl in
  let status_msg :=
    status_msg +:+ "Code elements found: "
      +:+ pretty (total_elements result) +:+ PyStr.nl in
  let status_msg :=
    match errors result with
    | [] => status_msg
    | _ :: _ =>
        foldl (λ msg error, msg +:+ "  - " +:+ error +:+ PyStr.nl)
              (status_msg +:+ "Errors: " +:+ pretty (length (errors result))
                 +:+ PyStr.nl)
              (take 3 (errors result))
    end in
  status_msg +:+ PyStr.nl
    +:+ "You can now search the codebase using semantic queries!".

(** [index_codebase_tool], on the store found under the project root. *)
Definition index_codebase_tool {V} (embed : string → V)
  (md5_hex : string → string) (ts_parse : string → string → Node)
  (set_iter : list string → list string) (fs : FileSystem)
  (project_root : Path) (cl : Client V) : res (string * Client V) :=
  r ← run_indexing embed md5_hex ts_parse set_iter fs project_root cl;
  Ok (index_status_text r.1, r.2).

(** Some character of the string satisfies [q]. *)
Fixpoint any_char (q : ascii → bool) (s : string) : bool :=
  match s with
  | EmptyString => false
  | String c s' => q c || any_char q s'
  end.

(** ** Further sample inputs *)

(** A project root below a directory named [venv]. *)
Definition venv_root : Path := ["/"; "home"; "venv"; "proj"].

(** A tree for the Python file [def f(): pass], with the node type that
    the Python grammar of tree-sitter gives to a function. *)
Definition function_tree : Node :=
  mk_node "module" (0, 0) (0, 13)
    [(None, mk_node "function_definition" (0, 0) (0, 13)
              [(Some "name", mk_node "identifier" (0, 4) (0, 5) [])])].

(** Nodes that lack a [name] child. *)
Definition nameless_class : Node :=
  mk_node "class_definition" (0, 0) (0, 6) [].
Definition nameless_function : Node :=
  mk_node "function_declaration" (0, 0) (0, 14) [].
Definition method_node : Node :=
  mk_node "method_definition" (1, 2) (1, 10)
    [(Some "name", mk_node "property_identifier" (1, 2) (1, 5) [])].

(** A tree for the Python file of three lines [import os], [class C:],
    [    pass]. *)
Definition two_kinds_tree : Node :=
  mk_node "module" (0, 0) (2, 8)
    [(None, mk_node "import_statement" (0, 0) (0, 9)
              [(Some "name", mk_node "dotted_name" (0, 7) (0, 9) [])]);
     (None, mk_node "class_definition" (1, 0) (2, 8)
              [(Some "name", mk_node "identifier" (1, 6) (1, 7) [])])].

(** A project whose one file is that Python file. *)
Definition two_kinds_fs : FileSystem :=
  mkFS [["m.py"]]
       (λ p, if decide (p = ["/"; "proj"; "m.py"])
             then Ok (PyStr.join PyStr.nl ["import os"; "class C:"; "    pass"])
             else Raise OSError).

(** Another order in which an interpreter may iterate over a set. *)
Definition reversed_set_iter : list string → list string :=
  λ l, reverse (remove_dups l).

(** The store that indexing [two_kinds_fs] leaves, starting from none,
    and the store that a second run leaves, started on the first one,
    under the other set order. *)
Definition two_kinds_store : Client nat :=
  match run_indexing sample_embed sample_digest (λ _ _, two_kinds_tree)
          sample_set_iter two_kinds_fs sample_root ∅ with
  | Ok r => r.2
  | Raise _ => ∅
  end.

Definition two_kinds_store_again : Client nat :=
  match run_indexing sample_embed sample_digest (λ _ _, two_kinds_tree)
          reversed_set_iter two_kinds_fs sample_root two_kinds_store with
  | Ok r => r.2
  | Raise _ => ∅
  end.

(** What the summary of [m.py] in a store says its element kinds are. *)
Definition kinds_of_m_py (cl : Client nat) : option pyval :=
  files ← cl !! "file_summaries";
  row ← files !! "m.py";
  dict_get "elements_by_type_str" (metadata row).

(** A store whose queries raise. *)
Definition raising_query
  : gmap string (Row nat) → nat → Z → option (string * pyval)
    → res (QueryResult Z) :=
  λ _ _ _ _, Raise OSError.

(** An answer of the collection of file summaries. *)
Definition files_result : QueryResult Z :=
  mkQueryResult
    (Some [["File a.md contains 1 code elements"]])
    (Some [[MDict [("file_path", PStr "a.md"); ("file_type", PStr ".md")]]])
    (Some [[DNum 0%Z]]).

(** The element of [a.md] in the sample project. *)
Definition sample_section : CodeElement :=
  CodeElement.mk "A" "markdown_section" "/proj/a.md" 2 2 "body" "".

(** * Properties *)

(** ** Strings and lists *)

Lemma str_app_cons (c : ascii) (a b : string) :
  String c a +:+ b = String c (a +:+ b).
Proof. done. Qed.

Lemma str_app_nil_l (s : string) : "" +:+ s = s.
Proof. done. Qed.

Lemma str_app_nil_r (s : string) : s +:+ "" = s.
Proof. induction s as [|c s IH]; [done|]. by rewrite str_app_cons, IH. Qed.

Lemma str_app_assoc (a b c : string) : (a +:+ b) +:+ c = a +:+ b +:+ c.
Proof.
  induction a as [|x a IH]; [done|]. by rewrite !str_app_cons, IH.
Qed.

Lemma split_not_nil (sep : ascii) (s : string) : PyStr.split sep s ≠ [].
Proof.
  destruct s as [|c s]; simpl; [done|].
  destruct (Ascii.eqb c sep); [done|].
  by destruct (PyStr.split sep s).
Qed.

Lemma join_cons_cons (sep x y : string) (l : list string) :
  PyStr.join sep (x :: y :: l) = x +:+ sep +:+ PyStr.join sep (y :: l).
Proof. done. Qed.

Lemma join_cons_char (sep : string) (c : ascii) (w : string) (ws : list string) :
  PyStr.join sep (String c w :: ws) = String c (PyStr.join sep (w :: ws)).
Proof. by destruct ws. Qed.

(** Joining what [split] returns gives the text back. *)
Lemma join_split (sep : ascii) (s : string) :
  PyStr.join (String sep "") (PyStr.split sep s) = s.
Proof.
  induction s as [|c s IH]; [done|].
  simpl PyStr.split. destruct (Ascii.eqb_spec c sep) as [->|Hne].
  - pose proof (split_not_nil sep s) as Hnil.
    destruct (PyStr.split sep s) as [|w ws] eqn:E; [done|].
    rewrite join_cons_cons, IH. done.
  - destruct (PyStr.split sep s) as [|w ws] eqn:E.
    + by destruct (split_not_nil sep s).
    + by rewrite join_cons_char, IH.
Qed.

Lemma join_app (sep : string) (l1 l2 : list string) :
  l1 ≠ [] → l2 ≠ [] →
  PyStr.join sep (l1 ++ l2) = PyStr.join sep l1 +:+ sep +:+ PyStr.join sep l2.
Proof.
  intros H1 H2. induction l1 as [|x l1 IH]; [done|].
  destruct l1 as [|y l1].
  - destruct l2; [done|]. done.
  - change ((x :: y :: l1) ++ l2) with (x :: (y :: l1) ++ l2).
    change ((y :: l1) ++ l2) with (y :: l1 ++ l2) at 1.
    rewrite join_cons_cons. change (y :: l1 ++ l2) with ((y :: l1) ++ l2).
    rewrite IH by done. rewrite join_cons_cons.
    by rewrite !str_app_assoc.
Qed.

Lemma join_concat (sep : string) (ws : list (list string)) :
  Forall (λ w, w ≠ []) ws →
  PyStr.join sep (PyStr.join sep <$> ws) = PyStr.join sep (concat ws).
Proof.
  induction 1 as [|w ws Hw Hws IH]; [done|].
  destruct ws as [|w' ws].
  - simpl. by rewrite app_nil_r.
  - change (PyStr.join sep <$> w :: w' :: ws)
      with (PyStr.join sep w :: PyStr.join sep w' :: (PyStr.join sep <$> ws)).
    rewrite join_cons_cons.
    change (PyStr.join sep w' :: (PyStr.join sep <$> ws))
      with (PyStr.join sep <$> w' :: ws).
    rewrite IH. change (concat (w :: w' :: ws)) with (w ++ concat (w' :: ws)).
    rewrite join_app; [done|done|].
    inversion Hws; subst. simpl. by destruct w'.
Qed.

Lemma strip_nil : PyStr.strip "" = "".
Proof. done. Qed.

(** ** The chunk parser *)

Lemma windows_concat_take (W : nat) (l : list string) (n : nat) :
  concat ((λ k, py_slice (k * W) (k * W + W) l) <$> seq 0 n) = take (n * W) l.
Proof.
  induction n as [|n IH]; [done|].
  rewrite seq_S, fmap_app, concat_app, IH. simpl. rewrite app_nil_r.
  unfold py_slice. replace (n * W + W - n * W) with W by lia.
  rewrite take_take_drop. f_equal. lia.
Qed.

Lemma window_count_covers (W len : nat) :
  0 < W → len ≤ ((len + W - 1) `div` W) * W.
Proof.
  intros HW.
  pose proof (Nat.div_mod_eq (len + W - 1) W) as Hd.
  pose proof (Nat.mod_upper_bound (len + W - 1) W) as Hm.
  nia.
Qed.

Lemma window_index_inside (W len k : nat) :
  0 < W → k < (len + W - 1) `div` W → k * W < len.
Proof.
  intros HW Hk.
  pose proof (Nat.div_mod_eq (len + W - 1) W) as Hd.
  nia.
Qed.

(** The windows are contiguous and cover every line once. *)
Lemma windows_concat (W : nat) (l : list string) :
  0 < W → concat (windows W l) = l.
Proof.
  intros HW. unfold windows. rewrite windows_concat_take.
  apply take_ge, window_count_covers, HW.
Qed.

Lemma windows_lookup (W : nat) (l w : list string) (k : nat) :
  windows W l !! k = Some w →
  k < (length l + W - 1) `div` W ∧ w = py_slice (k * W) (k * W + W) l.
Proof.
  unfold windows. rewrite list_lookup_fmap.
  destruct (seq 0 _ !! k) as [j|] eqn:E; [|done].
  apply lookup_seq in E as [-> ?]. simpl. intros [= <-]. done.
Qed.

(** Every window holds [W] lines, except that the last one holds what is
    left, and no window is empty. *)
Lemma windows_length (W : nat) (l w : list string) (k : nat) :
  0 < W → windows W l !! k = Some w →
  length w = W `min` (length l - k * W) ∧ 0 < length w.
Proof.
  intros HW [Hk ->]%windows_lookup.
  pose proof (window_index_inside W (length l) k HW Hk).
  unfold py_slice. rewrite length_take, length_drop. lia.
Qed.

Lemma simple_text_chunks_windows (file_path : Path) (content : string) :
  _simple_text_chunks file_path content =
  omap (window_element file_path)
       (enumerate (windows chunk_size (PyStr.split PyStr.NL content))).
Proof.
  unfold _simple_text_chunks, py_range_step, enumerate, windows.
  set (lines := PyStr.split PyStr.NL content).
  set (n := (length lines + chunk_size - 1) `div` chunk_size).
  rewrite imap_fmap.
  rewrite (imap_ext _ (λ j _, (j, py_slice (j * chunk_size)
                                     (j * chunk_size + chunk_size) lines))).
  2:{ intros i x Hi. apply lookup_seq in Hi as [-> _]. done. }
  rewrite (imap_seq_0 (seq 0 n)
             (λ j, (j, py_slice (j * chunk_size)
                         (j * chunk_size + chunk_size) lines))).
  rewrite length_seq.
  apply list_omap_ext.
  apply Forall2_fmap, Forall_Forall2_diag, Forall_forall.
  intros k Hk%elem_of_seq.
  assert (k * chunk_size < length lines) as Hin.
  { apply window_index_inside; [unfold chunk_size; lia | lia]. }
  unfold window_element. cbn [fst snd].
  destruct (PyStr.truthy _); [|done].
  assert ((k * chunk_size) `div` chunk_size = k) as ->.
  { apply Nat.div_mul. done. }
  unfold py_slice. rewrite length_take, length_drop.
  do 2 f_equal. lia.
Qed.

(** ** The markdown parser *)


Lemma md_split_not_nil (h : string) (lines : list string) :
  md_split h lines ≠ [].
Proof.
  destruct lines as [|l rest]; simpl; [done|].
  destruct (is_heading l); [done|]. by destruct (md_split h rest) as [|[??]?].
Qed.

Lemma md_split_body (h l : string) (rest : list string) :
  is_heading l = false →
  md_split h (l :: rest) = add_body [l] (md_split h rest).
Proof.
  intros Hl. simpl. rewrite Hl.
  pose proof (md_split_not_nil h rest).
  by destruct (md_split h rest) as [|[??]?].
Qed.

Lemma add_body_app (a b : list string) (rs : list (string * list string)) :
  add_body (a ++ b) rs = add_body a (add_body b rs).
Proof. destruct rs as [|[??]?]; simpl; [done|]. by rewrite app_assoc. Qed.

Lemma md_flush_section (p : Path) (st : md_state) (i : nat) :
  current_section_start st + length (current_section st) = i + 1 →
  md_flush p st i =
  elements st ++
    option_list (section_element p
      ((current_heading st, current_section_start st), current_section st)).
Proof.
  intros Hlen. unfold md_flush, section_element. cbn [fst snd].
  destruct (current_section st) as [|l sec] eqn:E.
  - simpl. by rewrite app_nil_r.
  - rewrite bool_decide_true by done. rewrite andb_true_l.
    destruct (any_nonblank (l :: sec)); simpl; [|by rewrite app_nil_r].
    do 3 f_equal. simpl in Hlen. simpl. lia.
Qed.

(** The loop of [_parse_markdown] computes the sections of the lines that
    are left, the first one extended by the lines collected so far. *)
Lemma md_loop_sections (p : Path) (lines : list string) :
  ∀ (st : md_state) (i : nat),
    current_section_start st + length (current_section st) = i + 1 →
    md_flush p (md_loop p st i lines) (i + length lines) =
    elements st ++
      omap (section_element p)
           (md_number (current_section_start st)
              (add_body (current_section st)
                 (md_split (current_heading st) lines))).
Proof.
  induction lines as [|l rest IH]; intros st i Hlen.
  - simpl md_loop. rewrite Nat.add_0_r, (md_flush_section p st i Hlen).
    simpl. rewrite app_nil_r. by destruct (section_element _ _).
  - simpl md_loop. unfold md_step at 1.
    replace (i + length (l :: rest)) with (S i + length rest) by (simpl; lia).
    destruct (is_heading l) eqn:Hl.
    + rewrite IH by (simpl; lia). cbn [elements current_section
        current_section_start current_heading].
      replace (i + 1 - 1) with i by lia.
      rewrite (md_flush_section p st i Hlen).
      simpl md_split. rewrite Hl. cbn [add_body md_number omap].
      rewrite app_nil_r.
      pose proof (md_split_not_nil (heading_name l) rest).
      destruct (md_split (heading_name l) rest) as [|[h b] more] eqn:E; [done|].
      cbn [add_body app].
      replace (current_section_start st + length (current_section st) + 1)
        with (i + 1 + 1) by lia.
      rewrite <- app_assoc. f_equal.
      change (md_number (i + 1 + 1) ((h, b) :: more))
        with (md_number (i + 1 + 1) (add_body [] ((h, b) :: more))).
      generalize (md_number (i + 1 + 1) (add_body [] ((h, b) :: more))).
      intros rs. cbn [omap list_omap].
      by destruct (section_element p _).
    + rewrite IH.
      2:{ cbn [current_section current_section_start]. rewrite length_app.
          simpl. lia. }
      cbn [elements current_section current_section_start current_heading].
      by rewrite (md_split_body _ _ _ Hl), add_body_app.
Qed.

(** [_parse_markdown] emits the elements of the non-blank sections, in
    order. *)
Lemma parse_markdown_sections (p : Path) (content : string) :
  _parse_markdown p content =
  omap (section_element p)
       (md_number 1 (md_split "Introduction" (PyStr.split PyStr.NL content))).
Proof.
  unfold _parse_markdown.
  pose proof (md_loop_sections p (PyStr.split PyStr.NL content)
                (MdState [] [] 1 "Introduction") 0 eq_refl) as H.
  simpl in H. rewrite H.
  by destruct (md_split _ _) as [|[??]?].
Qed.

(** What is known of a section that [md_number] lists: where its body
    lies in the file. *)
Lemma md_number_slices (lines : list string) :
  ∀ (h : string) (pre : list string) (s : nat) (r : (string * nat) * list string),
    r ∈ md_number s (add_body pre (md_split h lines)) →
    s ≤ r.1.2 ∧
    r.2 = py_slice (r.1.2 - s) (r.1.2 - s + length r.2) (pre ++ lines).
Proof.
  induction lines as [|l rest IH]; intros h pre s r Hr.
  - simpl in Hr. apply list_elem_of_singleton in Hr as ->. simpl.
    split; [done|]. unfold py_slice.
    rewrite Nat.sub_diag, app_nil_r, drop_0. simpl.
    replace (length pre - 0) with (length pre) by lia. by rewrite take_ge.
  - destruct (is_heading l) eqn:Hl.
    + simpl in Hr. rewrite Hl in Hr. simpl in Hr. rewrite app_nil_r in Hr.
      apply elem_of_cons in Hr as [->|Hr].
      * simpl. split; [done|]. unfold py_slice.
        rewrite Nat.sub_diag. simpl.
        replace (length pre - 0) with (length pre) by lia.
        by rewrite drop_0, take_app_length.
      * change (md_split (heading_name l) rest)
          with (md_split (heading_name l) rest) in Hr.
        assert (md_split (heading_name l) rest
                = add_body [] (md_split (heading_name l) rest)) as Heq.
        { by destruct (md_split _ _) as [|[??]?]. }
        rewrite Heq in Hr. apply IH in Hr as [Hs Hb].
        split; [lia|]. rewrite Hb at 1. simpl. unfold py_slice.
        replace (r.1.2 - s) with (length pre + S (r.1.2 - (s + length pre + 1)))
          by lia.
        rewrite drop_app_add. simpl. f_equal. lia.
    + rewrite (md_split_body _ _ _ Hl), <- add_body_app in Hr.
      apply IH in Hr as [Hs Hb]. split; [done|].
      by rewrite <- app_assoc in Hb.
Qed.

Lemma any_nonblank_not_nil (body : list string) :
  any_nonblank body = true → body ≠ [].
Proof. by destruct body. Qed.

(** Every element of [_parse_markdown]: its kind, its path, its line
    range and its text. *)
Lemma parse_markdown_element (p : Path) (content : string) (e : CodeElement) :
  e ∈ _parse_markdown p content →
  let lines := PyStr.split PyStr.NL content in
  CodeElement.element_type e = "markdown_section" ∧
  CodeElement.file_path e = PathOps.str p ∧
  1 ≤ CodeElement.start_line e ∧
  CodeElement.start_line e ≤ CodeElement.end_line e ∧
  CodeElement.end_line e ≤ length lines ∧
  CodeElement.content e =
    PyStr.strip (source_span lines (CodeElement.start_line e)
                   (CodeElement.end_line e)).
Proof.
  rewrite parse_markdown_sections. intros He. cbv zeta.
  set (lines := PyStr.split PyStr.NL content) in *.
  apply list_elem_of_omap in He as (r & Hr & He).
  assert (md_split "Introduction" lines
          = add_body [] (md_split "Introduction" lines))
    as Heq by (by destruct (md_split _ _) as [|[??]?]).
  rewrite Heq in Hr. apply md_number_slices in Hr as [Hs Hb].
  simpl in Hb.
  unfold section_element in He.
  destruct (any_nonblank r.2) eqn:Hnb; [|done].
  apply any_nonblank_not_nil in Hnb.
  assert (0 < length r.2) as Hlen by (destruct r.2; [done|simpl; lia]).
  pose proof (f_equal length Hb) as HL.
  unfold py_slice in HL. rewrite length_take, length_drop in HL.
  injection He as <-. simpl.
  repeat split; try done; try lia.
  unfold source_span. do 2 f_equal. rewrite Hb at 1.
  f_equal; lia.
Qed.

(** Every element of [_simple_text_chunks]. *)
Lemma simple_text_chunks_element (p : Path) (content : string) (e : CodeElement) :
  e ∈ _simple_text_chunks p content →
  let lines := PyStr.split PyStr.NL content in
  CodeElement.element_type e = "text_chunk" ∧
  CodeElement.file_path e = PathOps.str p ∧
  1 ≤ CodeElement.start_line e ∧
  CodeElement.start_line e ≤ CodeElement.end_line e ∧
  CodeElement.end_line e ≤ length lines ∧
  CodeElement.content e =
    source_span lines (CodeElement.start_line e) (CodeElement.end_line e).
Proof.
  intros He. cbv zeta. unfold _simple_text_chunks in He.
  set (lines := PyStr.split PyStr.NL content) in *.
  apply list_elem_of_omap in He as (i & Hi & He).
  unfold py_range_step in Hi. apply list_elem_of_fmap in Hi as (k & -> & Hk).
  apply elem_of_seq in Hk.
  assert (0 < chunk_size) as Hpos by (unfold chunk_size; lia).
  assert (k * chunk_size < length lines) as Hin.
  { apply window_index_inside; [done | lia]. }
  destruct (PyStr.truthy _); [|done]. injection He as <-. simpl.
  repeat split; try done; try lia.
  unfold source_span, py_slice. f_equal.
  replace (k * chunk_size + 1 - 1) with (k * chunk_size) by lia.
  destruct (decide (k * chunk_size + chunk_size ≤ length lines)).
  - f_equal. lia.
  - rewrite !take_ge; [done| |]; rewrite length_drop; lia.
Qed.

(** ** The grammar parser *)

Lemma all_nodes_here (R : Node → Prop) (n : Node) : all_nodes R n → R n.
Proof. destruct n. simpl. tauto. Qed.

Section Traverse.

Variables (file_ext : string) (lines : list string) (file_path : Path).
Variable R : Node → Prop.
Variable Q : CodeElement → Prop.

Hypothesis visit_ok :
  ∀ (n : Node) (els : list CodeElement),
    R n → visit_node file_ext lines file_path n = Ok els → Forall Q els.

(** What holds of the elements each visit appends holds of all the
    elements of a traversal. *)
Fixpoint traverse_node_Forall (n : Node) :
  all_nodes R n →
  ∀ els, traverse_node file_ext lines file_path n = Ok els → Forall Q els.
Proof.
  destruct n as [t s e cs]. intros Hall els.
  pose proof (all_nodes_here _ _ Hall) as Hn.
  simpl in Hall. destruct Hall as [_ Hcs].
  simpl traverse_node.
  destruct (visit_node file_ext lines file_path (mk_node t s e cs))
    as [here|] eqn:Hv; [|done].
  simpl. pose proof (visit_ok _ _ Hn Hv) as Hhere. clear Hv Hn.
  revert els.
  match goal with
  | |- ∀ els, (?tc cs ≫= _) = _ → _ =>
      assert (∀ below, tc cs = Ok below → Forall Q below) as Hbelow
  end.
  { clear Hhere. induction cs as [|c cs IHcs]; intros below.
    - intros [= <-]. constructor.
    - destruct Hcs as [Hc Hcs].
      destruct (traverse_node file_ext lines file_path c.2) as [first|] eqn:E;
        [|done].
      simpl. pose proof (traverse_node_Forall c.2 Hc _ E) as Hfirst.
      match goal with
      | |- (?x ≫= _) = _ → _ => destruct x as [others|] eqn:E2; [|done]
      end.
      simpl. intros [= <-]. apply Forall_app. split; [done|].
      by apply IHcs. }
  intros els.
  match goal with
  | |- (?x ≫= _) = _ → _ => destruct x as [below|] eqn:E2; [|done]
  end.
  simpl. intros [= <-]. apply Forall_app. split; [done|]. by apply Hbelow.
Qed.

End Traverse.

Lemma all_nodes_True (n : Node) : all_nodes (λ _, True) n.
Proof.
  revert n. fix IH 1. intros [t s e cs]. simpl. split; [done|].
  induction cs as [|c cs IHcs]; [done|]. split; [apply IH | apply IHcs].
Qed.


Lemma extract_python_from_node (n : Node) (lines : list string) (p : Path)
  (e : CodeElement) :
  _extract_python_element n lines p = Ok (Some e) → from_node lines p n e.
Proof.
  unfold _extract_python_element, from_node, source_span.
  intros H.
  repeat (case_match; simplify_eq/=; try done);
    match goal with
    | H : (?m ≫= _) = Ok _ |- _ => destruct m eqn:?; simplify_eq/=
    end; done.
Qed.

Lemma extract_js_ts_from_node (n : Node) (lines : list string) (p : Path)
  (e : CodeElement) :
  _extract_js_ts_element n lines p = Ok (Some e) → from_node lines p n e.
Proof.
  unfold _extract_js_ts_element, from_node, source_span.
  intros H.
  repeat (case_match; simplify_eq/=; try done);
    match goal with
    | H : (?m ≫= _) = Ok _ |- _ => destruct m eqn:?; simplify_eq/=
    end; done.
Qed.

Lemma visit_node_from_node (file_ext : string) (lines : list string)
  (p : Path) (n : Node) (els : list CodeElement) :
  visit_node file_ext lines p n = Ok els → Forall (from_node lines p n) els.
Proof.
  unfold visit_node. intros H.
  repeat (case_match; simplify_eq/=; try done);
    match goal with
    | H : (_ <$> ?m) = Ok _ |- _ =>
        destruct m as [[e|]|] eqn:E; simplify_eq/=; [|done]
    end; constructor; try done.
  - by apply extract_python_from_node.
  - by apply extract_js_ts_from_node.
Qed.

(** Every element of [_parse_with_tree_sitter], for a tree whose rows are
    ordered. *)
Lemma tree_sitter_element (ts_parse : string → string → Node) (p : Path)
  (content file_ext : string) (els : list CodeElement) (e : CodeElement) :
  _parse_with_tree_sitter ts_parse p content file_ext = Ok els →
  e ∈ els →
  let lines := PyStr.split PyStr.NL content in
  CodeElement.file_path e = PathOps.str p ∧
  1 ≤ CodeElement.start_line e ∧
  (rows_ordered (ts_parse file_ext content) →
   CodeElement.start_line e ≤ CodeElement.end_line e) ∧
  CodeElement.content e =
    source_span lines (CodeElement.start_line e) (CodeElement.end_line e).
Proof.
  unfold _parse_with_tree_sitter. intros H He. cbv zeta.
  destruct (str_in file_ext parsers); [|done].
  set (lines := PyStr.split PyStr.NL content) in *.
  assert (Forall (λ e, CodeElement.file_path e = PathOps.str p ∧
                       1 ≤ CodeElement.start_line e ∧
                       CodeElement.content e =
                         source_span lines (CodeElement.start_line e)
                           (CodeElement.end_line e)) els) as H1.
  { apply (traverse_node_Forall file_ext lines p (λ _, True) _)
      with (n := ts_parse file_ext content); [|apply all_nodes_True|done].
    intros n els' _ Hv. apply visit_node_from_node in Hv.
    eapply Forall_impl; [exact Hv|]. intros x (?&?&?&?). repeat split; [done|lia|done]. }
  rewrite Forall_forall in H1. destruct (H1 e He) as (Hp & Hs & Hc).
  repeat split; try done.
  intros Hrows.
  assert (Forall (λ e, CodeElement.start_line e ≤ CodeElement.end_line e) els)
    as Hord.
  { apply (traverse_node_Forall file_ext lines p
             (λ n, (NodeOps.start_point n).1 ≤ (NodeOps.end_point n).1)
             (λ e, CodeElement.start_line e ≤ CodeElement.end_line e))
      with (n := ts_parse file_ext content); [|exact Hrows|done].
    intros n els' Hn Hv. apply visit_node_from_node in Hv.
    eapply Forall_impl; [exact Hv|]. intros x (?&?&?&?). lia. }
  rewrite Forall_forall in Hord. by apply Hord.
Qed.

(** ** Splitting what was joined *)





Lemma md_split_heading (h l : string) (rest : list string) :
  is_heading l = true →
  md_split h (l :: rest) = (h, []) :: md_split (heading_name l) rest.
Proof. intros Hl. simpl. by rewrite Hl. Qed.

Lemma window_contents (p : Path) (g : nat → list string → nat * list string)
  (ws : list (list string)) :
  (∀ i w, (g i w).2 = w) →
  Forall (λ w, PyStr.truthy (PyStr.strip (PyStr.join PyStr.nl w)) = true) ws →
  CodeElement.content <$> omap (window_element p) (imap g ws)
  = PyStr.join PyStr.nl <$> ws.
Proof.
  intros Hg Hall. revert g Hg.
  induction Hall as [|w ws Hw Hall IH]; intros g Hg; [done|].
  rewrite imap_cons. cbn [omap list_omap]. unfold window_element at 1.
  rewrite Hg, Hw. cbn [fmap list_fmap CodeElement.content]. f_equal.
  apply IH. intros i w'. apply Hg.
Qed.

(** ** What stripping keeps *)

Lemma any_char_app (q : ascii → bool) (a b : string) :
  any_char q (a +:+ b) = any_char q a || any_char q b.
Proof.
  induction a as [|c a IH]; [done|].
  rewrite str_app_cons. simpl. by rewrite IH, orb_assoc.
Qed.

Lemma any_char_rev_app (q : ascii → bool) (a b : string) :
  any_char q (String.rev_app a b) = any_char q a || any_char q b.
Proof.
  revert b. induction a as [|c a IH]; intros b; [done|].
  simpl. rewrite IH. simpl. destruct (q c), (any_char q a); done.
Qed.

Lemma any_char_rev (q : ascii → bool) (s : string) :
  any_char q (String.rev s) = any_char q s.
Proof. unfold String.rev. rewrite any_char_rev_app. simpl. apply orb_false_r. Qed.

Lemma truthy_any_char (s : string) : PyStr.truthy s = any_char (λ _, true) s.
Proof. by destruct s. Qed.

Lemma any_char_lstrip (p : ascii → bool) (s : string) :
  any_char (λ c, negb (p c)) (PyStr.lstrip_by p s)
  = any_char (λ c, negb (p c)) s.
Proof.
  induction s as [|c s IH]; [done|]. simpl.
  destruct (p c) eqn:E; simpl; [done|]. by rewrite E.
Qed.

Lemma truthy_lstrip (p : ascii → bool) (s : string) :
  PyStr.truthy (PyStr.lstrip_by p s) = any_char (λ c, negb (p c)) s.
Proof.
  induction s as [|c s IH]; [done|]. simpl.
  destruct (p c) eqn:E; simpl; [done|]. done.
Qed.

(** What is left after stripping is not empty exactly when the string
    holds a character that is not stripped. *)
Lemma truthy_strip_by (p : ascii → bool) (s : string) :
  PyStr.truthy (PyStr.strip_by p s) = any_char (λ c, negb (p c)) s.
Proof.
  unfold PyStr.strip_by, PyStr.rstrip_by.
  rewrite truthy_any_char, any_char_rev, <- truthy_any_char.
  by rewrite truthy_lstrip, any_char_rev, any_char_lstrip.
Qed.

Lemma any_char_strip_by (p : ascii → bool) (s : string) :
  any_char (λ c, negb (p c)) (PyStr.strip_by p s)
  = any_char (λ c, negb (p c)) s.
Proof.
  unfold PyStr.strip_by, PyStr.rstrip_by.
  by rewrite any_char_rev, any_char_lstrip, any_char_rev, any_char_lstrip.
Qed.

Lemma any_char_lstrip_le (q p : ascii → bool) (s : string) :
  any_char q (PyStr.lstrip_by p s) = true → any_char q s = true.
Proof.
  induction s as [|c s IH]; [done|]. simpl.
  destruct (p c); [|done]. intros H. rewrite (IH H). apply orb_true_r.
Qed.

Lemma any_char_strip_by_le (q p : ascii → bool) (s : string) :
  any_char q (PyStr.strip_by p s) = true → any_char q s = true.
Proof.
  unfold PyStr.strip_by, PyStr.rstrip_by. rewrite any_char_rev.
  intros H%any_char_lstrip_le. rewrite any_char_rev in H.
  by apply any_char_lstrip_le in H.
Qed.

Lemma any_char_join (q : ascii → bool) (sep l : string) (ls : list string) :
  l ∈ ls → any_char q l = true → any_char q (PyStr.join sep ls) = true.
Proof.
  intros Hin Hl. induction Hin as [l ls|l l' ls Hin IH].
  - destruct ls as [|y ls]; [exact Hl|].
    rewrite join_cons_cons, any_char_app, Hl. reflexivity.
  - destruct ls as [|y ls]; [by apply elem_of_nil in Hin|].
    rewrite join_cons_cons, !any_char_app, (IH Hl). by rewrite !orb_true_r.
Qed.

Lemma any_char_mem (c : ascii) (s : string) :
  any_char (Ascii.eqb c) s = PyStr.mem c s.
Proof. induction s as [|d s IH]; [done|]. simpl. by rewrite IH. Qed.

Lemma split_pieces_free (sep : ascii) (s w : string) :
  w ∈ PyStr.split sep s → PyStr.mem sep w = false.
Proof.
  revert w. induction s as [|c s IH]; intros w Hw; simpl in Hw.
  - by apply list_elem_of_singleton in Hw as ->.
  - destruct (Ascii.eqb_spec c sep) as [->|Hne].
    + apply elem_of_cons in Hw as [->|Hw]; [done|]. by apply IH.
    + destruct (PyStr.split sep s) as [|w0 ws] eqn:E.
      * apply list_elem_of_singleton in Hw as ->. simpl.
        apply orb_false_iff. split; [|done].
        apply Ascii.eqb_neq. congruence.
      * apply elem_of_cons in Hw as [->|Hw].
        -- simpl. apply orb_false_iff. split.
           ++ apply Ascii.eqb_neq. congruence.
           ++ apply IH. apply list_elem_of_here.
        -- apply IH. by apply list_elem_of_further.
Qed.

(** ** Heading names *)

Lemma rev_app_spec (a b : string) :
  String.rev_app a b = String.rev a +:+ b.
Proof.
  revert b. induction a as [|c a IH]; intros b; [done|].
  unfold String.rev. cbn [String.rev_app].
  rewrite (IH (String c b)), (IH (String c "")).
  by rewrite str_app_assoc, str_app_cons, str_app_nil_l.
Qed.

Lemma rev_cons (c : ascii) (a : string) :
  String.rev (String c a) = String.rev a +:+ String c "".
Proof. unfold String.rev at 1. cbn [String.rev_app]. apply rev_app_spec. Qed.

Lemma rev_app_distr (a b : string) :
  String.rev (a +:+ b) = String.rev b +:+ String.rev a.
Proof.
  induction a as [|c a IH].
  - by rewrite str_app_nil_l, str_app_nil_r.
  - by rewrite str_app_cons, !rev_cons, IH, str_app_assoc.
Qed.

Lemma rev_involutive (a : string) : String.rev (String.rev a) = a.
Proof.
  induction a as [|c a IH]; [done|].
  rewrite rev_cons, rev_app_distr, IH. done.
Qed.

(** A string is empty or ends in a character. *)
Lemma string_snoc (s : string) :
  s = "" ∨ ∃ t c, s = t +:+ String c "".
Proof.
  rewrite <- (rev_involutive s). destruct (String.rev s) as [|c t].
  - by left.
  - right. exists (String.rev t), c. apply rev_cons.
Qed.












(** ** Claims about the parsers *)

(** C4, as amended.  The lines of a file routed to the chunk parser are
    partitioned into contiguous windows of 50 lines that do not overlap,
    the last one possibly shorter; every window whose text is not blank
    becomes one [text_chunk] element named [chunk_k] after its zero-based
    index [k], holding the lines of the window joined by newlines; and
    when no window is blank, joining the contents of the emitted chunks
    with a newline, in ascending order, gives the file back. *)
Theorem chunk_fallback_partition (file_path : Path) (content : string) :
  let lines := PyStr.split PyStr.NL content in
  let ws := windows chunk_size lines in
  concat ws = lines ∧
  (∀ k w, ws !! k = Some w →
          length w = 50 `min` (length lines - k * 50) ∧ 0 < length w) ∧
  _simple_text_chunks file_path content
    = omap (window_element file_path) (enumerate ws) ∧
  (Forall (λ w, PyStr.truthy (PyStr.strip (PyStr.join PyStr.nl w)) = true) ws →
   PyStr.join PyStr.nl
     (CodeElement.content <$> _simple_text_chunks file_path content)
   = content).
Proof.
  intros lines ws.
  assert (0 < chunk_size) as Hpos by (unfold chunk_size; lia).
  split; [by apply windows_concat|].
  split; [intros k w Hw; by apply (windows_length chunk_size lines w k)|].
  split; [apply simple_text_chunks_windows|].
  intros Hall. rewrite simple_text_chunks_windows. fold lines. fold ws.
  unfold enumerate. rewrite (window_contents file_path pair ws) by done.
  rewrite join_concat.
  - unfold ws. rewrite windows_concat by done. apply join_split.
  - eapply Forall_impl; [exact Hall|]. intros w Hw ->. done.
Qed.


Lemma chunk_fallback_partition_witness :
  Forall (λ w, PyStr.truthy (PyStr.strip (PyStr.join PyStr.nl w)) = true)
         (windows chunk_size (PyStr.split PyStr.NL two_lines)) ∧
  PyStr.join PyStr.nl
    (CodeElement.content <$> _simple_text_chunks ["app"; "view.jsx"] two_lines)
  = two_lines.
Proof.
  assert (Forall (λ w, PyStr.truthy (PyStr.strip (PyStr.join PyStr.nl w)) = true)
            (windows chunk_size (PyStr.split PyStr.NL two_lines))) as Hall.
  { vm_compute. repeat constructor. }
  split; [exact Hall|].
  exact (proj2 (proj2 (proj2
           (chunk_fallback_partition ["app"; "view.jsx"] two_lines))) Hall).
Defined.

(** C4, as stated, fails.  A file of 51 lines gives two chunks whose
    contents, put one after the other, lack the newline between line 50
    and line 51; and a file that holds only a blank gives no chunk at
    all. *)
Lemma chunk_concat_counterexample :
  (let content := PyStr.join PyStr.nl (replicate 50 "a" ++ ["b"]) in
   PyStr.join ""
     (CodeElement.content <$> _simple_text_chunks ["notes.jsx"] content)
   ≠ content) ∧
  PyStr.join "" (CodeElement.content <$> _simple_text_chunks ["notes.jsx"] " ")
  ≠ " ".
Proof.
  split.
  - apply String.eqb_neq. vm_compute. reflexivity.
  - apply String.eqb_neq. vm_compute. reflexivity.
Qed.




(** C6, as amended.  The content of an element of the chunk parser or of
    the grammar parser is the text of the lines [start_line] to [end_line]
    of the file; the content of an element of the markdown parser is that
    text with the blanks at its two ends removed. *)
Theorem content_is_source_span :
  (∀ (p : Path) (content : string) (e : CodeElement),
     e ∈ _simple_text_chunks p content →
     CodeElement.content e =
       source_span (PyStr.split PyStr.NL content)
         (CodeElement.start_line e) (CodeElement.end_line e)) ∧
  (∀ (p : Path) (content : string) (e : CodeElement),
     e ∈ _parse_markdown p content →
     CodeElement.content e =
       PyStr.strip
         (source_span (PyStr.split PyStr.NL content)
            (CodeElement.start_line e) (CodeElement.end_line e))) ∧
  (∀ (ts_parse : string → string → Node) (p : Path)
     (content file_ext : string) (els : list CodeElement) (e : CodeElement),
     _parse_with_tree_sitter ts_parse p content file_ext = Ok els →
     e ∈ els →
     CodeElement.content e =
       source_span (PyStr.split PyStr.NL content)
         (CodeElement.start_line e) (CodeElement.end_line e)).
Proof.
  split; [|split].
  - intros p content e He. by apply (simple_text_chunks_element p content e).
  - intros p content e He. by apply (parse_markdown_element p content e).
  - intros ts_parse p content file_ext els e Hp He.
    by apply (tree_sitter_element ts_parse p content file_ext els e).
Qed.



Lemma content_is_source_span_witness :
  (chunk_element ∈ _simple_text_chunks ["view.jsx"] "let x" ∧
   CodeElement.content chunk_element
   = source_span (PyStr.split PyStr.NL "let x") 1 1) ∧
  (section_A ∈ _parse_markdown ["guide.md"] section_text ∧
   CodeElement.content section_A
   = PyStr.strip (source_span (PyStr.split PyStr.NL section_text) 2 3)) ∧
  (_parse_with_tree_sitter (λ _ _, import_tree) ["pkg"; "mod.py"]
     "import os" ".py" = Ok [import_element] ∧
   import_element ∈ [import_element] ∧
   CodeElement.content import_element
   = source_span (PyStr.split PyStr.NL "import os") 1 1).
Proof.
  assert (chunk_element ∈ _simple_text_chunks ["view.jsx"] "let x") as H1.
  { vm_compute. apply list_elem_of_here. }
  assert (section_A ∈ _parse_markdown ["guide.md"] section_text) as H2.
  { vm_compute. apply list_elem_of_here. }
  assert (import_element ∈ [import_element]) as H3
    by apply list_elem_of_here.
  split; [|split].
  - split; [exact H1|].
    exact (proj1 content_is_source_span _ _ _ H1).
  - split; [exact H2|].
    exact (proj1 (proj2 content_is_source_span) _ _ _ H2).
  - split; [reflexivity|]. split; [exact H3|].
    exact (proj2 (proj2 content_is_source_span) (λ _ _, import_tree)
             ["pkg"; "mod.py"] "import os" ".py" [import_element]
             import_element eq_refl H3).
Defined.

(** C6, as stated, fails.  The section under [# A] spans lines 2 to 3, of
    which line 2 is empty; the content of its element is [body], without
    the empty line. *)
Lemma markdown_content_counterexample :
  _parse_markdown ["guide.md"] section_text = [section_A] ∧
  CodeElement.content section_A ≠
    source_span (PyStr.split PyStr.NL section_text)
      (CodeElement.start_line section_A) (CodeElement.end_line section_A).
Proof.
  split; [reflexivity|]. apply String.eqb_neq. vm_compute. reflexivity.
Qed.

(** C9.  For every element that one of the three parsers emits,
    [start_line] is at least 1 and [end_line] is at least [start_line];
    for the grammar parser, given that no node of the syntax tree ends
    above the row it starts on. *)
Theorem line_numbers_ordered :
  (∀ (p : Path) (content : string) (e : CodeElement),
     e ∈ _simple_text_chunks p content →
     1 ≤ CodeElement.start_line e ∧
     CodeElement.start_line e ≤ CodeElement.end_line e) ∧
  (∀ (p : Path) (content : string) (e : CodeElement),
     e ∈ _parse_markdown p content →
     1 ≤ CodeElement.start_line e ∧
     CodeElement.start_line e ≤ CodeElement.end_line e) ∧
  (∀ (ts_parse : string → string → Node) (p : Path)
     (content file_ext : string) (els : list CodeElement) (e : CodeElement),
     rows_ordered (ts_parse file_ext content) →
     _parse_with_tree_sitter ts_parse p content file_ext = Ok els →
     e ∈ els →
     1 ≤ CodeElement.start_line e ∧
     CodeElement.start_line e ≤ CodeElement.end_line e).
Proof.
  split; [|split].
  - intros p content e He.
    destruct (simple_text_chunks_element p content e He) as (_&_&?&?&_).
    done.
  - intros p content e He.
    destruct (parse_markdown_element p content e He) as (_&_&?&?&_).
    done.
  - intros ts_parse p content file_ext els e Hrows Hp He.
    destruct (tree_sitter_element ts_parse p content file_ext els e Hp He)
      as (_&?&Hord&_).
    split; [done|]. by apply Hord.
Qed.

Lemma line_numbers_ordered_witness :
  (chunk_element ∈ _simple_text_chunks ["view.jsx"] "let x" ∧
   1 ≤ CodeElement.start_line chunk_element ∧
   CodeElement.start_line chunk_element ≤ CodeElement.end_line chunk_element) ∧
  (section_A ∈ _parse_markdown ["guide.md"] section_text ∧
   1 ≤ CodeElement.start_line section_A ∧
   CodeElement.start_line section_A ≤ CodeElement.end_line section_A) ∧
  (rows_ordered import_tree ∧
   _parse_with_tree_sitter (λ _ _, import_tree) ["pkg"; "mod.py"]
     "import os" ".py" = Ok [import_element] ∧
   import_element ∈ [import_element] ∧
   1 ≤ CodeElement.start_line import_element ∧
   CodeElement.start_line import_element
     ≤ CodeElement.end_line import_element).
Proof.
  assert (chunk_element ∈ _simple_text_chunks ["view.jsx"] "let x") as H1.
  { vm_compute. apply list_elem_of_here. }
  assert (section_A ∈ _parse_markdown ["guide.md"] section_text) as H2.
  { vm_compute. apply list_elem_of_here. }
  assert (import_element ∈ [import_element]) as H3
    by apply list_elem_of_here.
  assert (rows_ordered import_tree) as H4.
  { unfold rows_ordered. simpl. repeat split; lia. }
  split; [|split].
  - split; [exact H1|].
    exact (proj1 line_numbers_ordered _ _ _ H1).
  - split; [exact H2|].
    exact (proj1 (proj2 line_numbers_ordered) _ _ _ H2).
  - split; [exact H4|]. split; [reflexivity|]. split; [exact H3|].
    exact (proj2 (proj2 line_numbers_ordered) (λ _ _, import_tree)
             ["pkg"; "mod.py"] "import os" ".py" [import_element]
             import_element H4 eq_refl H3).
Defined.

(** ** The store *)

Section Store.

Context {V : Type}.
Implicit Types (cl O : Client V) (c : gmap string (Row V)).

Lemma upsert_fold_union (l : list (string * Row V)) c :
  foldl (λ c ir, <[ir.1 := ir.2]> c) c l = list_to_map (reverse l) ∪ c.
Proof.
  revert c. induction l as [|x l IH]; intros c.
  - simpl. by rewrite map_empty_union.
  - simpl. rewrite IH, reverse_cons, list_to_map_app. simpl.
    rewrite <- (map_union_assoc _ _ c), <- insert_union_l, map_empty_union.
    done.
Qed.

Lemma lookup_overlay O cl (name : string) :
  overlay O cl !! name =
  match O !! name, cl !! name with
  | Some o, Some c => Some (o ∪ c)
  | Some o, None => Some o
  | None, x => x
  end.
Proof.
  unfold overlay. rewrite lookup_union_with.
  by destruct (O !! name), (cl !! name).
Qed.

Lemma overlay_overlay O2 O1 cl :
  overlay O2 (overlay O1 cl) = overlay (overlay O2 O1) cl.
Proof.
  apply map_eq. intros name. rewrite !lookup_overlay.
  destruct (O2 !! name), (O1 !! name), (cl !! name); try done.
  by rewrite map_union_assoc.
Qed.

Lemma overlay_idemp O cl : overlay O (overlay O cl) = overlay O cl.
Proof.
  apply map_eq. intros name. rewrite !lookup_overlay.
  destruct (O !! name), (cl !! name); try done.
  - by rewrite map_union_assoc, map_union_idemp.
  - by rewrite map_union_idemp.
Qed.

Lemma overlay_empty cl : overlay ∅ cl = cl.
Proof.
  apply map_eq. intros name. rewrite lookup_overlay, lookup_empty. done.
Qed.

Lemma collection_upsert_overlay (name : string) documents
  (embeddings : list V) metadatas ids cl :
  ∃ O, ∀ cl,
    collection_upsert name documents embeddings metadatas ids cl
    = overlay O cl.
Proof.
  eexists {[ name := _ ]}. intros cl'. unfold collection_upsert, chroma_upsert.
  rewrite upsert_fold_union. apply map_eq. intros n.
  rewrite lookup_overlay.
  destruct (decide (name = n)) as [<-|Hne].
  - rewrite lookup_insert_eq, lookup_singleton_eq.
    destruct (cl' !! name); simpl; [done|]. by rewrite map_union_empty.
  - rewrite lookup_insert_ne, lookup_singleton_ne by done. done.
Qed.

Lemma get_or_create_overlay (name : string) cl :
  get_or_create name cl = overlay {[ name := ∅ ]} cl.
Proof.
  unfold get_or_create. apply map_eq. intros n. rewrite lookup_overlay.
  destruct (decide (name = n)) as [<-|Hne].
  - rewrite lookup_singleton_eq.
    destruct (cl !! name) eqn:E.
    + by rewrite E, map_empty_union.
    + by rewrite lookup_insert_eq.
  - rewrite lookup_singleton_ne by done.
    destruct (cl !! name); [done|]. by rewrite lookup_insert_ne.
Qed.

End Store.

(** ** The indexing run *)

Section Run.

Context {V : Type}.
Variable embed : string → V.
Variable md5_hex : string → string.
Variable ts_parse : string → string → Node.
Variable set_iter : list string → list string.
Variables (fs : FileSystem) (project_root : Path).

Lemma index_file_blind (file_path : Path) :
  store_blind (_index_file embed ts_parse set_iter fs project_root file_path).
Proof.
  unfold store_blind, _index_file.
  destruct (fs_read fs file_path) as [content|e]; [|left; by exists e].
  simpl.
  match goal with
  | |- context [ mbind _ ?m ] => destruct m as [els|e]
  end; [|left; by exists e].
  simpl.
  destruct (_create_file_summary set_iter project_root file_path content els)
    as [summary|e]; [|left; by exists e].
  simpl. right. unfold _store_file_summary.
  destruct (collection_upsert_overlay (V:=V) "file_summaries"
              [fs_summary summary] [embed (fs_summary summary)]
              [summary_dict summary] [fs_file_path summary] ∅) as [O HO].
  exists (els, summary), O. intros cl. by rewrite HO.
Qed.

Lemma index_loop_blind (code_files : list Path) :
  ∀ (indexed_files : list string) (code_elements : list CodeElement),
    store_blind (index_loop embed ts_parse set_iter fs project_root
                   code_files indexed_files code_elements).
Proof.
  induction code_files as [|f rest IH]; intros fl el.
  - right. exists (fl, el), ∅. intros cl. simpl. by rewrite overlay_empty.
  - cbn [index_loop].
    destruct (index_file_blind f) as [[e He]|(a & O & Ha)].
    + left. exists e. intros cl. by rewrite He.
    + destruct (PathOps.relative_to f project_root) as [rel|e] eqn:Hrel.
      2:{ left. exists e. intros cl. by rewrite Ha. }
      destruct (IH (fl ++ [PathOps.str rel]) (el ++ a.1))
        as [[e He]|(b & O' & Hb)].
      * left. exists e. intros cl. rewrite Ha. simpl. apply He.
      * right. exists b, (overlay O' O). intros cl. rewrite Ha. simpl.
        rewrite Hb. by rewrite overlay_overlay.
Qed.

Lemma store_elements_overlay (elements : list CodeElement) :
  ∃ O, ∀ cl : Client V,
    _store_elements embed md5_hex elements cl = overlay O cl.
Proof.
  destruct elements as [|e els].
  - exists ∅. intros cl. simpl. by rewrite overlay_empty.
  - unfold _store_elements.
    apply (collection_upsert_overlay "code_elements" _ _ _ _ ∅).
Qed.

Lemma run_indexing_blind :
  store_blind (run_indexing embed md5_hex ts_parse set_iter fs project_root).
Proof.
  unfold run_indexing, index_codebase.
  destruct (index_loop_blind
              (discover set_iter fs project_root) [] [])
    as [[e He]|(a & O & Ha)].
  - left. exists e. intros cl. by rewrite He.
  - right. destruct (store_elements_overlay a.2) as [O' HO'].
    eexists _, (overlay O' (overlay O
                  (overlay {[ "file_summaries" := ∅ ]}
                           {[ "code_elements" := ∅ ]}))).
    intros cl. rewrite Ha. simpl. rewrite HO'.
    rewrite !get_or_create_overlay, !overlay_overlay. done.
Qed.

(** C2, as amended.  Indexing is idempotent: when the files have not
    changed and the interpreter iterates over its sets in the same order
    in the two runs, a second run, started on the store the first run
    left, returns the same report, with the same [total_elements], and
    leaves the two collections as they were, id by id, with the same
    vectors and the same metadata.  The embedding model is the same in
    the two runs. *)
Theorem indexing_idempotent (cl cl1 : Client V) (report : Report) :
  run_indexing embed md5_hex ts_parse set_iter fs project_root cl
    = Ok (report, cl1) →
  run_indexing embed md5_hex ts_parse set_iter fs project_root cl1
    = Ok (report, cl1).
Proof.
  intros Hrun.
  destruct run_indexing_blind as [[e He]|(a & O & Ha)].
  - rewrite He in Hrun. done.
  - rewrite Ha in Hrun. injection Hrun as <- <-.
    by rewrite Ha, overlay_idemp.
Qed.

End Run.

(** ** The search tool *)

Section NotIndexed.

Context {V D : Type}.
Variable not_found : exn.
Variable embed : string → V.
Variable chroma_query :
  gmap string (Row V) → V → Z → option (string * pyval) → res (QueryResult D).
Variable chroma_get_where :
  gmap string (Row V) → string * pyval → option Z → res GetResult.
Variable chroma_get_ids :
  gmap string (Row V) → list string → res GetResult.
Variable similarity_3f : D → string.
Variable exn_str : exn → string.
Variables py_title py_upper : string → string.

Lemma tool_init_present (cl : Client V) (code files : gmap string (Row V)) :
  cl !! "code_elements" = Some code →
  cl !! "file_summaries" = Some files →
  tool_init not_found cl = Ok (mkTool (Some code) (Some files)).
Proof.
  intros Hcode Hfiles. unfold tool_init, get_collection.
  rewrite Hcode, Hfiles. reflexivity.
Qed.

Lemma tool_init_missing (cl : Client V) :
  cl !! "code_elements" = None ∨ cl !! "file_summaries" = None →
  tool_init not_found cl
  = if decide (not_found = ValueError) then Ok (mkTool None None)
    else Raise not_found.
Proof.
  unfold tool_init, get_collection. intros [H|H].
  - rewrite H. simpl. by destruct not_found.
  - destruct (cl !! "code_elements"); simpl; rewrite ?H; simpl;
      by destruct not_found.
Qed.

(** C7 fails on the code.  The handler of [VectorSearchTool.__init__]
    names [ValueError].  When the library raises an exception of another
    class for a missing collection, the constructor raises it on a store
    that lacks one of the two collections: no tool is built, none of the
    four search operations gets to its "not indexed" guard, and each tool
    function raises that exception to its caller. *)
Theorem missing_collection_escapes (cl : Client V) :
  not_found ≠ ValueError →
  cl !! "code_elements" = None ∨ cl !! "file_summaries" = None →
  tool_init not_found cl = Raise not_found ∧
  (∀ query k element_types,
     search_code_tool not_found embed chroma_query similarity_3f cl query k
       element_types
     = Raise not_found) ∧
  (∀ query k,
     search_files_tool not_found embed chroma_query similarity_3f exn_str
       cl query k
     = Raise not_found) ∧
  (∀ file_path k,
     get_file_context_tool not_found chroma_get_where chroma_get_ids exn_str
       py_upper cl file_path k
     = Raise not_found).
Proof.
  intros Hne Hmiss.
  assert (tool_init not_found cl = Raise not_found) as Hinit.
  { rewrite (tool_init_missing cl Hmiss). by destruct (decide _). }
  split; [exact Hinit|]. split; [|split].
  - intros. unfold search_code_tool. by rewrite Hinit.
  - intros. unfold search_files_tool. by rewrite Hinit.
  - intros. unfold get_file_context_tool. by rewrite Hinit.
Qed.

End NotIndexed.

Section NotIndexedValueError.

Context {V D : Type}.
Variable embed : string → V.
Variable chroma_query :
  gmap string (Row V) → V → Z → option (string * pyval) → res (QueryResult D).
Variable chroma_get_where :
  gmap string (Row V) → string * pyval → option Z → res GetResult.
Variable chroma_get_ids :
  gmap string (Row V) → list string → res GetResult.
Variable similarity_3f : D → string.
Variable exn_str : exn → string.
Variables py_title py_upper : string → string.

(** X21.  With a library that raises [ValueError] for a missing
    collection: on a store in which no indexing run has created the two
    collections, the tool is built without a collection, and each of the
    four search operations, and each tool function on top of them,
    returns its "not indexed" sentence and raises nothing. *)
Theorem not_indexed_sentinel (cl : Client V) :
  cl !! "code_elements" = None →
  cl !! "file_summaries" = None →
  tool_init ValueError cl = Ok (mkTool None None) ∧
  (∀ query k filter,
     semantic_search embed chroma_query similarity_3f
       (mkTool None None) query k filter
     = Ok "No code index found. Please run indexing first.") ∧
  (∀ query k,
     find_files_by_content embed chroma_query similarity_3f exn_str
       (mkTool None None) query k
     = Ok "No file index found. Please run indexing first.") ∧
  (∀ element_type k,
     find_elements_by_type chroma_get_where exn_str py_title
       (mkTool None None) element_type k
     = Ok "No code index found. Please run indexing first.") ∧
  (∀ file_path,
     get_file_structure chroma_get_where chroma_get_ids exn_str py_upper
       (mkTool None None) file_path
     = Ok "No code index found. Please run indexing first.") ∧
  (∀ query k element_types,
     search_code_tool ValueError embed chroma_query similarity_3f cl query k
       element_types
     = Ok "No code index found. Please run indexing first.") ∧
  (∀ query k,
     search_files_tool ValueError embed chroma_query similarity_3f exn_str
       cl query k
     = Ok "No file index found. Please run indexing first.") ∧
  (∀ file_path k,
     get_file_context_tool ValueError chroma_get_where chroma_get_ids exn_str
       py_upper cl file_path k
     = Ok "No code index found. Please run indexing first.").
Proof.
  intros Hcode Hfile.
  pose proof (tool_init_missing ValueError cl (or_introl Hcode)) as Hinit.
  simpl in Hinit.
  repeat split; try done.
  - intros. unfold search_code_tool. by rewrite Hinit.
  - intros. unfold search_files_tool. by rewrite Hinit.
  - intros. unfold get_file_context_tool. by rewrite Hinit.
Qed.

End NotIndexedValueError.

Section SearchRows.

Context {V D : Type}.
Variable not_found : exn.
Variable embed : string → V.
Variable chroma_query :
  gmap string (Row V) → V → Z → option (string * pyval) → res (QueryResult D).
Variable similarity_3f : D → string.

Lemma format_code_loop_rows
  (rows : list (nat * ((string * pymeta) * pydist D))) (acc : list string) :
  format_code_loop similarity_3f rows acc
  = if forallb numeric_row rows
    then Ok (acc ++ omap (code_row_text similarity_3f) rows)
    else Raise TypeError.
Proof.
  revert acc. induction rows as [|[i [[doc m] x]] rows IH]; intros acc.
  - simpl. by rewrite app_nil_r.
  - cbn [format_code_loop forallb omap list_omap].
    unfold numeric_row at 1, code_row_text at 1. cbn [fst snd].
    destruct m as [m|v].
    + destruct x as [x| |t]; [|reflexivity..].
      rewrite IH. cbn [andb].
      destruct (forallb numeric_row rows); [|reflexivity].
      by rewrite <- app_assoc.
    + rewrite IH. by destruct x.
Qed.

Lemma first_list_nil {A} (l : option (list (list A))) :
  falsy_list l || first_falsy l = bool_decide (first_list l = []).
Proof. by destruct l as [[|[|??]?]|]. Qed.

(** The guards of [semantic_search], in terms of the three lists. *)
Lemma search_results_text_cases (query : string) (results : QueryResult D) :
  let docs := first_list (q_documents results) in
  let metas := first_list (q_metadatas results) in
  let dists := first_list (q_distances results) in
  let rows := enumerate (zip (zip docs metas) dists) in
  search_results_text similarity_3f query results =
  if bool_decide (docs = [] ∨ metas = [] ∨ dists = [])
  then Ok ("No results found for query: '" +:+ query +:+ "'")
  else if bool_decide (length docs = length metas
                       ∧ length metas = length dists)
  then if forallb numeric_row rows
       then Ok (PyStr.join PyStr.nl
                  (omap (code_row_text similarity_3f) rows))
       else Raise TypeError
  else Ok ("Inconsistent result data for query: '" +:+ query +:+ "'").
Proof.
  intros docs metas dists rows. unfold search_results_text.
  rewrite <- !orb_assoc.
  rewrite (orb_assoc (falsy_list (q_metadatas results))),
          (orb_assoc (falsy_list (q_documents results))).
  rewrite !first_list_nil. fold docs. fold metas. fold dists. fold rows.
  rewrite format_code_loop_rows.
  rewrite !bool_decide_or, !bool_decide_and, !bool_decide_not.
  destruct (bool_decide (docs = [])), (bool_decide (metas = [])),
    (bool_decide (dists = [])),
    (bool_decide (length docs = length metas)),
    (bool_decide (length metas = length dists)); try reflexivity.
  simpl. by destruct (forallb numeric_row rows).
Qed.

(** C8, as amended.  For every answer of the store to the query of
    [semantic_search]: the call returns the "No results found" sentence
    when one of the three arrays is missing or empty; the "Inconsistent
    result data" sentence when the three arrays hold at least one entry
    each and are not of the same length; otherwise, when every row whose
    metadata is a dictionary has a number as its distance, the texts of
    the rows whose metadata is a dictionary, numbered by their position
    in the answer and joined by newlines, the other rows being skipped;
    and no answer whose rows meet that condition makes the call fail. *)
Theorem semantic_search_rows (code : gmap string (Row V))
  (files : option (gmap string (Row V))) (query : string) (k : Z)
  (filter : option string) (results : QueryResult D) :
  chroma_query code (embed query) k (where_filter filter) = Ok results →
  let docs := first_list (q_documents results) in
  let metas := first_list (q_metadatas results) in
  let dists := first_list (q_distances results) in
  let rows := enumerate (zip (zip docs metas) dists) in
  let answer :=
    semantic_search embed chroma_query similarity_3f
      (mkTool (Some code) files) query k filter in
  (docs = [] ∨ metas = [] ∨ dists = [] →
   answer = Ok ("No results found for query: '" +:+ query +:+ "'")) ∧
  (docs ≠ [] → metas ≠ [] → dists ≠ [] →
   ¬ (length docs = length metas ∧ length metas = length dists) →
   answer = Ok ("Inconsistent result data for query: '" +:+ query +:+ "'")) ∧
  (docs ≠ [] → metas ≠ [] → dists ≠ [] →
   length docs = length metas → length metas = length dists →
   forallb numeric_row rows = true →
   answer =
   Ok (PyStr.join PyStr.nl (omap (code_row_text similarity_3f) rows))) ∧
  (forallb numeric_row rows = true → ∃ text, answer = Ok text).
Proof.
  intros Hq docs metas dists rows answer.
  unfold answer, semantic_search. simpl. rewrite Hq. simpl.
  rewrite (search_results_text_cases query results).
  fold docs. fold metas. fold dists. fold rows.
  split; [|split; [|split]].
  - intros Hnil. rewrite bool_decide_true by done. done.
  - intros Hd Hm Hx Hlen. rewrite bool_decide_false by tauto.
    rewrite bool_decide_false by done. done.
  - intros Hd Hm Hx Hl1 Hl2 Hnum. rewrite bool_decide_false by tauto.
    rewrite bool_decide_true by done. by rewrite Hnum.
  - intros Hnum. rewrite Hnum.
    destruct (bool_decide _); [eauto|]. destruct (bool_decide _); eauto.
Qed.

Lemma parse_types_truthy (element_types t : string) :
  t ∈ parse_types element_types → PyStr.truthy t = true.
Proof.
  unfold parse_types. intros (x & -> & Hx)%list_elem_of_fmap.
  by apply list_elem_of_filter in Hx as [Hx _].
Qed.

Lemma parse_types_empty : parse_types "" = [].
Proof. reflexivity. Qed.

(** C10, as amended.  [search_code_tool] does not filter by element type.
    When the comma-separated [element_types] holds an entry that is not blank,
    only the first such entry, stripped, is used: the call is
    [semantic_search] with that entry as [file_type_filter], which asks
    the store for the entries whose [file_type] metadata equals it; and
    no metadata dictionary that the indexer writes for a code element
    has a [file_type] key, so no element matches, whatever the entry. *)
Theorem element_types_filter_is_file_type (cl : Client V)
  (query : string) (k : Z) (element_types t : string) (rest : list string) :
  parse_types element_types = t :: rest →
  search_code_tool not_found embed chroma_query similarity_3f cl query k
    element_types
  = (search_tool ← tool_init not_found cl;
     semantic_search embed chroma_query similarity_3f search_tool query k
       (Some t)) ∧
  (∀ code files,
     semantic_search embed chroma_query similarity_3f
       (mkTool (Some code) files) query k (Some t)
     = (results ← chroma_query code (embed query) k
                    (Some ("file_type", PStr t));
        search_results_text similarity_3f query results)) ∧
  (∀ (md5_hex : string → string) (e : CodeElement) (v : pyval),
     dict_get "file_type" (to_dict md5_hex e) = None ∧
     where_matches "file_type" v (to_dict md5_hex e) = false ∧
     dict_get "element_type" (to_dict md5_hex e)
     = Some (PStr (CodeElement.element_type e))).
Proof.
  intros Hparse.
  assert (PyStr.truthy t = true) as Ht.
  { apply (parse_types_truthy element_types). rewrite Hparse.
    apply list_elem_of_here. }
  assert (PyStr.truthy element_types = true) as Het.
  { destruct element_types; [|done]. by rewrite parse_types_empty in Hparse. }
  split; [|split].
  - unfold search_code_tool. by rewrite Het, Hparse.
  - intros code files. unfold semantic_search, where_filter. simpl.
    by rewrite Ht.
  - intros md5_hex e v. done.
Qed.

End SearchRows.

Lemma missing_collection_escapes_witness :
  NotFoundError ≠ ValueError ∧
  ((∅ : Client nat) !! "code_elements" = None
   ∨ (∅ : Client nat) !! "file_summaries" = None) ∧
  search_files_tool NotFoundError sample_embed (sample_query mixed_result)
    sample_similarity sample_exn_str ∅ "parse markdown" 5
  = Raise NotFoundError.
Proof.
  assert (NotFoundError ≠ ValueError) as H1 by discriminate.
  assert ((∅ : Client nat) !! "code_elements" = None
          ∨ (∅ : Client nat) !! "file_summaries" = None) as H2
    by (left; reflexivity).
  split; [exact H1|]. split; [exact H2|].
  pose proof (missing_collection_escapes NotFoundError sample_embed
                (sample_query mixed_result) sample_get_where sample_get_ids
                sample_similarity sample_exn_str id ∅ H1 H2) as H.
  exact (proj1 (proj2 (proj2 H)) "parse markdown" 5%Z).
Defined.

Lemma not_indexed_sentinel_witness :
  (∅ : Client nat) !! "code_elements" = None ∧
  (∅ : Client nat) !! "file_summaries" = None ∧
  search_code_tool ValueError sample_embed (sample_query mixed_result)
    sample_similarity ∅ "parse markdown" 5 "function"
  = Ok "No code index found. Please run indexing first.".
Proof.
  split; [reflexivity|]. split; [reflexivity|].
  pose proof (not_indexed_sentinel sample_embed (sample_query mixed_result)
                sample_get_where sample_get_ids sample_similarity
                sample_exn_str id id ∅ eq_refl eq_refl) as H.
  exact (proj1 (proj2 (proj2 (proj2 (proj2 (proj2 H)))))
           "parse markdown" 5%Z "function").
Defined.

Lemma semantic_search_rows_witness :
  sample_query mixed_result ∅ (sample_embed "f") 5%Z (where_filter None)
  = Ok mixed_result ∧
  forallb numeric_row
    (enumerate (zip (zip (first_list (q_documents mixed_result))
                         (first_list (q_metadatas mixed_result)))
                    (first_list (q_distances mixed_result)))) = true ∧
  semantic_search sample_embed (sample_query mixed_result) sample_similarity
    (mkTool (Some ∅) None) "f" 5 None
  = Ok (PyStr.join PyStr.nl
          [format_code_result sample_similarity 0 [("name", PStr "f")] 0%Z;
           format_code_result sample_similarity 2 [("name", PStr "g")] 2%Z]).
Proof.
  split; [reflexivity|]. split; [reflexivity|].
  pose proof (semantic_search_rows sample_embed (sample_query mixed_result)
                sample_similarity ∅ None "f" 5%Z None mixed_result eq_refl)
    as H.
  apply (proj1 (proj2 (proj2 H))); done.
Defined.

(** C8, as stated, fails.  The three arrays of the first answer hold one,
    zero and one entry: they differ in length, and the call returns the
    "No results found" sentence, not the "Inconsistent result data" one.
    The one row of the second answer has a dictionary as metadata and
    [None] as distance: the call raises [TypeError]. *)
Lemma ragged_result_counterexample :
  (length (first_list (q_documents ragged_result))
     ≠ length (first_list (q_metadatas ragged_result)) ∧
   semantic_search sample_embed (sample_query ragged_result) sample_similarity
     (mkTool (Some ∅) None) "f" 5 None
   = Ok "No results found for query: 'f'" ∧
   semantic_search sample_embed (sample_query ragged_result) sample_similarity
     (mkTool (Some ∅) None) "f" 5 None
   ≠ Ok "Inconsistent result data for query: 'f'") ∧
  semantic_search sample_embed (sample_query no_distance_result)
    sample_similarity (mkTool (Some ∅) None) "f" 5 None
  = Raise TypeError.
Proof.
  split; [|reflexivity].
  split; [|split]; [simpl; lia | reflexivity | discriminate].
Qed.

Lemma element_types_filter_is_file_type_witness :
  parse_types " function , class" = ["function"; "class"] ∧
  search_code_tool ValueError sample_embed (sample_query mixed_result)
    sample_similarity sample_store "f" 5 " function , class"
  = (search_tool ← tool_init ValueError sample_store;
     semantic_search sample_embed (sample_query mixed_result)
       sample_similarity search_tool "f" 5 (Some "function")).
Proof.
  split; [reflexivity|].
  exact (proj1 (element_types_filter_is_file_type ValueError sample_embed
                  (sample_query mixed_result) sample_similarity sample_store
                  "f" 5%Z " function , class" "function" ["class"] eq_refl)).
Defined.

(** C10, as stated, fails.  The string [","] is not empty, and none of
    its entries is used: the call is [semantic_search] without a filter,
    and the store is queried without a [where] argument.  In
    [" ,class"] the entry used is [class], the first one that is not
    blank. *)
Lemma blank_entries_counterexample :
  PyStr.truthy "," = true ∧
  search_code_tool ValueError sample_embed (sample_query mixed_result)
    sample_similarity sample_store "f" 5 ","
  = (search_tool ← tool_init ValueError sample_store;
     semantic_search sample_embed (sample_query mixed_result)
       sample_similarity search_tool "f" 5 None) ∧
  where_filter None = None ∧
  parse_types " ,class" = ["class"].
Proof. repeat split. Qed.

(** ** The indexing run on the sample project *)

Lemma indexing_idempotent_witness :
  run_indexing sample_embed sample_digest sample_parse sample_set_iter
    sample_fs sample_root ∅ = Ok (sample_report, sample_store) ∧
  run_indexing sample_embed sample_digest sample_parse sample_set_iter
    sample_fs sample_root sample_store = Ok (sample_report, sample_store).
Proof.
  assert (run_indexing sample_embed sample_digest sample_parse sample_set_iter
            sample_fs sample_root ∅ = Ok (sample_report, sample_store)) as H
    by reflexivity.
  split; [exact H|].
  exact (indexing_idempotent sample_embed sample_digest sample_parse
           sample_set_iter sample_fs sample_root ∅ sample_store sample_report H).
Defined.

(** C2, as stated, fails.  The file [m.py] holds an import and a class.
    The first run, in which the set of the two kinds is iterated as
    [import], [class], stores the summary text [import: 1, class: 1]; the
    second run, on the same file and on the store the first run left,
    iterates the set the other way round, returns the same report and
    leaves [class: 1, import: 1] under the same id: the metadata of the
    collection of summaries is not the same after the two runs. *)
Lemma set_order_counterexample :
  run_indexing sample_embed sample_digest (λ _ _, two_kinds_tree)
    sample_set_iter two_kinds_fs sample_root ∅
  = Ok (mkReport ["m.py"] 2 [], two_kinds_store) ∧
  run_indexing sample_embed sample_digest (λ _ _, two_kinds_tree)
    reversed_set_iter two_kinds_fs sample_root two_kinds_store
  = Ok (mkReport ["m.py"] 2 [], two_kinds_store_again) ∧
  kinds_of_m_py two_kinds_store = Some (PStr "import: 1, class: 1") ∧
  kinds_of_m_py two_kinds_store_again = Some (PStr "class: 1, import: 1") ∧
  two_kinds_store_again ≠ two_kinds_store.
Proof.
  split; [reflexivity|]. split; [reflexivity|].
  split; [reflexivity|]. split; [reflexivity|].
  intros Heq. apply (f_equal kinds_of_m_py) in Heq. vm_compute in Heq.
  discriminate Heq.
Qed.

(** C1 fails on the code.  In this project [src/b.jsx] cannot be read:
    the exception that [open] raises leaves [index_codebase], so the run
    returns no report, and nothing is recorded in [errors]; the file
    [a.md], which can be read, is lost with it. *)
Theorem unreadable_file_aborts_run :
  run_indexing sample_embed sample_digest sample_parse sample_set_iter
    unreadable_fs sample_root ∅ = Raise OSError.
Proof. vm_compute. reflexivity. Qed.

(** C3 fails on the code.  For the project root [/proj] the element of
    [/proj/a.md] carries the path [/proj/a.md], which is [str(file_path)]
    without [relative_to]; the summary of the same file carries
    [a.md]. *)
Theorem element_file_path_not_relative :
  (λ r : (list CodeElement * FileSummary) * Client nat,
     (map CodeElement.file_path r.1.1, fs_file_path r.1.2)) <$>
    _index_file sample_embed sample_parse sample_set_iter sample_fs
      sample_root ["/"; "proj"; "a.md"] ∅
  = Ok (["/proj/a.md"], "a.md").
Proof. vm_compute. reflexivity. Qed.

(** ** More on the indexing run *)

Lemma relative_to_app (root rel : Path) :
  PathOps.relative_to (root ++ rel) root = Ok rel.
Proof.
  induction root as [|r root IH]; simpl.
  - destruct rel; reflexivity.
  - rewrite String.eqb_refl. exact IH.
Qed.

Lemma relative_to_inv (p root rel : Path) :
  PathOps.relative_to p root = Ok rel → p = root ++ rel.
Proof.
  revert p. induction root as [|r root IH]; intros p; simpl.
  - destruct p; intros H; injection H as <-; reflexivity.
  - destruct p as [|x p]; simpl; [discriminate|].
    destruct (String.eqb_spec r x) as [->|]; [|discriminate].
    intros H. by rewrite (IH _ H).
Qed.

Section RunFacts.

Context {V : Type}.
Variable embed : string → V.
Variable md5_hex : string → string.
Variable ts_parse : string → string → Node.
Variable set_iter : list string → list string.
Variables (fs : FileSystem) (project_root : Path).

Lemma discover_under_root (f : Path) :
  f ∈ discover set_iter fs project_root →
  ∃ rel, f = project_root ++ rel ∧ rel ∈ fs_walk fs.
Proof.
  unfold discover. intros [_ Hf]%list_elem_of_filter.
  apply list_elem_of_bind in Hf as (ext & Hf & _).
  unfold rglob in Hf. apply list_elem_of_fmap in Hf as (rel & -> & Hrel).
  apply list_elem_of_filter in Hrel as [_ Hrel]. eauto.
Qed.

Lemma create_file_summary_inv (file_path : Path) (content : string)
  (elements : list CodeElement) (s : FileSummary) :
  _create_file_summary set_iter project_root file_path content elements = Ok s →
  ∃ rel, PathOps.relative_to file_path project_root = Ok rel ∧
         fs_file_path s = PathOps.str rel ∧
         fs_file_type s = PathOps.suffix file_path ∧
         fs_line_count s = length (PyStr.split PyStr.NL content) ∧
         fs_element_count s = length elements.
Proof.
  unfold _create_file_summary.
  destruct (PathOps.relative_to file_path project_root) as [rel|]; [|done].
  simpl. intros [= <-]. by exists rel.
Qed.

Lemma index_file_inv (file_path : Path) (cl cl' : Client V)
  (r : list CodeElement * FileSummary) :
  _index_file embed ts_parse set_iter fs project_root file_path cl
    = Ok (r, cl') →
  ∃ content,
    fs_read fs file_path = Ok content ∧
    _create_file_summary set_iter project_root file_path content r.1 = Ok r.2 ∧
    cl' = _store_file_summary embed r.2 cl.
Proof.
  unfold _index_file.
  destruct (fs_read fs file_path) as [content|]; [|done]. simpl.
  match goal with
  | |- context [ mbind _ ?m ] => destruct m as [els|]
  end; [|done].
  simpl.
  destruct (_create_file_summary set_iter project_root file_path content els)
    as [summary|] eqn:E; [|done].
  simpl. intros [= <- <-]. by exists content.
Qed.

End RunFacts.

Section StoreFacts.

Context {V : Type}.
Variable embed : string → V.
Variable md5_hex : string → string.

Lemma store_file_summary_lookup (s : FileSummary) (cl : Client V) :
  _store_file_summary embed s cl !! "file_summaries"
  = Some (<[fs_file_path s := summary_row embed s]>
            (default ∅ (cl !! "file_summaries"))).
Proof.
  unfold _store_file_summary, collection_upsert. by rewrite lookup_insert_eq.
Qed.

Lemma store_file_summary_other (s : FileSummary) (cl : Client V)
  (name : string) :
  name ≠ "file_summaries" →
  _store_file_summary embed s cl !! name = cl !! name.
Proof.
  intros Hne. unfold _store_file_summary, collection_upsert.
  by rewrite lookup_insert_ne.
Qed.

Lemma element_rows_zip (elements : list CodeElement) :
  zip (element_id md5_hex <$> elements)
      (zip_with (λ em d, mkRow em.1 em.2 d)
         (zip (embed <$> (searchable_text <$> elements))
              (to_dict md5_hex <$> elements))
         (searchable_text <$> elements))
  = (λ e, (element_id md5_hex e, element_row embed md5_hex e)) <$> elements.
Proof.
  induction elements as [|e els IH]; [done|].
  rewrite !fmap_cons. cbn [zip zip_with]. rewrite IH. done.
Qed.

Lemma store_elements_lookup (elements : list CodeElement) (cl : Client V) :
  elements ≠ [] →
  _store_elements embed md5_hex elements cl !! "code_elements"
  = Some (foldl (λ c ir, <[ir.1 := ir.2]> c)
            (default ∅ (cl !! "code_elements"))
            ((λ e, (element_id md5_hex e, element_row embed md5_hex e))
               <$> elements)).
Proof.
  intros Hne. destruct elements as [|e els]; [done|].
  unfold _store_elements, collection_upsert, chroma_upsert.
  by rewrite lookup_insert_eq, element_rows_zip.
Qed.

Lemma store_elements_other (elements : list CodeElement) (cl : Client V)
  (name : string) :
  name ≠ "code_elements" →
  _store_elements embed md5_hex elements cl !! name = cl !! name.
Proof.
  intros Hne. destruct elements as [|e els]; [done|].
  unfold _store_elements, collection_upsert. by rewrite lookup_insert_ne.
Qed.

Lemma get_or_create_lookup (name : string) (cl : Client V) :
  get_or_create name cl !! name = Some (default ∅ (cl !! name)).
Proof.
  unfold get_or_create. destruct (cl !! name) eqn:E; simpl.
  - by rewrite E.
  - by rewrite lookup_insert_eq.
Qed.

Lemma get_or_create_other (name other : string) (cl : Client V) :
  other ≠ name → get_or_create name cl !! other = cl !! other.
Proof.
  intros Hne. unfold get_or_create. destruct (cl !! name); [done|].
  by rewrite lookup_insert_ne.
Qed.

(** Upserting never removes an id, and adds at most one entry per row. *)
Lemma upsert_fold_keeps (l : list (string * Row V)) (c : gmap string (Row V))
  (id : string) :
  is_Some (c !! id) →
  is_Some (foldl (λ c ir, <[ir.1 := ir.2]> c) c l !! id).
Proof.
  revert c. induction l as [|[k v] l IH]; intros c Hc; [done|].
  simpl. apply IH. destruct (decide (k = id)) as [->|].
  - rewrite lookup_insert_eq. eauto.
  - by rewrite lookup_insert_ne.
Qed.

Lemma upsert_fold_size (l : list (string * Row V)) (c : gmap string (Row V)) :
  size (foldl (λ c ir, <[ir.1 := ir.2]> c) c l) ≤ size c + length l.
Proof.
  revert c. induction l as [|[k v] l IH]; intros c; simpl; [lia|].
  etrans; [apply IH|]. rewrite map_size_insert.
  destruct (c !! k); simpl; lia.
Qed.

Lemma upsert_fold_mem (l : list (string * Row V)) (c : gmap string (Row V))
  (k : string) (v : Row V) :
  (k, v) ∈ l →
  ∃ v', (k, v') ∈ l ∧ foldl (λ c ir, <[ir.1 := ir.2]> c) c l !! k = Some v'.
Proof.
  revert c. induction l as [|[k0 v0] l IH] using rev_ind; intros c Hin.
  - by apply elem_of_nil in Hin.
  - rewrite foldl_snoc. simpl. destruct (decide (k0 = k)) as [->|Hne].
    + exists v0. rewrite lookup_insert_eq. split; [|done].
      apply elem_of_app. right. apply list_elem_of_here.
    + rewrite lookup_insert_ne by done.
      apply elem_of_app in Hin as [Hin|Hin].
      * destruct (IH c Hin) as (v' & Hv' & Hl). exists v'.
        split; [|done]. apply elem_of_app. by left.
      * apply list_elem_of_singleton in Hin. congruence.
Qed.

End StoreFacts.

Section RunTheorems.

Context {V : Type}.
Variable embed : string → V.
Variable md5_hex : string → string.
Variable ts_parse : string → string → Node.
Variable set_iter : list string → list string.
Variables (fs : FileSystem) (project_root : Path).

Lemma index_file_parse (file_path : Path) (cl cl' : Client V)
  (r : list CodeElement * FileSummary) :
  _index_file embed ts_parse set_iter fs project_root file_path cl
    = Ok (r, cl') →
  ∃ content rel,
    fs_read fs file_path = Ok content ∧
    parse_file ts_parse file_path content = Ok r.1 ∧
    file_path = project_root ++ rel ∧
    fs_file_path r.2 = PathOps.str rel ∧
    fs_element_count r.2 = length r.1 ∧
    fs_line_count r.2 = length (PyStr.split PyStr.NL content) ∧
    cl' = _store_file_summary embed r.2 cl.
Proof.
  unfold _index_file, parse_file.
  destruct (fs_read fs file_path) as [content|]; [|done]. simpl.
  match goal with
  | |- context [ mbind _ ?m ] => destruct m as [els|] eqn:Hparse
  end; [|done].
  simpl.
  destruct (_create_file_summary set_iter project_root file_path content els)
    as [summary|] eqn:E; [|done].
  simpl. intros [= <- <-].
  apply create_file_summary_inv in E as (rel & Hrel & ? & ? & ? & ?).
  exists content, rel. simpl. split_and!; try done.
  by apply relative_to_inv.
Qed.

(** The loop, read backwards: what it returned came from one result per
    file. *)
Lemma index_loop_inv (code_files : list Path) :
  ∀ (fl : list string) (el : list CodeElement) (cl cl' : Client V)
    (fl' : list string) (el' : list CodeElement),
    index_loop embed ts_parse set_iter fs project_root code_files fl el cl
      = Ok ((fl', el'), cl') →
    ∃ results : list (list CodeElement * FileSummary),
      Forall2 (λ f r, ∃ content rel,
                 fs_read fs f = Ok content ∧
                 parse_file ts_parse f content = Ok r.1 ∧
                 f = project_root ++ rel ∧
                 fs_file_path r.2 = PathOps.str rel ∧
                 fs_element_count r.2 = length r.1)
              code_files results ∧
      fl' = fl ++ ((λ r, fs_file_path r.2) <$> results) ∧
      el' = el ++ concat (fst <$> results) ∧
      cl' = foldl (λ c r, _store_file_summary embed r.2 c) cl results.
Proof.
  induction code_files as [|f rest IH]; intros fl el cl cl' fl' el'.
  - simpl. intros [= <- <- <-]. exists []. simpl.
    rewrite !app_nil_r. split_and!; done.
  - cbn [index_loop].
    destruct (_index_file embed ts_parse set_iter fs project_root f cl)
      as [[r c1]|] eqn:Hf; [|done].
    simpl.
    destruct (index_file_parse _ _ _ _ Hf)
      as (content & rel & Hread & Hparse & -> & Hpath & Hcount & _ & ->).
    rewrite relative_to_app. simpl. intros Hloop.
    apply IH in Hloop as (results & HF & -> & -> & ->).
    exists (r :: results). split_and!.
    + constructor; [|done]. exists content, rel. done.
    + simpl. by rewrite Hpath, <- app_assoc.
    + simpl. by rewrite <- app_assoc.
    + done.
Qed.

Lemma summaries_fold_lookup (results : list (list CodeElement * FileSummary))
  (cl : Client V) (m : gmap string (Row V)) :
  cl !! "file_summaries" = Some m →
  foldl (λ c r, _store_file_summary embed r.2 c) cl results
    !! "file_summaries"
  = Some (foldl (λ c ir, <[ir.1 := ir.2]> c) m
            ((λ r, (fs_file_path r.2, summary_row embed r.2)) <$> results)).
Proof.
  revert cl m. induction results as [|r rs IH]; intros cl m Hm; [done|].
  simpl. apply IH. by rewrite store_file_summary_lookup, Hm.
Qed.

Lemma summaries_fold_other (results : list (list CodeElement * FileSummary))
  (cl : Client V) (name : string) :
  name ≠ "file_summaries" →
  foldl (λ c r, _store_file_summary embed r.2 c) cl results !! name
  = cl !! name.
Proof.
  intros Hne. revert cl. induction results as [|r rs IH]; intros cl; [done|].
  simpl. by rewrite IH, store_file_summary_other.
Qed.

(** A successful run, read backwards. *)
Lemma run_indexing_inv (cl cl1 : Client V) (report : Report) :
  run_indexing embed md5_hex ts_parse set_iter fs project_root cl
    = Ok (report, cl1) →
  ∃ results : list (list CodeElement * FileSummary),
    Forall2 (λ f r, ∃ content rel,
               fs_read fs f = Ok content ∧
               parse_file ts_parse f content = Ok r.1 ∧
               f = project_root ++ rel ∧
               fs_file_path r.2 = PathOps.str rel ∧
               fs_element_count r.2 = length r.1)
            (discover set_iter fs project_root) results ∧
    report = mkReport ((λ r, fs_file_path r.2) <$> results)
                      (length (concat (fst <$> results))) [] ∧
    cl1 = _store_elements embed md5_hex (concat (fst <$> results))
            (foldl (λ c r, _store_file_summary embed r.2 c)
               (get_or_create "file_summaries"
                  (get_or_create "code_elements" cl))
               results).
Proof.
  unfold run_indexing, index_codebase.
  destruct (index_loop embed ts_parse set_iter fs project_root
              (discover set_iter fs project_root) [] [] _)
    as [[[fl' el'] c']|] eqn:Hloop; [|done].
  simpl. intros [= <- <-].
  apply index_loop_inv in Hloop as (results & HF & -> & -> & ->).
  exists results. done.
Qed.

End RunTheorems.

Lemma str_in_elem (x : string) (l : list string) :
  str_in x l = true ↔ x ∈ l.
Proof.
  unfold str_in. induction l as [|y l IH]; simpl.
  - split; [done|]. intros H. by apply elem_of_nil in H.
  - rewrite orb_true_iff, IH, elem_of_cons, String.eqb_eq. done.
Qed.

Lemma elem_of_concat_2 {A} (x : A) (l : list A) (ls : list (list A)) :
  x ∈ l → l ∈ ls → x ∈ concat ls.
Proof.
  intros Hx Hl. induction Hl as [l ls|l l' ls Hl IH]; simpl.
  - apply elem_of_app. by left.
  - apply elem_of_app. right. by apply IH.
Qed.

Section StoredRows.

Context {V : Type}.

Lemma upsert_fold_skip (l : list (string * Row V)) (c : gmap string (Row V))
  (k : string) :
  k ∉ l.*1 → foldl (λ c ir, <[ir.1 := ir.2]> c) c l !! k = c !! k.
Proof.
  revert c. induction l as [|[k0 v0] l IH]; intros c Hk; [done|].
  rewrite fmap_cons in Hk. apply not_elem_of_cons in Hk as [Hne Hk].
  simpl in *. rewrite IH by done. by rewrite lookup_insert_ne.
Qed.

(** Of several rows upserted under one id, the last one stays. *)
Lemma upsert_fold_last (l1 l2 : list (string * Row V))
  (c : gmap string (Row V)) (k : string) (v : Row V) :
  k ∉ l2.*1 →
  foldl (λ c ir, <[ir.1 := ir.2]> c) c (l1 ++ (k, v) :: l2) !! k = Some v.
Proof.
  intros Hk. rewrite foldl_app. simpl.
  rewrite upsert_fold_skip by done. by rewrite lookup_insert_eq.
Qed.

End StoredRows.

Lemma split_at_last {A} (P : A → Prop) `{!∀ x, Decision (P x)}
  (l : list A) (x : A) :
  x ∈ l → P x →
  ∃ before y after,
    l = before ++ y :: after ∧ P y ∧ Forall (λ z, ¬ P z) after.
Proof.
  induction l as [|z l IH] using rev_ind; intros Hx HP.
  - by apply elem_of_nil in Hx.
  - destruct (decide (P z)) as [Hz|Hz].
    + exists l, z, []. by repeat split.
    + apply elem_of_app in Hx as [Hx|Hx].
      * destruct (IH Hx HP) as (before & y & after & -> & Hy & Hafter).
        exists before, y, (after ++ [z]). split; [|split; [done|]].
        -- by rewrite <- app_assoc.
        -- apply Forall_app. split; [done|]. by constructor.
      * apply list_elem_of_singleton in Hx as ->. done.
Qed.

Lemma NoDup_fmap_eq {A B} (f : A → B) (l : list A) (x y : A) :
  NoDup (f <$> l) → x ∈ l → y ∈ l → f x = f y → x = y.
Proof.
  intros Hnd [i Hi]%list_elem_of_lookup [j Hj]%list_elem_of_lookup Hf.
  assert (i = j) as ->.
  { apply (NoDup_lookup (f <$> l) i j (f x)); [done|..].
    - by rewrite list_lookup_fmap, Hi.
    - by rewrite list_lookup_fmap, Hj, Hf. }
  congruence.
Qed.

Section RunProperties.

Context {V : Type}.
Variable embed : string → V.
Variable md5_hex : string → string.
Variable ts_parse : string → string → Node.
Variable set_iter : list string → list string.
Variables (fs : FileSystem) (project_root : Path).

(** X1.  The report of a run that returns: [errors] is empty; the entries
    of [indexed_files] are, in order, the paths of the discovered files
    relative to the root; and [total_elements] is the number of elements
    that the parsers gave for these files, all files together. *)
Theorem report_accounts_for_files (cl cl1 : Client V) (report : Report) :
  run_indexing embed md5_hex ts_parse set_iter fs project_root cl
    = Ok (report, cl1) →
  errors report = [] ∧
  Forall2 (λ f s, ∃ rel, f = project_root ++ rel ∧ s = PathOps.str rel)
          (discover set_iter fs project_root) (indexed_files report) ∧
  ∃ per_file : list (list CodeElement),
    Forall2 (λ f els, ∃ content, fs_read fs f = Ok content ∧
                                 parse_file ts_parse f content = Ok els)
            (discover set_iter fs project_root) per_file ∧
    total_elements report = length (concat per_file).
Proof.
  intros (results & HF & -> & _)%run_indexing_inv. simpl.
  split; [done|]. split.
  - apply Forall2_fmap_r. eapply Forall2_impl; [exact HF|].
    intros f r (content & rel & _ & _ & -> & Hp & _). eauto.
  - exists (fst <$> results). split; [|done].
    apply Forall2_fmap_r. eapply Forall2_impl; [exact HF|].
    intros f r (content & rel & ? & ? & _). eauto.
Qed.

(** X2.  After a run that returns, the collection of file summaries holds,
    under every path that the report lists, an entry whose metadata
    carries that path as [file_path]. *)
Theorem indexed_file_has_summary (cl cl1 : Client V) (report : Report) :
  run_indexing embed md5_hex ts_parse set_iter fs project_root cl
    = Ok (report, cl1) →
  ∃ files, cl1 !! "file_summaries" = Some files ∧
    ∀ p, p ∈ indexed_files report →
         ∃ row, files !! p = Some row ∧
                dict_get "file_path" (metadata row) = Some (PStr p) ∧
                dict_get "summary" (metadata row) = Some (PStr (document row)).
Proof.
  intros (results & _ & -> & ->)%run_indexing_inv. simpl.
  rewrite store_elements_other by done.
  erewrite summaries_fold_lookup by apply get_or_create_lookup.
  eexists. split; [done|]. intros p Hp.
  apply list_elem_of_fmap in Hp as (r & -> & Hr).
  edestruct (upsert_fold_mem
               ((λ r, (fs_file_path r.2, summary_row embed r.2)) <$> results)
               (default ∅ (get_or_create "code_elements" cl
                             !! "file_summaries"))
               (fs_file_path r.2) (summary_row embed r.2))
    as (row & Hrow & Hl).
  { apply list_elem_of_fmap. by exists r. }
  exists row. split; [exact Hl|].
  apply list_elem_of_fmap in Hrow as (r' & [= Hk ->] & _).
  simpl. by rewrite Hk.
Qed.

(** X3.  A run never deletes: an id that a collection held before the run
    is still in it after the run, and a collection other than the two of
    the indexer is left as it was. *)
Theorem indexing_never_deletes (cl cl1 : Client V) (report : Report) :
  run_indexing embed md5_hex ts_parse set_iter fs project_root cl
    = Ok (report, cl1) →
  (∀ name c id,
     cl !! name = Some c → is_Some (c !! id) →
     ∃ c1, cl1 !! name = Some c1 ∧ is_Some (c1 !! id)) ∧
  (∀ name, name ≠ "code_elements" → name ≠ "file_summaries" →
           cl1 !! name = cl !! name).
Proof.
  intros Hrun. split.
  - destruct (run_indexing_blind embed md5_hex ts_parse set_iter fs
                project_root) as [[e He]|(a & O & Ha)].
    + by rewrite He in Hrun.
    + rewrite Ha in Hrun. injection Hrun as _ <-.
      intros name c id Hc Hid. rewrite lookup_overlay, Hc.
      destruct (O !! name) as [o|]; [|eauto].
      eexists. split; [done|]. destruct Hid as [row Hrow].
      destruct (o !! id) as [row'|] eqn:Ho.
      * exists row'. by apply lookup_union_Some_l.
      * exists row. by rewrite lookup_union_r.
  - apply run_indexing_inv in Hrun as (results & _ & _ & ->).
    intros name H1 H2.
    rewrite store_elements_other, summaries_fold_other by done.
    by rewrite !get_or_create_other.
Qed.

(** X4.  A run adds at most one entry per element to the collection of
    code elements and at most one entry per file to the collection of
    file summaries. *)
Theorem store_growth_bounded (cl cl1 : Client V) (report : Report) :
  run_indexing embed md5_hex ts_parse set_iter fs project_root cl
    = Ok (report, cl1) →
  size (default ∅ (cl1 !! "code_elements"))
    ≤ size (default ∅ (cl !! "code_elements")) + total_elements report ∧
  size (default ∅ (cl1 !! "file_summaries"))
    ≤ size (default ∅ (cl !! "file_summaries"))
      + length (indexed_files report).
Proof.
  intros (results & _ & -> & ->)%run_indexing_inv. simpl. split.
  - destruct (concat results.*1) as [|e els] eqn:E.
    + simpl. rewrite summaries_fold_other by done.
      rewrite get_or_create_other, get_or_create_lookup by done. simpl. lia.
    + rewrite store_elements_lookup by done.
      rewrite summaries_fold_other by done.
      rewrite get_or_create_other, get_or_create_lookup by done. simpl.
      etrans; [apply upsert_fold_size|]. rewrite length_fmap.
      rewrite map_size_insert.
      destruct (default ∅ (cl !! "code_elements") !! element_id md5_hex e);
        simpl; lia.
  - rewrite store_elements_other by done.
    erewrite summaries_fold_lookup by apply get_or_create_lookup. simpl.
    etrans; [apply upsert_fold_size|]. rewrite !length_fmap.
    rewrite get_or_create_other by done. lia.
Qed.

(** X5.  After a run that returns, every element that a parser gave for a
    discovered file is in the collection of code elements under its
    storage id.  The entry there is the one written for the last element
    of the run that has this id, the elements of the run being those of
    the discovered files in the order of discovery; when no two elements
    of the run share an id, it is the entry of the element itself: its
    searchable text, the embedding of that text and its dictionary. *)
Theorem parsed_element_is_stored (cl cl1 : Client V) (report : Report)
  (f : Path) (content : string) (els : list CodeElement) (e : CodeElement) :
  run_indexing embed md5_hex ts_parse set_iter fs project_root cl
    = Ok (report, cl1) →
  f ∈ discover set_iter fs project_root →
  fs_read fs f = Ok content →
  parse_file ts_parse f content = Ok els →
  e ∈ els →
  ∃ code (per_file : list (list CodeElement)) before e' after,
    cl1 !! "code_elements" = Some code ∧
    Forall2 (λ f els, ∃ content, fs_read fs f = Ok content ∧
                                 parse_file ts_parse f content = Ok els)
            (discover set_iter fs project_root) per_file ∧
    concat per_file = before ++ e' :: after ∧
    element_id md5_hex e' = element_id md5_hex e ∧
    Forall (λ x, element_id md5_hex x ≠ element_id md5_hex e) after ∧
    code !! element_id md5_hex e = Some (element_row embed md5_hex e') ∧
    (NoDup (element_id md5_hex <$> concat per_file) → e' = e).
Proof.
  intros (results & HF & _ & ->)%run_indexing_inv Hf Hread Hparse He.
  apply list_elem_of_lookup in Hf as [i Hi].
  destruct (Forall2_lookup_l _ _ _ _ _ HF Hi)
    as (r & Hr & content' & rel & Hread' & Hparse' & _).
  rewrite Hread in Hread'. injection Hread' as <-.
  rewrite Hparse in Hparse'. injection Hparse' as ->.
  assert (e ∈ concat results.*1) as Hin.
  { apply (elem_of_concat_2 e r.1); [done|].
    apply list_elem_of_fmap. exists r. split; [done|].
    by apply list_elem_of_lookup_2 in Hr. }
  destruct (split_at_last
              (λ x, element_id md5_hex x = element_id md5_hex e)
              (concat results.*1) e Hin eq_refl)
    as (before & e' & after & Hsplit & Hid & Hafter).
  rewrite store_elements_lookup by (intros Hnil; rewrite Hnil in Hin;
                                    by apply elem_of_nil in Hin).
  eexists _, (results.*1), before, e', after.
  split; [done|]. split; [|split; [done|split; [done|split; [done|split]]]].
  - apply Forall2_fmap_r. eapply Forall2_impl; [exact HF|].
    intros f' r' (content' & rel' & ? & ? & _). eauto.
  - rewrite Hsplit, fmap_app, fmap_cons, <- Hid.
    apply upsert_fold_last. intros Hk.
    apply list_elem_of_fmap in Hk as ([k v] & Hk & Hkv). simpl in Hk.
    apply list_elem_of_fmap in Hkv as (x & [= -> ->] & Hx).
    rewrite Forall_forall in Hafter. apply (Hafter x Hx). congruence.
  - intros Hnd. apply (NoDup_fmap_eq (element_id md5_hex) (concat results.*1));
      [done| |done|done].
    rewrite Hsplit. apply elem_of_app. right. apply list_elem_of_here.
Qed.

(** X6.  No discovered file has a part that is one of the ignored
    directory names; the parts of the project root count too, so a root
    that lies below a directory of such a name has no discovered file. *)
Theorem ignored_parts_are_skipped :
  (∀ f d, f ∈ discover set_iter fs project_root →
          d ∈ ignore_dirs → d ∉ f) ∧
  (∀ d, d ∈ ignore_dirs → d ∈ project_root →
        discover set_iter fs project_root = []).
Proof.
  assert (∀ f d, f ∈ discover set_iter fs project_root →
                 d ∈ ignore_dirs → d ∉ f) as Hskip.
  { intros f d [Hf _]%list_elem_of_filter Hd Hin.
    apply not_true_iff_false in Hf. apply Hf.
    apply existsb_exists. exists d. split.
    - by apply list_elem_of_In.
    - by apply str_in_elem. }
  split; [exact Hskip|].
  intros d Hd Hroot.
  destruct (decide (discover set_iter fs project_root = [])) as [|Hne];
    [done|].
  exfalso.
  assert (∃ f, f ∈ discover set_iter fs project_root) as [f Hf].
  { destruct (discover set_iter fs project_root) as [|f fl]; [done|].
    exists f. apply list_elem_of_here. }
  destruct (discover_under_root set_iter fs project_root f Hf)
    as (rel & -> & _).
  apply (Hskip _ d Hf Hd). apply elem_of_app. by left.
Qed.

End RunProperties.

(** ** More on the parsers *)

Lemma StronglySorted_omap {A B} (R : relation A) (R' : relation B)
  (f : A → option B) (l : list A) :
  (∀ x y x' y', R x y → f x = Some x' → f y = Some y' → R' x' y') →
  StronglySorted R l → StronglySorted R' (omap f l).
Proof.
  intros Hf. induction 1 as [|x l Hl IH Hx]; simpl; [constructor|].
  destruct (f x) as [x'|] eqn:Ex; [|done].
  constructor; [done|]. apply Forall_forall. intros y' Hy'.
  apply list_elem_of_omap in Hy' as (y & Hy & Ey).
  rewrite Forall_forall in Hx. eauto.
Qed.

Lemma range_step_sorted (stop step : nat) :
  StronglySorted (λ i j, i + step ≤ j) (py_range_step stop step).
Proof.
  unfold py_range_step. generalize ((stop + step - 1) `div` step) as n.
  intros n. generalize 0 as a.
  induction n as [|n IH]; intros a; simpl; [constructor|].
  constructor; [apply IH|]. apply Forall_forall. intros j Hj.
  apply list_elem_of_fmap in Hj as (k & -> & Hk). apply elem_of_seq in Hk. nia.
Qed.

(** X7.  The elements of the chunk parser come in ascending order and
    their line ranges do not overlap: each one ends before every later
    one starts. *)
Theorem chunks_do_not_overlap (p : Path) (content : string) :
  StronglySorted ends_before (_simple_text_chunks p content).
Proof.
  unfold _simple_text_chunks.
  eapply StronglySorted_omap; [|apply range_step_sorted].
  intros i j e1 e2 Hij H1 H2. unfold ends_before.
  destruct (PyStr.truthy _); [|done].
  destruct (PyStr.truthy _); [|done].
  injection H1 as <-. injection H2 as <-. simpl.
  unfold chunk_size in *. lia.
Qed.

Lemma md_number_start (rs : list (string * list string)) :
  ∀ s r, r ∈ md_number s rs → s ≤ r.1.2.
Proof.
  induction rs as [|[h body] rs IH]; intros s r Hr; simpl in Hr.
  - by apply elem_of_nil in Hr.
  - apply elem_of_cons in Hr as [->|Hr]; [done|]. apply IH in Hr. lia.
Qed.

Lemma md_number_sorted (rs : list (string * list string)) :
  ∀ s, StronglySorted (λ r1 r2, r1.1.2 + length r1.2 < r2.1.2)
                      (md_number s rs).
Proof.
  induction rs as [|[h body] rs IH]; intros s; simpl; [constructor|].
  constructor; [apply IH|]. apply Forall_forall. intros r Hr.
  apply md_number_start in Hr. simpl. lia.
Qed.

(** X8.  The elements of the markdown parser come in ascending order and
    their line ranges do not overlap, with at least one line, that of a
    heading, between two of them. *)
Theorem sections_do_not_overlap (p : Path) (content : string) :
  StronglySorted (λ e1 e2, CodeElement.end_line e1 + 1
                             < CodeElement.start_line e2)
                 (_parse_markdown p content).
Proof.
  rewrite parse_markdown_sections.
  eapply StronglySorted_omap; [|apply md_number_sorted].
  intros r1 r2 e1 e2 Hr H1 H2. unfold section_element in *.
  destruct (any_nonblank r1.2) eqn:Hnb; [|done].
  destruct (any_nonblank r2.2); [|done].
  injection H1 as <-. injection H2 as <-. simpl.
  apply any_nonblank_not_nil in Hnb.
  destruct r1.2; [done|]. simpl in *. lia.
Qed.

Lemma md_split_no_heading (lines : list string) :
  ∀ (h : string) (pre : list string) (r : string * list string),
    Forall (λ l, is_heading l = false) pre →
    r ∈ add_body pre (md_split h lines) →
    Forall (λ l, is_heading l = false) r.2.
Proof.
  induction lines as [|l rest IH]; intros h pre r Hpre Hr.
  - simpl in Hr. apply list_elem_of_singleton in Hr as ->. simpl.
    by rewrite app_nil_r.
  - destruct (is_heading l) eqn:Hl.
    + rewrite (md_split_heading _ _ _ Hl) in Hr. simpl in Hr.
      rewrite app_nil_r in Hr. apply elem_of_cons in Hr as [->|Hr]; [done|].
      apply (IH (heading_name l) []); [constructor|].
      by destruct (md_split _ _) as [|[??]?].
    + rewrite (md_split_body _ _ _ Hl), <- add_body_app in Hr.
      apply (IH h (pre ++ [l])); [|done].
      apply Forall_app. split; [done|]. by constructor.
Qed.

Lemma md_number_bodies (rs : list (string * list string)) :
  ∀ s r, r ∈ md_number s rs → (r.1.1, r.2) ∈ rs.
Proof.
  induction rs as [|[h body] rs IH]; intros s r Hr; simpl in Hr.
  - by apply elem_of_nil in Hr.
  - apply elem_of_cons in Hr as [->|Hr]; [apply list_elem_of_here|].
    apply list_elem_of_further. by apply (IH _ _ Hr).
Qed.

(** X9.  No line in the range of an element of the markdown parser is a
    heading line. *)
Theorem section_holds_no_heading (p : Path) (content : string)
  (e : CodeElement) :
  e ∈ _parse_markdown p content →
  Forall (λ l, is_heading l = false)
         (py_slice (CodeElement.start_line e - 1) (CodeElement.end_line e)
                   (PyStr.split PyStr.NL content)).
Proof.
  rewrite parse_markdown_sections. intros He.
  set (lines := PyStr.split PyStr.NL content) in *.
  apply list_elem_of_omap in He as (r & Hr & He).
  assert (md_split "Introduction" lines
          = add_body [] (md_split "Introduction" lines))
    as Heq by (by destruct (md_split _ _) as [|[??]?]).
  pose proof Hr as Hr'. rewrite Heq in Hr'.
  apply md_number_slices in Hr' as [Hs Hb]. simpl in Hb.
  apply md_number_bodies in Hr. rewrite Heq in Hr.
  apply md_split_no_heading in Hr; [|constructor]. simpl in Hr.
  unfold section_element in He.
  destruct (any_nonblank r.2) eqn:Hnb; [|done].
  apply any_nonblank_not_nil in Hnb.
  injection He as <-. simpl.
  assert (0 < length r.2) by (destruct r.2; [done|simpl; lia]).
  rewrite Hb in Hr.
  replace (r.1.2 + length r.2 - 1) with (r.1.2 - 1 + length r.2) by lia.
  exact Hr.
Qed.

Section TraverseNil.

Variables (file_ext : string) (lines : list string) (file_path : Path).
Variable R : Node → Prop.

Hypothesis visit_nil :
  ∀ n : Node, R n → visit_node file_ext lines file_path n = Ok [].

(** When no visit appends anything, the traversal returns the empty
    list. *)
Fixpoint traverse_node_nil (n : Node) :
  all_nodes R n → traverse_node file_ext lines file_path n = Ok [].
Proof.
  destruct n as [t s e cs]. intros Hall.
  pose proof (all_nodes_here _ _ Hall) as Hn.
  simpl in Hall. destruct Hall as [_ Hcs].
  simpl traverse_node. rewrite (visit_nil _ Hn). simpl.
  match goal with
  | |- (?tc cs ≫= _) = _ => assert (tc cs = Ok []) as Hcs'
  end.
  { clear Hn. induction cs as [|c cs IHcs]; [reflexivity|].
    destruct Hcs as [Hc Hcs].
    rewrite (traverse_node_nil c.2 Hc). simpl. rewrite (IHcs Hcs).
    reflexivity. }
  rewrite Hcs'. reflexivity.
Qed.

End TraverseNil.

(** X10.  The traversal of a Python tree gives no element when no node of
    the tree has one of the four node types that it tests for, and the
    traversal under an extension other than [.py], [.js], [.ts] and
    [.tsx] gives no element for any tree. *)
Theorem unlisted_nodes_give_no_element :
  (∀ (ts_parse : string → string → Node) (p : Path) (content : string),
     all_nodes (λ n, str_in (NodeOps.type n) python_node_types = false)
               (ts_parse ".py" content) →
     _parse_with_tree_sitter ts_parse p content ".py" = Ok []) ∧
  (∀ (file_ext : string) (lines : list string) (p : Path) (tree : Node),
     String.eqb file_ext ".py" = false →
     str_in file_ext [".js"; ".ts"; ".tsx"] = false →
     traverse_node file_ext lines p tree = Ok []).
Proof.
  split.
  - intros ts_parse p content Hall. unfold _parse_with_tree_sitter.
    change (str_in ".py" parsers) with true. cbv iota.
    apply (traverse_node_nil ".py" (PyStr.split PyStr.NL content) p
             (λ n, str_in (NodeOps.type n) python_node_types = false));
      [|exact Hall].
    intros n Hn. unfold visit_node, python_node_types in *.
    change (String.eqb ".py" ".py") with true. cbv iota. by rewrite Hn.
  - intros file_ext lines p tree H1 H2.
    apply (traverse_node_nil file_ext lines p (λ _, True));
      [|apply all_nodes_True].
    intros n _. unfold visit_node. by rewrite H1, H2.
Qed.

(** X11.  A name that is missing.  Under Python a [function_def] or
    [class_definition] node without a [name] child raises
    [AttributeError]; under JavaScript and TypeScript a
    [function_declaration] or [class_declaration] node without a [name]
    child gives no element and raises nothing; and a [method_definition]
    node gives no element, with a name or without. *)
Theorem missing_name_behaviour (n : Node) (lines : list string) (p : Path) :
  (NodeOps.child_by_field_name "name" n = None →
   NodeOps.type n = "function_def" ∨ NodeOps.type n = "class_definition" →
   _extract_python_element n lines p = Raise AttributeError ∧
   visit_node ".py" lines p n = Raise AttributeError ∧
   traverse_node ".py" lines p n = Raise AttributeError) ∧
  (NodeOps.child_by_field_name "name" n = None →
   NodeOps.type n = "function_declaration"
   ∨ NodeOps.type n = "class_declaration" →
   _extract_js_ts_element n lines p = Ok None) ∧
  (NodeOps.type n = "method_definition" →
   _extract_js_ts_element n lines p = Ok None ∧
   visit_node ".js" lines p n = Ok []).
Proof.
  split; [|split].
  - intros Hname Hty.
    assert (_extract_python_element n lines p = Raise AttributeError) as He.
    { unfold _extract_python_element. rewrite Hname.
      destruct Hty as [-> | ->]; reflexivity. }
    assert (visit_node ".py" lines p n = Raise AttributeError) as Hv.
    { unfold visit_node. change (String.eqb ".py" ".py") with true.
      cbv iota. rewrite He. destruct Hty as [-> | ->]; reflexivity. }
    split; [done|]. split; [done|].
    destruct n as [t s e cs]. simpl traverse_node. by rewrite Hv.
  - intros Hname Hty. unfold _extract_js_ts_element. rewrite Hname.
    destruct Hty as [-> | ->]; reflexivity.
  - intros Hty. unfold visit_node, _extract_js_ts_element. rewrite Hty.
    split; reflexivity.
Qed.

Lemma extract_python_kind (n : Node) (lines : list string) (p : Path)
  (e : CodeElement) :
  _extract_python_element n lines p = Ok (Some e) →
  (CodeElement.element_type e = "function"
   ∨ CodeElement.element_type e = "class"
   ∨ CodeElement.element_type e = "import"
     ∧ CodeElement.name e = "import" ∧ CodeElement.docstring e = "").
Proof.
  unfold _extract_python_element. intros H.
  repeat (case_match; simplify_eq/=; try done);
    try match goal with
    | H : (?m ≫= _) = Ok _ |- _ => destruct m eqn:?; simplify_eq/=
    end; tauto.
Qed.

Lemma extract_js_ts_kind (n : Node) (lines : list string) (p : Path)
  (e : CodeElement) :
  _extract_js_ts_element n lines p = Ok (Some e) →
  CodeElement.docstring e = "" ∧
  (CodeElement.element_type e = "function"
   ∨ CodeElement.element_type e = "class"
   ∨ CodeElement.element_type e = "import" ∧ CodeElement.name e = "import").
Proof.
  unfold _extract_js_ts_element. intros H.
  repeat (case_match; simplify_eq/=; try done);
    try match goal with
    | H : (?m ≫= _) = Ok _ |- _ => destruct m eqn:?; simplify_eq/=
    end; tauto.
Qed.

(** X12.  The kinds of elements.  Every element of the chunk parser is a
    [text_chunk] and every element of the markdown parser a
    [markdown_section], both without docstring; every element of the
    grammar parser is a [function], a [class] or an [import], and an
    [import] element is named [import] whatever it imports. *)
Theorem element_kinds :
  (∀ p content e,
     e ∈ _simple_text_chunks p content →
     CodeElement.element_type e = "text_chunk"
     ∧ CodeElement.docstring e = "") ∧
  (∀ p content e,
     e ∈ _parse_markdown p content →
     CodeElement.element_type e = "markdown_section"
     ∧ CodeElement.docstring e = "") ∧
  (∀ ts_parse p content file_ext els e,
     _parse_with_tree_sitter ts_parse p content file_ext = Ok els →
     e ∈ els →
     CodeElement.element_type e = "function"
     ∨ CodeElement.element_type e = "class"
     ∨ CodeElement.element_type e = "import"
       ∧ CodeElement.name e = "import").
Proof.
  split; [|split].
  - intros p content e He. unfold _simple_text_chunks in He.
    apply list_elem_of_omap in He as (i & _ & He).
    destruct (PyStr.truthy _); [|done]. by injection He as <-.
  - intros p content e He. rewrite parse_markdown_sections in He.
    apply list_elem_of_omap in He as (r & _ & He).
    unfold section_element in He.
    destruct (any_nonblank _); [|done]. by injection He as <-.
  - intros ts_parse p content file_ext els e Hp He.
    unfold _parse_with_tree_sitter in Hp.
    destruct (str_in file_ext parsers); [|done].
    assert (Forall (λ e, CodeElement.element_type e = "function"
                         ∨ CodeElement.element_type e = "class"
                         ∨ CodeElement.element_type e = "import"
                           ∧ CodeElement.name e = "import") els) as HF.
    { apply (traverse_node_Forall file_ext (PyStr.split PyStr.NL content) p
               (λ _, True) _) with (n := ts_parse file_ext content);
        [|apply all_nodes_True|done].
      intros n els' _ Hv. unfold visit_node in Hv.
      repeat (case_match; simplify_eq/=; try done);
        match goal with
        | H : (_ <$> ?m) = Ok _ |- _ =>
            destruct m as [[x|]|] eqn:E; simplify_eq/=; [|done]
        end; constructor; try done.
      - apply extract_python_kind in E. tauto.
      - apply extract_js_ts_kind in E. tauto. }
    rewrite Forall_forall in HF. by apply HF.
Qed.

(** ** More on the search tool *)

Section GuardedSearch.

Context {V D : Type}.
Variable not_found : exn.
Variable embed : string → V.
Variable chroma_query :
  gmap string (Row V) → V → Z → option (string * pyval) → res (QueryResult D).
Variable chroma_get_where :
  gmap string (Row V) → string * pyval → option Z → res GetResult.
Variable chroma_get_ids :
  gmap string (Row V) → list string → res GetResult.
Variable similarity_3f : D → string.
Variable exn_str : exn → string.
Variables py_title py_upper : string → string.

Lemma catching_ok (prefix : string) (body : res string) :
  ∃ text, catching exn_str prefix body = Ok text.
Proof. destruct body; simpl; eauto. Qed.

Lemma tool_init_returns (cl : Client V) :
  (is_Some (cl !! "code_elements") ∧ is_Some (cl !! "file_summaries"))
  ∨ not_found = ValueError →
  ∃ self, tool_init not_found cl = Ok self.
Proof.
  intros [[[code Hcode] [files Hfiles]]| ->].
  - eexists. by apply tool_init_present.
  - unfold tool_init, get_collection.
    destruct (cl !! "code_elements"), (cl !! "file_summaries"); simpl; eauto.
Qed.

(** X13.  [find_files_by_content], [find_elements_by_type] and
    [get_file_structure] return a text for every tool, every argument
    and every behaviour of the store, an exception of the store
    included.  [search_files_tool] and [get_file_context_tool] return a
    text when the constructor returns, that is when the store holds the
    two collections or the library raises [ValueError] for a missing
    one; when a collection is missing and the library raises another
    exception, that exception leaves the tool function. *)
Theorem guarded_operations_return_text :
  (∀ self query k, ∃ text,
     find_files_by_content embed chroma_query similarity_3f exn_str
       self query k = Ok text) ∧
  (∀ self element_type k, ∃ text,
     find_elements_by_type chroma_get_where exn_str py_title
       self element_type k = Ok text) ∧
  (∀ self file_path, ∃ text,
     get_file_structure chroma_get_where chroma_get_ids exn_str py_upper
       self file_path = Ok text) ∧
  (∀ (cl : Client V) query k file_path,
     (is_Some (cl !! "code_elements") ∧ is_Some (cl !! "file_summaries"))
     ∨ not_found = ValueError →
     (∃ text, search_files_tool not_found embed chroma_query similarity_3f
                exn_str cl query k = Ok text) ∧
     (∃ text, get_file_context_tool not_found chroma_get_where
                chroma_get_ids exn_str py_upper cl file_path k = Ok text)) ∧
  (∀ (cl : Client V) query k file_path,
     cl !! "code_elements" = None ∨ cl !! "file_summaries" = None →
     not_found ≠ ValueError →
     search_files_tool not_found embed chroma_query similarity_3f
       exn_str cl query k = Raise not_found ∧
     get_file_context_tool not_found chroma_get_where
       chroma_get_ids exn_str py_upper cl file_path k = Raise not_found).
Proof.
  assert (∀ self query k, ∃ text,
     find_files_by_content embed chroma_query similarity_3f exn_str
       self query k = Ok text) as H1.
  { intros. unfold find_files_by_content.
    destruct (file_collection self); [apply catching_ok|eauto]. }
  assert (∀ self file_path, ∃ text,
     get_file_structure chroma_get_where chroma_get_ids exn_str py_upper
       self file_path = Ok text) as H3.
  { intros. unfold get_file_structure.
    destruct (code_collection self); [apply catching_ok|eauto]. }
  split; [exact H1|]. split; [|split; [exact H3|split]].
  - intros. unfold find_elements_by_type.
    destruct (code_collection self); [apply catching_ok|eauto].
  - intros cl query k file_path [self Hinit]%tool_init_returns.
    unfold search_files_tool, get_file_context_tool. rewrite Hinit. simpl.
    split; [apply H1 | apply H3].
  - intros cl query k file_path Hmiss Hne.
    unfold search_files_tool, get_file_context_tool.
    rewrite (tool_init_missing not_found cl Hmiss).
    by destruct (decide _).
Qed.

(** X14.  [semantic_search] has no handler: when the query of the store
    raises, the call raises the same exception, and so does
    [search_code_tool] on a store that holds the two collections. *)
Theorem semantic_search_propagates (cl : Client V)
  (code files : gmap string (Row V)) (query : string) (k : Z)
  (element_types : string) (e : exn) :
  cl !! "code_elements" = Some code →
  cl !! "file_summaries" = Some files →
  (∀ filter, chroma_query code (embed query) k filter = Raise e) →
  (∀ filter,
     semantic_search embed chroma_query similarity_3f
       (mkTool (Some code) (Some files)) query k filter = Raise e) ∧
  search_code_tool not_found embed chroma_query similarity_3f cl query k
    element_types
  = Raise e.
Proof.
  intros Hcode Hfiles Hq.
  assert (∀ filter,
     semantic_search embed chroma_query similarity_3f
       (mkTool (Some code) (Some files)) query k filter = Raise e) as Hs.
  { intros filter. unfold semantic_search. simpl. by rewrite Hq. }
  split; [exact Hs|].
  unfold search_code_tool. rewrite (tool_init_present _ _ _ _ Hcode Hfiles).
  simpl. apply Hs.
Qed.

Lemma format_file_loop_rows
  (rows : list (nat * ((string * pymeta) * pydist D))) (acc : list string) :
  format_file_loop similarity_3f rows acc
  = if forallb numeric_row rows
    then Ok (acc ++ omap (file_row_text similarity_3f) rows)
    else Raise TypeError.
Proof.
  revert acc. induction rows as [|[i [[doc m] x]] rows IH]; intros acc.
  - simpl. by rewrite app_nil_r.
  - cbn [format_file_loop forallb omap list_omap].
    unfold numeric_row at 1, file_row_text at 1. cbn [fst snd].
    destruct m as [m|v].
    + destruct x as [x| |t]; [|reflexivity..].
      rewrite IH. cbn [andb].
      destruct (forallb numeric_row rows); [|reflexivity].
      by rewrite <- app_assoc.
    + rewrite IH. by destruct x.
Qed.

(** X15.  [find_files_by_content] on an answer of the store: the "No
    files found" sentence when one of the three arrays is missing or
    empty, the "Inconsistent file data" sentence when they are not of
    the same length, and otherwise the texts of the rows whose metadata
    is a dictionary, numbered by their position in the answer; when such
    a row has a distance that is not a number, the "Error finding files"
    text with the [TypeError] that the handler caught. *)
Theorem find_files_rows (files : gmap string (Row V))
  (code : option (gmap string (Row V))) (query : string) (k : Z)
  (results : QueryResult D) :
  chroma_query files (embed query) k None = Ok results →
  let docs := first_list (q_documents results) in
  let metas := first_list (q_metadatas results) in
  let dists := first_list (q_distances results) in
  let rows := enumerate (zip (zip docs metas) dists) in
  find_files_by_content embed chroma_query similarity_3f exn_str
    (mkTool code (Some files)) query k
  = Ok (if bool_decide (docs = [] ∨ metas = [] ∨ dists = [])
        then "No files found for query: '" +:+ query +:+ "'"
        else if bool_decide (length docs = length metas
                             ∧ length metas = length dists)
        then if forallb numeric_row rows
             then PyStr.join PyStr.nl (omap (file_row_text similarity_3f) rows)
             else "Error finding files: " +:+ exn_str TypeError
        else "Inconsistent file data for query: '" +:+ query +:+ "'").
Proof.
  intros Hq docs metas dists rows. unfold find_files_by_content. simpl.
  rewrite Hq. simpl.
  rewrite <- !orb_assoc.
  rewrite (orb_assoc (falsy_list (q_metadatas results))),
          (orb_assoc (falsy_list (q_documents results))).
  rewrite !first_list_nil. fold docs. fold metas. fold dists. fold rows.
  rewrite format_file_loop_rows.
  rewrite !bool_decide_or, !bool_decide_and, !bool_decide_not.
  destruct (bool_decide (docs = [])), (bool_decide (metas = [])),
    (bool_decide (dists = [])),
    (bool_decide (length docs = length metas)),
    (bool_decide (length metas = length dists)); try reflexivity.
  simpl. by destruct (forallb numeric_row rows).
Qed.

End GuardedSearch.

(** ** Grouping by kind *)

Lemma group_add_keys_old (t : string) (m : dict)
  (gs : list (string * list dict)) :
  t ∈ gs.*1 → (group_add t m gs).*1 = gs.*1.
Proof.
  induction gs as [|[k ms] gs IH]; intros Hin.
  - by apply elem_of_nil in Hin.
  - cbn [group_add]. destruct (String.eqb_spec k t) as [->|Hne]; [done|].
    rewrite !fmap_cons. f_equal. apply IH.
    rewrite fmap_cons in Hin. apply elem_of_cons in Hin as [?|?]; [|done].
    simpl in *. congruence.
Qed.

Lemma group_add_keys_new (t : string) (m : dict)
  (gs : list (string * list dict)) :
  t ∉ gs.*1 → (group_add t m gs).*1 = gs.*1 ++ [t].
Proof.
  induction gs as [|[k ms] gs IH]; intros Hin; [done|].
  cbn [group_add]. rewrite fmap_cons in Hin.
  apply not_elem_of_cons in Hin as [Hk Hin]. simpl in Hk.
  destruct (String.eqb_spec k t) as [->|Hne]; [done|].
  rewrite !fmap_cons. simpl. f_equal. by apply IH.
Qed.

Lemma group_add_NoDup (t : string) (m : dict) (gs : list (string * list dict)) :
  NoDup gs.*1 → NoDup (group_add t m gs).*1.
Proof.
  intros Hnd. destruct (decide (t ∈ gs.*1)) as [Hin|Hin].
  - by rewrite group_add_keys_old.
  - rewrite group_add_keys_new by done.
    apply NoDup_app. split; [done|]. split.
    + intros x Hx Hx'. apply list_elem_of_singleton in Hx'. by subst.
    + apply NoDup_singleton.
Qed.

Lemma group_add_members (t : string) (m : dict)
  (gs : list (string * list dict)) :
  grouping_kind m = Some t →
  Forall (λ g, g.2 ≠ [] ∧ Forall (λ m, grouping_kind m = Some g.1) g.2) gs →
  Forall (λ g, g.2 ≠ [] ∧ Forall (λ m, grouping_kind m = Some g.1) g.2)
         (group_add t m gs).
Proof.
  intros Hm. induction 1 as [|[k ms] gs [Hne Hk] Hgs IH]; simpl.
  - constructor; [|constructor]. simpl. split; [done|]. by constructor.
  - destruct (String.eqb_spec k t) as [->|Hkt].
    + constructor; [|done]. simpl. split.
      * by destruct ms.
      * apply Forall_app. split; [done|]. by constructor.
    + constructor; [|done]. done.
Qed.

Lemma group_add_concat (t : string) (m : dict)
  (gs : list (string * list dict)) :
  concat (group_add t m gs).*2 ≡ₚ concat gs.*2 ++ [m].
Proof.
  induction gs as [|[k ms] gs IH]; simpl; [done|].
  destruct (String.eqb_spec k t) as [->|Hkt]; simpl.
  - rewrite <- !app_assoc. apply Permutation_app_head.
    apply Permutation_app_comm.
  - rewrite IH. by rewrite app_assoc.
Qed.

Lemma group_loop_dict (m : dict) (rest : list pymeta)
  (gs : list (string * list dict)) :
  group_loop (MDict m :: rest) gs =
  match grouping_kind m with
  | Some t => group_loop rest (group_add t m gs)
  | None => group_loop rest gs
  end.
Proof.
  unfold grouping_kind. simpl.
  by destruct (dict_get "element_type" m) as [[]|].
Qed.

Lemma grouped_rows_dict (m : dict) (rest : list pymeta) :
  grouped_rows (MDict m :: rest) =
  match grouping_kind m with
  | Some _ => m :: grouped_rows rest
  | None => grouped_rows rest
  end.
Proof. unfold grouped_rows. simpl. by destruct (grouping_kind m). Qed.

Lemma group_loop_spec (metadatas : list pymeta) :
  ∀ gs : list (string * list dict),
    NoDup gs.*1 →
    Forall (λ g, g.2 ≠ [] ∧ Forall (λ m, grouping_kind m = Some g.1) g.2) gs →
    NoDup (group_loop metadatas gs).*1 ∧
    Forall (λ g, g.2 ≠ [] ∧ Forall (λ m, grouping_kind m = Some g.1) g.2)
           (group_loop metadatas gs) ∧
    concat (group_loop metadatas gs).*2
      ≡ₚ concat gs.*2 ++ grouped_rows metadatas.
Proof.
  induction metadatas as [|pm rest IH]; intros gs Hnd Hgs.
  - simpl. split_and!; [done|done|]. by rewrite app_nil_r.
  - destruct pm as [m|v]; [|by apply IH].
    rewrite group_loop_dict, grouped_rows_dict.
    destruct (grouping_kind m) as [t|] eqn:E; [|by apply IH].
    destruct (IH (group_add t m gs)) as (H1 & H2 & H3).
    { by apply group_add_NoDup. }
    { by apply group_add_members. }
    split_and!; [done|done|].
    rewrite H3, group_add_concat, <- app_assoc. done.
Qed.

(** X16.  The groups that [get_file_structure] builds from the metadata
    of a file: no kind has two groups, no group is empty, every member of
    a group is of the kind of the group, and the members of all groups
    are the dictionaries of the answer whose kind is a string or
    missing, each one once. *)
Theorem groups_by_kind (metadatas : list pymeta) :
  let groups := group_loop metadatas [] in
  NoDup groups.*1 ∧
  Forall (λ g, g.2 ≠ [] ∧ Forall (λ m, grouping_kind m = Some g.1) g.2)
         groups ∧
  concat groups.*2 ≡ₚ grouped_rows metadatas.
Proof.
  destruct (group_loop_spec metadatas [] (NoDup_nil_2) (Forall_nil_2 _))
    as (H1 & H2 & H3).
  split_and!; done.
Qed.

(** ** The keys that the indexer writes and the search reads *)

(** X17.  On the metadata that the indexer writes for an element, the
    filter of [find_elements_by_type] selects by the kind of the element
    and the filter of [get_file_structure] by its [file_path], the path as
    the parser received it; and each key that the formatter of search
    results reads is there. *)
Theorem store_filters_on_elements (md5_hex : string → string)
  (e : CodeElement) (t : string) :
  where_matches "element_type" (PStr t) (to_dict md5_hex e)
  = bool_decide (CodeElement.element_type e = t) ∧
  where_matches "file_path" (PStr t) (to_dict md5_hex e)
  = bool_decide (CodeElement.file_path e = t) ∧
  Forall (λ k, is_Some (dict_get k (to_dict md5_hex e)))
         ["name"; "element_type"; "file_path"; "start_line"; "end_line";
          "docstring"; "content"].
Proof.
  unfold where_matches. split; [|split].
  - apply bool_decide_ext. simpl. split; congruence.
  - apply bool_decide_ext. simpl. split; congruence.
  - repeat constructor; simpl; eauto.
Qed.

(** ** The indexing tool *)

Section IndexTool.

Context {V : Type}.
Variable embed : string → V.
Variable md5_hex : string → string.
Variable ts_parse : string → string → Node.
Variable set_iter : list string → list string.
Variables (fs : FileSystem) (project_root : Path).

(** X18.  [index_codebase_tool] after a run that returns: the text has
    the number of discovered files and the number of elements, and no
    part about errors; after a run that raises, it raises the same
    exception. *)
Theorem index_tool_status (cl : Client V) :
  (∀ report cl1,
     run_indexing embed md5_hex ts_parse set_iter fs project_root cl
       = Ok (report, cl1) →
     index_codebase_tool embed md5_hex ts_parse set_iter fs project_root cl
     = Ok ("Indexing complete!" +:+ PyStr.nl
           +:+ "Files indexed: "
           +:+ pretty (length (discover set_iter fs project_root))
           +:+ PyStr.nl
           +:+ "Code elements found: " +:+ pretty (total_elements report)
           +:+ PyStr.nl +:+ PyStr.nl
           +:+ "You can now search the codebase using semantic queries!",
           cl1)) ∧
  (∀ e,
     run_indexing embed md5_hex ts_parse set_iter fs project_root cl
       = Raise e →
     index_codebase_tool embed md5_hex ts_parse set_iter fs project_root cl
     = Raise e).
Proof.
  split.
  - intros report cl1 Hrun. unfold index_codebase_tool. rewrite Hrun. simpl.
    apply run_indexing_inv in Hrun as (results & HF & -> & _).
    unfold index_status_text. simpl.
    rewrite length_fmap, <- (Forall2_length _ _ _ HF).
    by rewrite !str_app_assoc.
  - intros e Hrun. unfold index_codebase_tool. by rewrite Hrun.
Qed.

End IndexTool.

(** ** Entries and contents after stripping *)

(** X19.  Every entry that [search_code_tool] reads out of
    [element_types] is non-empty, holds no comma, and is the stripped
    form of a piece of the string between two commas. *)
Theorem parsed_types_are_clean (element_types t : string) :
  t ∈ parse_types element_types →
  PyStr.truthy t = true ∧
  PyStr.mem "," t = false ∧
  ∃ piece, piece ∈ PyStr.split "," element_types ∧ t = PyStr.strip piece.
Proof.
  unfold parse_types. intros (x & -> & Hx)%list_elem_of_fmap.
  apply list_elem_of_filter in Hx as [Hx Hsplit].
  split; [done|]. split; [|eauto].
  apply split_pieces_free in Hsplit.
  destruct (PyStr.mem "," (PyStr.strip x)) eqn:E; [|done].
  rewrite <- any_char_mem in E. apply any_char_strip_by_le in E.
  by rewrite any_char_mem, Hsplit in E.
Qed.

(** X20.  No element of the chunk parser or of the markdown parser is
    blank: its content holds a character that is not white space. *)
Theorem content_is_never_blank :
  (∀ p content e,
     e ∈ _simple_text_chunks p content →
     any_char (λ c, negb (PyStr.is_space c)) (CodeElement.content e) = true) ∧
  (∀ p content e,
     e ∈ _parse_markdown p content →
     any_char (λ c, negb (PyStr.is_space c)) (CodeElement.content e) = true
     ∧ CodeElement.content e ≠ "").
Proof.
  split.
  - intros p content e He. unfold _simple_text_chunks in He.
    apply list_elem_of_omap in He as (i & _ & He).
    destruct (PyStr.truthy _) eqn:Ht; [|done]. injection He as <-. simpl.
    unfold PyStr.strip in Ht. by rewrite truthy_strip_by in Ht.
  - intros p content e He. rewrite parse_markdown_sections in He.
    apply list_elem_of_omap in He as (r & _ & He).
    unfold section_element in He.
    destruct (any_nonblank r.2) eqn:Hnb; [|done]. injection He as <-. simpl.
    unfold any_nonblank in Hnb. apply existsb_exists in Hnb as (l & Hl & Hink).
    apply list_elem_of_In in Hl.
    unfold PyStr.strip in Hink. rewrite truthy_strip_by in Hink.
    assert (any_char (λ c, negb (PyStr.is_space c))
              (PyStr.strip (PyStr.join PyStr.nl r.2)) = true) as Hc.
    { unfold PyStr.strip. rewrite any_char_strip_by.
      by apply (any_char_join _ _ l). }
    split; [exact Hc|]. intros Heq. by rewrite Heq in Hc.
Qed.

(** ** The properties on the sample inputs *)

Lemma report_accounts_for_files_witness :
  run_indexing sample_embed sample_digest sample_parse sample_set_iter
    sample_fs sample_root ∅ = Ok (sample_report, sample_store) ∧
  errors sample_report = [].
Proof.
  assert (run_indexing sample_embed sample_digest sample_parse sample_set_iter
            sample_fs sample_root ∅ = Ok (sample_report, sample_store)) as H
    by reflexivity.
  split; [exact H|].
  exact (proj1 (report_accounts_for_files _ _ _ _ _ _ _ _ _ H)).
Defined.

Lemma indexed_file_has_summary_witness :
  run_indexing sample_embed sample_digest sample_parse sample_set_iter
    sample_fs sample_root ∅ = Ok (sample_report, sample_store) ∧
  ∃ files, sample_store !! "file_summaries" = Some files ∧
    ∀ p, p ∈ indexed_files sample_report →
         ∃ row, files !! p = Some row ∧
                dict_get "file_path" (metadata row) = Some (PStr p) ∧
                dict_get "summary" (metadata row) = Some (PStr (document row)).
Proof.
  assert (run_indexing sample_embed sample_digest sample_parse sample_set_iter
            sample_fs sample_root ∅ = Ok (sample_report, sample_store)) as H
    by reflexivity.
  split; [exact H|].
  exact (indexed_file_has_summary _ _ _ _ _ _ _ _ _ H).
Defined.

Lemma indexing_never_deletes_witness :
  run_indexing sample_embed sample_digest sample_parse sample_set_iter
    sample_fs sample_root ∅ = Ok (sample_report, sample_store) ∧
  sample_store !! "notes" = (∅ : Client nat) !! "notes".
Proof.
  assert (run_indexing sample_embed sample_digest sample_parse sample_set_iter
            sample_fs sample_root ∅ = Ok (sample_report, sample_store)) as H
    by reflexivity.
  split; [exact H|].
  apply (proj2 (indexing_never_deletes _ _ _ _ _ _ _ _ _ H)); discriminate.
Defined.

Lemma store_growth_bounded_witness :
  run_indexing sample_embed sample_digest sample_parse sample_set_iter
    sample_fs sample_root ∅ = Ok (sample_report, sample_store) ∧
  size (default ∅ (sample_store !! "code_elements"))
    ≤ size (default ∅ ((∅ : Client nat) !! "code_elements"))
      + total_elements sample_report.
Proof.
  assert (run_indexing sample_embed sample_digest sample_parse sample_set_iter
            sample_fs sample_root ∅ = Ok (sample_report, sample_store)) as H
    by reflexivity.
  split; [exact H|].
  exact (proj1 (store_growth_bounded _ _ _ _ _ _ _ _ _ H)).
Defined.

Lemma parsed_element_is_stored_witness :
  run_indexing sample_embed sample_digest sample_parse sample_set_iter
    sample_fs sample_root ∅ = Ok (sample_report, sample_store) ∧
  ["/"; "proj"; "a.md"] ∈ discover sample_set_iter sample_fs sample_root ∧
  fs_read sample_fs ["/"; "proj"; "a.md"]
    = Ok ("# A" +:+ PyStr.nl +:+ "body") ∧
  parse_file sample_parse ["/"; "proj"; "a.md"]
    ("# A" +:+ PyStr.nl +:+ "body") = Ok [sample_section] ∧
  sample_section ∈ [sample_section] ∧
  ∃ code (per_file : list (list CodeElement)) before e' after,
    sample_store !! "code_elements" = Some code ∧
    Forall2 (λ f els, ∃ content,
               fs_read sample_fs f = Ok content ∧
               parse_file sample_parse f content = Ok els)
            (discover sample_set_iter sample_fs sample_root) per_file ∧
    concat per_file = before ++ e' :: after ∧
    element_id sample_digest e' = element_id sample_digest sample_section ∧
    Forall (λ x, element_id sample_digest x
                 ≠ element_id sample_digest sample_section) after ∧
    code !! element_id sample_digest sample_section
    = Some (element_row sample_embed sample_digest e') ∧
    (NoDup (element_id sample_digest <$> concat per_file) →
     e' = sample_section).
Proof.
  assert (run_indexing sample_embed sample_digest sample_parse sample_set_iter
            sample_fs sample_root ∅ = Ok (sample_report, sample_store)) as H
    by reflexivity.
  assert (["/"; "proj"; "a.md"]
            ∈ discover sample_set_iter sample_fs sample_root) as Hf.
  { vm_compute. apply list_elem_of_further, list_elem_of_here. }
  assert (sample_section ∈ [sample_section]) as He
    by apply list_elem_of_here.
  split; [exact H|]. split; [exact Hf|]. split; [reflexivity|].
  split; [reflexivity|]. split; [exact He|].
  exact (parsed_element_is_stored sample_embed sample_digest sample_parse
           sample_set_iter sample_fs sample_root ∅ sample_store sample_report
           ["/"; "proj"; "a.md"] ("# A" +:+ PyStr.nl +:+ "body")
           [sample_section] sample_section H Hf eq_refl eq_refl He).
Defined.

Lemma ignored_parts_are_skipped_witness :
  "venv" ∈ ignore_dirs ∧ "venv" ∈ venv_root ∧
  discover sample_set_iter sample_fs venv_root = [].
Proof.
  assert ("venv" ∈ ignore_dirs) as H1.
  { unfold ignore_dirs. do 4 apply list_elem_of_further.
    apply list_elem_of_here. }
  assert ("venv" ∈ venv_root) as H2.
  { unfold venv_root. do 2 apply list_elem_of_further.
    apply list_elem_of_here. }
  split; [exact H1|]. split; [exact H2|].
  exact (proj2 (ignored_parts_are_skipped sample_set_iter sample_fs venv_root)
           "venv" H1 H2).
Defined.

Lemma section_holds_no_heading_witness :
  section_A ∈ _parse_markdown ["guide.md"] section_text ∧
  Forall (λ l, is_heading l = false)
         (py_slice (CodeElement.start_line section_A - 1)
                   (CodeElement.end_line section_A)
                   (PyStr.split PyStr.NL section_text)).
Proof.
  assert (section_A ∈ _parse_markdown ["guide.md"] section_text) as H.
  { vm_compute. apply list_elem_of_here. }
  split; [exact H|].
  exact (section_holds_no_heading ["guide.md"] section_text section_A H).
Defined.

Lemma unlisted_nodes_give_no_element_witness :
  all_nodes (λ n, str_in (NodeOps.type n) python_node_types = false)
            function_tree ∧
  _parse_with_tree_sitter (λ _ _, function_tree) ["pkg"; "mod.py"]
    "def f(): pass" ".py" = Ok [].
Proof.
  assert (all_nodes (λ n, str_in (NodeOps.type n) python_node_types = false)
            ((λ _ _ : string, function_tree) ".py" "def f(): pass")) as H.
  { simpl. repeat split. }
  split; [exact H|].
  exact (proj1 unlisted_nodes_give_no_element (λ _ _, function_tree)
           ["pkg"; "mod.py"] "def f(): pass" H).
Defined.

Lemma missing_name_behaviour_witness :
  NodeOps.child_by_field_name "name" nameless_class = None ∧
  NodeOps.type nameless_class = "class_definition" ∧
  traverse_node ".py" ["class:"] ["pkg"; "mod.py"] nameless_class
  = Raise AttributeError.
Proof.
  split; [reflexivity|]. split; [reflexivity|].
  exact (proj2 (proj2 (proj1 (missing_name_behaviour nameless_class
                                ["class:"] ["pkg"; "mod.py"])
                         eq_refl (or_intror eq_refl)))).
Defined.

Lemma element_kinds_witness :
  chunk_element ∈ _simple_text_chunks ["view.jsx"] "let x" ∧
  CodeElement.element_type chunk_element = "text_chunk" ∧
  CodeElement.docstring chunk_element = "".
Proof.
  assert (chunk_element ∈ _simple_text_chunks ["view.jsx"] "let x") as H.
  { vm_compute. apply list_elem_of_here. }
  split; [exact H|].
  exact (proj1 element_kinds ["view.jsx"] "let x" chunk_element H).
Defined.

Lemma guarded_operations_return_text_witness :
  ((is_Some (sample_store !! "code_elements")
    ∧ is_Some (sample_store !! "file_summaries"))
   ∨ NotFoundError = ValueError) ∧
  ∃ text, search_files_tool NotFoundError sample_embed raising_query
            sample_similarity sample_exn_str sample_store "agent" 5
          = Ok text.
Proof.
  assert ((is_Some (sample_store !! "code_elements")
           ∧ is_Some (sample_store !! "file_summaries"))
          ∨ NotFoundError = ValueError) as H.
  { left. split; eexists; reflexivity. }
  split; [exact H|].
  exact (proj1 (proj1 (proj2 (proj2 (proj2
           (guarded_operations_return_text NotFoundError sample_embed
              raising_query sample_get_where sample_get_ids
              sample_similarity sample_exn_str id id))))
           sample_store "agent" 5%Z "a.md" H)).
Defined.

Lemma semantic_search_propagates_witness :
  (<["code_elements" := ∅]> (<["file_summaries" := ∅]> ∅) : Client nat)
    !! "code_elements" = Some ∅ ∧
  search_code_tool NotFoundError sample_embed raising_query sample_similarity
    (<["code_elements" := ∅]> (<["file_summaries" := ∅]> ∅))
    "agent" 5 "" = Raise OSError.
Proof.
  split; [reflexivity|].
  exact (proj2 (semantic_search_propagates NotFoundError sample_embed
                  raising_query sample_similarity
                  (<["code_elements" := ∅]> (<["file_summaries" := ∅]> ∅))
                  ∅ ∅ "agent" 5%Z "" OSError eq_refl eq_refl
                  (λ _, eq_refl))).
Defined.

Lemma find_files_rows_witness :
  sample_query files_result ∅ (sample_embed "agent") 5%Z None
  = Ok files_result ∧
  find_files_by_content sample_embed (sample_query files_result)
    sample_similarity sample_exn_str (mkTool None (Some ∅)) "agent" 5
  = Ok (PyStr.join PyStr.nl
          [format_file_result sample_similarity 0
             [("file_path", PStr "a.md"); ("file_type", PStr ".md")] 0%Z]).
Proof.
  split; [reflexivity|].
  exact (find_files_rows sample_embed (sample_query files_result)
           sample_similarity sample_exn_str ∅ None "agent" 5%Z files_result
           eq_refl).
Defined.

Lemma index_tool_status_witness :
  run_indexing sample_embed sample_digest sample_parse sample_set_iter
    unreadable_fs sample_root ∅ = Raise OSError ∧
  index_codebase_tool sample_embed sample_digest sample_parse sample_set_iter
    unreadable_fs sample_root ∅ = Raise OSError.
Proof.
  assert (run_indexing sample_embed sample_digest sample_parse sample_set_iter
            unreadable_fs sample_root ∅ = Raise OSError) as H
    by reflexivity.
  split; [exact H|].
  exact (proj2 (index_tool_status sample_embed sample_digest sample_parse
                  sample_set_iter unreadable_fs sample_root ∅) OSError H).
Defined.

Lemma parsed_types_are_clean_witness :
  "class" ∈ parse_types " function , class" ∧
  PyStr.truthy "class" = true ∧ PyStr.mem "," "class" = false.
Proof.
  assert ("class" ∈ parse_types " function , class") as H.
  { vm_compute. apply list_elem_of_further, list_elem_of_here. }
  split; [exact H|].
  pose proof (parsed_types_are_clean " function , class" "class" H)
    as (H1 & H2 & _).
  split; [exact H1 | exact H2].
Defined.

Lemma content_is_never_blank_witness :
  section_A ∈ _parse_markdown ["guide.md"] section_text ∧
  CodeElement.content section_A ≠ "".
Proof.
  assert (section_A ∈ _parse_markdown ["guide.md"] section_text) as H.
  { vm_compute. apply list_elem_of_here. }
  split; [exact H|].
  exact (proj2 (proj2 content_is_never_blank ["guide.md"] section_text
                  section_A H)).
Defined.
